(** * pdf_extractor: a shallow embedding of [PDFExtractor]

    The development follows [academic_pdf_notes/scripts/pdf_extractor.py].
    Python values are modelled as they are used by the script:
    - a [str] is a sequence of Unicode code points ([list N]);
    - an [int] is a [Z];
    - a page dictionary [{"page_number": n, "text": t}] is a [PageRecord];
    - the two PDF libraries are parameters of the model: a document is given
      by its page count and by what text extraction yields on each page;
    - opening and closing a document and raising an exception are effects of
      a small state-and-exception monad [Py];
    - [json.dumps] and [json.loads] follow the encoder and the decoder of the
      Python standard library. *)

From Stdlib Require Import List ZArith NArith Lia Bool String Ascii.
From Stdlib Require Decimal DecimalFacts DecimalPos DecimalZ.
Import ListNotations.

(** ** Python strings *)

Module PyStr.

Local Open Scope N_scope.

Definition char := N.
Definition str := list char.

(** An ASCII literal of the source, as a sequence of code points. *)
Definition lit (s : string) : str :=
  List.map N_of_ascii (list_ascii_of_string s).

Fixpoint eqb (a b : str) : bool :=
  match a, b with
  | [], [] => true
  | x :: a', y :: b' => N.eqb x y && eqb a' b'
  | _, _ => false
  end.

(** [s.startswith(prefix)] *)
Fixpoint startswith (s prefix : str) {struct prefix} : bool :=
  match prefix, s with
  | [], _ => true
  | p :: prefix', c :: s' => N.eqb c p && startswith s' prefix'
  | _ :: _, [] => false
  end.

(** [pat in s] *)
Fixpoint contains (pat s : str) : bool :=
  startswith s pat ||
  match s with
  | [] => false
  | _ :: s' => contains pat s'
  end.

(** The code points Python treats as whitespace in [str.strip()] and
    [str.split()]. *)
Definition isspace (c : char) : bool :=
  ((9 <=? c) && (c <=? 13)) || ((28 <=? c) && (c <=? 32))
  || (c =? 133) || (c =? 160) || (c =? 5760)
  || ((8192 <=? c) && (c <=? 8202))
  || (c =? 8232) || (c =? 8233) || (c =? 8239) || (c =? 8287)
  || (c =? 12288).

Fixpoint lstrip (s : str) : str :=
  match s with
  | [] => []
  | c :: s' => if isspace c then lstrip s' else s
  end.

Definition rstrip (s : str) : str := List.rev (lstrip (List.rev s)).

(** [s.strip()] *)
Definition strip (s : str) : str := rstrip (lstrip s).

(** [s.split(sep)] for a one-character separator. *)
Fixpoint split_on (sep : char) (s : str) : list str :=
  match s with
  | [] => [[]]
  | c :: s' =>
      if N.eqb c sep then [] :: split_on sep s'
      else match split_on sep s' with
           | [] => [[c]]
           | l :: ls => (c :: l) :: ls
           end
  end.

(** [s.split()]: maximal runs of non-whitespace; [cur] is the run being
    read, last character first. *)
Fixpoint split_ws_from (cur : str) (s : str) : list str :=
  match s with
  | [] => match cur with [] => [] | _ => [List.rev cur] end
  | c :: s' =>
      if isspace c
      then match cur with
           | [] => split_ws_from [] s'
           | _ => List.rev cur :: split_ws_from [] s'
           end
      else split_ws_from (c :: cur) s'
  end.

Definition split (s : str) : list str := split_ws_from [] s.

(** [sep.join(parts)] *)
Fixpoint join (sep : str) (parts : list str) : str :=
  match parts with
  | [] => []
  | [p] => p
  | p :: ps => p ++ sep ++ join sep ps
  end.

(** [c * n] for a one-character string [c]. *)
Definition repeat_char (c : char) (n : nat) : str := List.repeat c n.

Definition is_ascii_digit (c : char) : bool := (48 <=? c) && (c <=? 57).

(** [s.startswith(tuple('0123456789'))] *)
Definition startswith_any_digit (s : str) : bool :=
  existsb (fun d => startswith s [d]) (lit "0123456789").

End PyStr.

Import PyStr.

Local Open Scope Z_scope.

Definition NL : char := 10%N.

(** ** Effects: exceptions and open document handles *)

Inductive exn :=
| IndexError
| ValueError (msg : string)
| LibraryError (code : nat).

Inductive outcome (A : Type) :=
| Return (a : A)
| Raise (e : exn).

Arguments Return {A} a.
Arguments Raise {A} e.

(** The state the script acts on: how many PDF document handles are open. *)
Record World := mkWorld { open_handles : nat }.

Definition Py (A : Type) : Type := World -> outcome A * World.

Definition ret {A} (a : A) : Py A := fun w => (Return a, w).

Definition raise {A} (e : exn) : Py A := fun w => (Raise e, w).

Definition bind {A B} (m : Py A) (k : A -> Py B) : Py B :=
  fun w =>
    match m w with
    | (Return a, w') => k a w'
    | (Raise e, w') => (Raise e, w')
    end.

Notation "x <- m ;; k" := (bind m (fun x => k))
  (at level 61, m at next level, right associativity).
Notation "m ;;; k" := (bind m (fun _ => k))
  (at level 61, right associativity).

(** A library call whose outcome is already known. *)
Definition call {A} (o : outcome A) : Py A := fun w => (o, w).

Definition acquire : Py unit :=
  fun w => (Return tt, mkWorld (S (open_handles w))).

Definition release : Py unit :=
  fun w => (Return tt, mkWorld (pred (open_handles w))).

(** [with open(...) as x: body]: the handle is acquired, the body runs, and
    [__exit__] releases the handle whether the body returned or raised; the
    exception, if any, propagates. *)
Definition with_handle {A} (body : Py A) : Py A :=
  fun w =>
    match acquire w with
    | (_, w1) =>
        match body w1 with
        | (r, w2) => (r, snd (release w2))
        end
    end.

(** [for x in xs: acc = body x acc], stopping at the first exception. *)
Fixpoint for_each {A S} (xs : list A) (body : A -> S -> Py S) (acc : S)
    : Py S :=
  match xs with
  | [] => ret acc
  | x :: xs' => acc' <- body x acc ;; for_each xs' body acc'
  end.

(** [range(a, b)] *)
Definition py_range (a b : Z) : list Z :=
  List.map (fun k => a + Z.of_nat k) (List.seq 0 (Z.to_nat (b - a))).

(** [l[i]] on a Python list: a negative index counts from the end. *)
Definition list_getitem {A} (l : list A) (i : Z) : Py A :=
  let n := Z.of_nat (List.length l) in
  let j := if i <? 0 then i + n else i in
  if (0 <=? j) && (j <? n)
  then match List.nth_error l (Z.to_nat j) with
       | Some x => ret x
       | None => raise IndexError
       end
  else raise IndexError.

(** [x if x else d] on an [Optional[int]]: [None] and [0] are falsy. *)
Definition truthy (x : option Z) : bool :=
  match x with
  | Some v => negb (v =? 0)
  | None => false
  end.

Definition int_value (x : option Z) : Z :=
  match x with
  | Some v => v
  | None => 0
  end.

(** ** Page records *)

Record PageRecord := mkPage { page_number : Z; text : str }.

(** ** The PDF libraries *)

(** A document as PyMuPDF presents it: [len(doc)], and the outcome of
    [doc[i].get_text()] for every index the script may use. *)
Record MuDocument := mkMu {
  mu_len : nat;
  mu_get_text : Z -> outcome str
}.

(** A page as pdfplumber presents it: [extract_text()] returns a string or
    [None], or raises. *)
Record PlumberPage := mkPlumberPage {
  pl_extract_text : outcome (option str)
}.

(** [pdf.pages] is a Python list. *)
Record PlumberPDF := mkPlumber { pl_pages : list PlumberPage }.

(** The file at [pdf_path], as each library reads it. *)
Record PDFFile := mkFile {
  as_pymupdf : MuDocument;
  as_pdfplumber : PlumberPDF
}.

Record PDFExtractor := mkExtractor {
  pdf_path : PDFFile;
  backend : string
}.

(** [text or ""] *)
Definition or_empty (t : option str) : str :=
  match t with
  | Some s => match s with [] => [] | _ => s end
  | None => []
  end.

Definition range_start (start_page : option Z) : Z :=
  if truthy start_page then int_value start_page - 1 else 0.

Definition range_end (end_page : option Z) (total_pages : Z) : Z :=
  if truthy end_page then int_value end_page else total_pages.

(** Lines 86-103, for a document that PyMuPDF opens.  The [import] of
    line 84 is [import_backend] below; a file that [pymupdf.open] refuses is
    outside this model. *)
Definition _extract_with_pymupdf (self : PDFExtractor)
    (start_page end_page : option Z) : Py (list PageRecord) :=
  let doc := as_pymupdf (pdf_path self) in
  acquire ;;;
  let total_pages := Z.of_nat (mu_len doc) in
  let start := range_start start_page in
  let end_ := range_end end_page total_pages in
  pages <- for_each (py_range start (Z.min end_ total_pages))
             (fun page_num pages =>
                text <- call (mu_get_text doc page_num) ;;
                ret (pages ++ [mkPage (page_num + 1) text]))
             [] ;;
  release ;;;
  ret pages.

(** Lines 110-126, for a document that pdfplumber opens; the [import] of
    line 108 is [import_backend] below. *)
Definition _extract_with_pdfplumber (self : PDFExtractor)
    (start_page end_page : option Z) : Py (list PageRecord) :=
  let pdf := as_pdfplumber (pdf_path self) in
  pages <- with_handle (
    let total_pages := Z.of_nat (List.length (pl_pages pdf)) in
    let start := range_start start_page in
    let end_ := range_end end_page total_pages in
    for_each (py_range start (Z.min end_ total_pages))
      (fun page_num pages =>
         page <- list_getitem (pl_pages pdf) page_num ;;
         text <- call (pl_extract_text page) ;;
         ret (pages ++ [mkPage (page_num + 1) (or_empty text)]))
      []) ;;
  ret pages.

Definition extract_pages (self : PDFExtractor)
    (start_page end_page : option Z) : Py (list PageRecord) :=
  if String.eqb (backend self) "pymupdf"
  then _extract_with_pymupdf self start_page end_page
  else if String.eqb (backend self) "pdfplumber"
  then _extract_with_pdfplumber self start_page end_page
  else raise (ValueError ("Unknown backend: " ++ backend self)).

(** ** Section locator *)

(** The inner [for line in lines] loop (lines 159-165): [Some r] when the loop
    executes [return r], [None] when it runs to its end. *)
Fixpoint scan_lines (section_pattern : str) (section_start : Z)
    (this_page : Z) (lines : list str) : option (Z * Z) :=
  match lines with
  | [] => None
  | line :: lines' =>
      if startswith_any_digit (strip line) then
        match split line with
        | part0 :: _ =>
            if negb (PyStr.eqb part0 section_pattern)
            then Some (section_start, this_page - 1)
            else scan_lines section_pattern section_start this_page lines'
        | [] => scan_lines section_pattern section_start this_page lines'
        end
      else scan_lines section_pattern section_start this_page lines'
  end.

(** How the [for i, page_data in enumerate(pages)] loop ends. *)
Inductive loop_exit :=
| Returned (r : Z * Z)
| Exhausted (section_start : option Z).

(** The outer loop (lines 147-165), entered with the current value of
    [section_start]. *)
Fixpoint scan_pages (section_pattern : str) (section_start : option Z)
    (pages : list PageRecord) : loop_exit :=
  match pages with
  | [] => Exhausted section_start
  | page_data :: rest =>
      match section_start with
      | None =>
          if contains section_pattern (text page_data)
          then scan_pages section_pattern (Some (page_number page_data)) rest
          else scan_pages section_pattern None rest
      | Some s =>
          match scan_lines section_pattern s (page_number page_data)
                  (split_on NL (text page_data)) with
          | Some r => Returned r
          | None => scan_pages section_pattern (Some s) rest
          end
      end
  end.

Definition find_section (self : PDFExtractor) (section_pattern : str)
    (start_page end_page : option Z) : Py (option (Z * Z)) :=
  pages <- extract_pages self start_page end_page ;;
  match scan_pages section_pattern None pages with
  | Returned r => ret (Some r)
  | Exhausted (Some section_start) =>
      last <- list_getitem pages (-1) ;;
      ret (Some (section_start, page_number last))
  | Exhausted None => ret None
  end.

(** Documents for examples: every page extracts without error. *)
Definition file_of_texts (texts : list str) : PDFFile :=
  mkFile
    (mkMu (List.length texts)
       (fun i => match List.nth_error texts (Z.to_nat i) with
                 | Some t => if 0 <=? i then Return t else Raise IndexError
                 | None => Raise IndexError
                 end))
    (mkPlumber
       (List.map (fun t => mkPlumberPage (Return (Some t))) texts)).

Definition w0 : World := mkWorld 0.

(** ** Formatters *)

Fixpoint uint_str (d : Decimal.uint) : str :=
  match d with
  | Decimal.Nil => []
  | Decimal.D0 d' => 48%N :: uint_str d'
  | Decimal.D1 d' => 49%N :: uint_str d'
  | Decimal.D2 d' => 50%N :: uint_str d'
  | Decimal.D3 d' => 51%N :: uint_str d'
  | Decimal.D4 d' => 52%N :: uint_str d'
  | Decimal.D5 d' => 53%N :: uint_str d'
  | Decimal.D6 d' => 54%N :: uint_str d'
  | Decimal.D7 d' => 55%N :: uint_str d'
  | Decimal.D8 d' => 56%N :: uint_str d'
  | Decimal.D9 d' => 57%N :: uint_str d'
  end.

(** [str(n)] for an int: decimal digits, with a minus sign when negative. *)
Definition int_str (n : Z) : str :=
  match Z.to_int n with
  | Decimal.Pos d => uint_str d
  | Decimal.Neg d => 45%N :: uint_str d
  end.

(** ['='*60] *)
Definition rule60 : str := repeat_char 61%N 60.

Definition extract_to_text (self : PDFExtractor) (pages : list PageRecord)
    (include_page_numbers : bool) : str :=
  let lines :=
    List.fold_left
      (fun lines page_data =>
         let lines :=
           if include_page_numbers
           then ((lines ++ [[NL] ++ rule60])
                   ++ [lit "Page " ++ int_str (page_number page_data)])
                  ++ [rule60 ++ [NL]]
           else lines in
         lines ++ [text page_data])
      pages [] in
  join [NL] lines.

Definition extract_to_markdown (self : PDFExtractor)
    (pages : list PageRecord) : str :=
  let lines :=
    List.fold_left
      (fun lines page_data =>
         (lines ++ [[NL] ++ lit "## Page "
                      ++ int_str (page_number page_data) ++ [NL]])
           ++ [text page_data])
      pages [] in
  join [NL] lines.

(** ** Python values and the [json] module

    [json.dumps(obj, indent=2, ensure_ascii=False)] and [json.loads] of the
    Python standard library, for the values built from [None], booleans,
    ints, strings, lists and dictionaries with string keys. *)

#[local] Unset Elimination Schemes.

Inductive pyvalue :=
| PyNone
| PyBool (b : bool)
| PyInt (n : Z)
| PyStr (s : str)
| PyList (items : list pyvalue)
| PyDict (items : list (str * pyvalue)).

#[local] Set Elimination Schemes.

(** The dictionary [{"page_number": n, "text": t}] built at lines 97-100 and
    121-124. *)
Definition page_dict (p : PageRecord) : pyvalue :=
  PyDict [(lit "page_number", PyInt (page_number p));
          (lit "text", PyStr (text p))].

Definition QUOTE : char := 34%N.
Definition BACKSLASH : char := 92%N.
Definition SPACE : char := 32%N.
Definition COMMA : char := 44%N.

(** ["0123456789abcdef"[k]] *)
Definition hex_digit (k : N) : char :=
  (if k <? 10 then 48 + k else 87 + k)%N.

(** One character of a string under [ESCAPE_DCT] (json.encoder), with
    [ensure_ascii=False]: the quote, the backslash and the control characters
    below U+0020 are escaped, every other character is kept as it is. *)
Definition escape_char (c : char) : str :=
  if (c =? 92)%N then [BACKSLASH; BACKSLASH]
  else if (c =? 34)%N then [BACKSLASH; QUOTE]
  else if (c =? 8)%N then BACKSLASH :: lit "b"
  else if (c =? 12)%N then BACKSLASH :: lit "f"
  else if (c =? 10)%N then BACKSLASH :: lit "n"
  else if (c =? 13)%N then BACKSLASH :: lit "r"
  else if (c =? 9)%N then BACKSLASH :: lit "t"
  else if (c <? 32)%N
       then BACKSLASH :: lit "u00" ++ [hex_digit (c / 16); hex_digit (c mod 16)]
  else [c].

(** [encode_basestring(s)] *)
Definition encode_basestring (s : str) : str :=
  [QUOTE] ++ List.flat_map escape_char s ++ [QUOTE].

(** ['\n' + ' ' * 2 * level] *)
Definition newline_indent (level : nat) : str :=
  NL :: repeat_char SPACE (2 * level).

(** [_iterencode] (json.encoder) at nesting depth [level], with
    [indent = 2], item separator [','] and key separator [': ']. *)
Fixpoint encode (level : nat) (v : pyvalue) : str :=
  match v with
  | PyNone => lit "null"
  | PyBool true => lit "true"
  | PyBool false => lit "false"
  | PyInt n => int_str n
  | PyStr s => encode_basestring s
  | PyList [] => lit "[]"
  | PyList items =>
      lit "[" ++ newline_indent (S level)
        ++ join (lit "," ++ newline_indent (S level))
             (List.map (encode (S level)) items)
        ++ newline_indent level ++ lit "]"
  | PyDict [] => lit "{}"
  | PyDict items =>
      lit "{" ++ newline_indent (S level)
        ++ join (lit "," ++ newline_indent (S level))
             (List.map
                (fun kv => encode_basestring (fst kv) ++ lit ": "
                             ++ encode (S level) (snd kv))
                items)
        ++ newline_indent level ++ lit "}"
  end.

Definition json_dumps_indent2 (obj : pyvalue) : str := encode 0 obj.

Definition extract_to_json (self : PDFExtractor) (pages : list PageRecord)
    : str :=
  json_dumps_indent2 (PyList (List.map page_dict pages)).

(** [WHITESPACE] of json.decoder: space, tab, newline, carriage return. *)
Definition is_json_ws (c : char) : bool :=
  ((c =? 32) || (c =? 9) || (c =? 10) || (c =? 13))%N.

Fixpoint skip_ws (s : str) : str :=
  match s with
  | [] => []
  | c :: s' => if is_json_ws c then skip_ws s' else s
  end.

Definition hex_value (c : char) : option N :=
  if ((48 <=? c) && (c <=? 57))%N then Some (c - 48)%N
  else if ((97 <=? c) && (c <=? 102))%N then Some (c - 87)%N
  else if ((65 <=? c) && (c <=? 70))%N then Some (c - 55)%N
  else None.

(** [_decode_uXXXX]: the value of four hexadecimal digits. *)
Definition hex4 (a b c d : char) : option N :=
  match hex_value a, hex_value b, hex_value c, hex_value d with
  | Some x, Some y, Some z, Some t => Some (((x * 16 + y) * 16 + z) * 16 + t)%N
  | _, _, _, _ => None
  end.

(** [BACKSLASH] of json.decoder: the one-character escapes. *)
Definition unescape (esc : char) : option char :=
  if (esc =? 34)%N then Some 34%N
  else if (esc =? 92)%N then Some 92%N
  else if (esc =? 47)%N then Some 47%N
  else if (esc =? 98)%N then Some 8%N
  else if (esc =? 102)%N then Some 12%N
  else if (esc =? 110)%N then Some 10%N
  else if (esc =? 114)%N then Some 13%N
  else if (esc =? 116)%N then Some 9%N
  else None.

(** [py_scanstring] in strict mode, from just after the opening quote: the
    decoded string and the input after the closing quote. *)
Fixpoint scan_string (s : str) : option (str * str) :=
  match s with
  | [] => None
  | c :: rest =>
      if (c =? 34)%N then Some ([], rest)
      else if (c =? 92)%N then
        match rest with
        | [] => None
        | esc :: rest1 =>
            if (esc =? 117)%N then
              match rest1 with
              | h1 :: h2 :: h3 :: h4 :: rest2 =>
                  match hex4 h1 h2 h3 h4 with
                  | Some uni =>
                      let single :=
                        match scan_string rest2 with
                        | Some (t, r) => Some (uni :: t, r)
                        | None => None
                        end in
                      if ((55296 <=? uni) && (uni <=? 56319))%N then
                        match rest2 with
                        | b :: u :: g1 :: g2 :: g3 :: g4 :: rest3 =>
                            if ((b =? 92) && (u =? 117))%N then
                              match hex4 g1 g2 g3 g4 with
                              | Some uni2 =>
                                  if ((56320 <=? uni2) && (uni2 <=? 57343))%N
                                  then
                                    match scan_string rest3 with
                                    | Some (t, r) =>
                                        Some ((65536
                                               + N.lor
                                                   (N.shiftl (uni - 55296) 10)
                                                   (uni2 - 56320))%N :: t, r)
                                    | None => None
                                    end
                                  else single
                              | None => None
                              end
                            else single
                        | b :: u :: _ =>
                            if ((b =? 92) && (u =? 117))%N then None
                            else single
                        | _ => single
                        end
                      else single
                  | None => None
                  end
              | _ => None
              end
            else
              match unescape esc with
              | Some ch =>
                  match scan_string rest1 with
                  | Some (t, r) => Some (ch :: t, r)
                  | None => None
                  end
              | None => None
              end
        end
      else if (c <? 32)%N then None
      else
        match scan_string rest with
        | Some (t, r) => Some (c :: t, r)
        | None => None
        end
  end.

Definition digit_of (c : char) : option (Decimal.uint -> Decimal.uint) :=
  if (c =? 48)%N then Some Decimal.D0
  else if (c =? 49)%N then Some Decimal.D1
  else if (c =? 50)%N then Some Decimal.D2
  else if (c =? 51)%N then Some Decimal.D3
  else if (c =? 52)%N then Some Decimal.D4
  else if (c =? 53)%N then Some Decimal.D5
  else if (c =? 54)%N then Some Decimal.D6
  else if (c =? 55)%N then Some Decimal.D7
  else if (c =? 56)%N then Some Decimal.D8
  else if (c =? 57)%N then Some Decimal.D9
  else None.

(** The longest run of decimal digits at the head of [s]. *)
Fixpoint scan_digits (s : str) : Decimal.uint * str :=
  match s with
  | [] => (Decimal.Nil, [])
  | c :: rest =>
      match digit_of c with
      | Some mk => let (d, r) := scan_digits rest in (mk d, r)
      | None => (Decimal.Nil, s)
      end
  end.

(** The integer part [0|[1-9][0-9]*] of [NUMBER_RE]. *)
Definition scan_natural (s : str) : option (Decimal.uint * str) :=
  match s with
  | [] => None
  | c :: rest =>
      if (c =? 48)%N then Some (Decimal.D0 Decimal.Nil, rest)
      else if is_ascii_digit c then Some (scan_digits s)
      else None
  end.

(** After the integer part, a ['.'], ['e'] or ['E'] starts a fraction or an
    exponent, or is an error: in neither case is the result an int. *)
Definition float_follows (s : str) : bool :=
  match s with
  | c :: _ => ((c =? 46) || (c =? 101) || (c =? 69))%N
  | [] => false
  end.

(** [match_number] for an int. *)
Definition scan_number (s : str) : option (pyvalue * str) :=
  match s with
  | [] => None
  | c :: rest =>
      if (c =? 45)%N then
        match scan_natural rest with
        | Some (d, r) =>
            if float_follows r then None
            else Some (PyInt (Z.of_int (Decimal.Neg d)), r)
        | None => None
        end
      else
        match scan_natural s with
        | Some (d, r) =>
            if float_follows r then None
            else Some (PyInt (Z.of_int (Decimal.Pos d)), r)
        | None => None
        end
  end.

(** [d[key] = value] on a dictionary kept in insertion order. *)
Fixpoint dict_set (d : list (str * pyvalue)) (key : str) (value : pyvalue)
    : list (str * pyvalue) :=
  match d with
  | [] => [(key, value)]
  | (k, v) :: d' =>
      if PyStr.eqb k key then (k, value) :: d'
      else (k, v) :: dict_set d' key value
  end.

(** [dict(pairs)] *)
Definition dict_of_pairs (pairs : list (str * pyvalue))
    : list (str * pyvalue) :=
  List.fold_left (fun d kv => dict_set d (fst kv) (snd kv)) pairs [].

(** [scan_once], [JSONArray] and [JSONObject] of json.decoder.  [fuel] bounds
    the number of nested calls; [None] is a [JSONDecodeError], or a value the
    model does not cover (a float, [NaN], [Infinity]).
    - [parse_value] reads one value at the head of [s];
    - [parse_elements] reads the values of an array up to its [']'], from
      the first character of a value;
    - [parse_members] reads the members of an object up to its ['}'], from
      just after the opening quote of a key. *)
Fixpoint parse_value (fuel : nat) (s : str) {struct fuel}
    : option (pyvalue * str) :=
  match fuel with
  | O => None
  | S fuel' =>
      match s with
      | [] => None
      | c :: rest =>
          if (c =? 34)%N then
            match scan_string rest with
            | Some (t, r) => Some (PyStr t, r)
            | None => None
            end
          else if (c =? 123)%N then
            match skip_ws rest with
            | [] => None
            | c1 :: r1 =>
                if (c1 =? 125)%N then Some (PyDict [], r1)
                else if (c1 =? 34)%N then
                  match parse_members fuel' r1 with
                  | Some (pairs, r) => Some (PyDict (dict_of_pairs pairs), r)
                  | None => None
                  end
                else None
            end
          else if (c =? 91)%N then
            match skip_ws rest with
            | [] => None
            | c1 :: r1 =>
                if (c1 =? 93)%N then Some (PyList [], r1)
                else
                  match parse_elements fuel' (c1 :: r1) with
                  | Some (values, r) => Some (PyList values, r)
                  | None => None
                  end
            end
          else if startswith s (lit "null") then Some (PyNone, List.skipn 4 s)
          else if startswith s (lit "true")
               then Some (PyBool true, List.skipn 4 s)
          else if startswith s (lit "false")
               then Some (PyBool false, List.skipn 5 s)
          else scan_number s
      end
  end
with parse_elements (fuel : nat) (s : str) {struct fuel}
    : option (list pyvalue * str) :=
  match fuel with
  | O => None
  | S fuel' =>
      match parse_value fuel' s with
      | Some (value, r) =>
          match skip_ws r with
          | [] => None
          | c :: r1 =>
              if (c =? 93)%N then Some ([value], r1)
              else if (c =? 44)%N then
                match parse_elements fuel' (skip_ws r1) with
                | Some (values, r2) => Some (value :: values, r2)
                | None => None
                end
              else None
          end
      | None => None
      end
  end
with parse_members (fuel : nat) (s : str) {struct fuel}
    : option (list (str * pyvalue) * str) :=
  match fuel with
  | O => None
  | S fuel' =>
      match scan_string s with
      | Some (key, r) =>
          match skip_ws r with
          | [] => None
          | c :: r1 =>
              if (c =? 58)%N then
                match parse_value fuel' (skip_ws r1) with
                | Some (value, r2) =>
                    match skip_ws r2 with
                    | [] => None
                    | c2 :: r3 =>
                        if (c2 =? 125)%N then Some ([(key, value)], r3)
                        else if (c2 =? 44)%N then
                          match skip_ws r3 with
                          | [] => None
                          | c3 :: r4 =>
                              if (c3 =? 34)%N then
                                match parse_members fuel' r4 with
                                | Some (pairs, r5) =>
                                    Some ((key, value) :: pairs, r5)
                                | None => None
                                end
                              else None
                          end
                        else None
                    end
                | None => None
                end
              else None
          end
      | None => None
      end
  end.

(** [json.loads(s)]: leading whitespace, one value, trailing whitespace, and
    nothing else. *)
Definition json_loads (s : str) : option pyvalue :=
  match parse_value (2 * List.length s + 2) (skip_ws s) with
  | Some (obj, r) =>
      match skip_ws r with
      | [] => Some obj
      | _ :: _ => None
      end
  | None => None
  end.

(** Reading a decoded value back as a sequence of page records. *)
Definition record_of_value (v : pyvalue) : option PageRecord :=
  match v with
  | PyDict [(k1, PyInt n); (k2, PyStr t)] =>
      if PyStr.eqb k1 (lit "page_number") && PyStr.eqb k2 (lit "text")
      then Some (mkPage n t) else None
  | _ => None
  end.

Fixpoint records_of_values (vs : list pyvalue) : option (list PageRecord) :=
  match vs with
  | [] => Some []
  | v :: vs' =>
      match record_of_value v, records_of_values vs' with
      | Some p, Some ps => Some (p :: ps)
      | _, _ => None
      end
  end.

Definition records_of_value (v : pyvalue) : option (list PageRecord) :=
  match v with
  | PyList vs => records_of_values vs
  | _ => None
  end.

(** ** The words of the specification *)

(** "contains the target label as a literal substring" *)
Definition is_substring (pat s : str) : Prop :=
  exists pre post, s = pre ++ pat ++ post.

(** "begins with an ASCII digit" *)
Definition begins_with_ascii_digit (s : str) : Prop :=
  exists d rest, s = d :: rest /\ (48 <= d <= 57)%N.

(** "its first whitespace-delimited token" *)
Definition first_token (line : str) : option str :=
  List.hd_error (split line).

(** A line that, after trimming, begins with an ASCII digit and whose first
    whitespace-delimited token differs from the label. *)
Definition ends_section (label line : str) : Prop :=
  begins_with_ascii_digit (strip line) /\
  exists tok, first_token line = Some tok /\ tok <> label.

Definition page_ends_section (label : str) (p : PageRecord) : Prop :=
  exists line, In line (split_on NL (text p)) /\ ends_section label line.

(** "the first digit-leading line" of a page. *)
Definition first_digit_leading_line (t : str) : option str :=
  List.find (fun line => startswith_any_digit (strip line)) (split_on NL t).

(** The four lines a record takes in the JSON output: the opening brace,
    the two members and the closing brace, which is followed by a comma
    unless the record is the last one. *)
Definition json_record_lines (p : PageRecord) (is_last : bool) : list str :=
  [lit "  {";
   lit "    " ++ [QUOTE] ++ lit "page_number" ++ [QUOTE] ++ lit ": "
     ++ int_str (page_number p) ++ lit ",";
   lit "    " ++ [QUOTE] ++ lit "text" ++ [QUOTE] ++ lit ": "
     ++ encode_basestring (text p);
   if is_last then lit "  }" else lit "  },"].

(** ** A pure view of the extraction loop, used to state its results *)

(** What one iteration of the pdfplumber loop computes for index [i]:
    [pdf.pages[i].extract_text() or ""]. *)
Definition plumber_text (pdf : PlumberPDF) (i : Z) : outcome str :=
  let n := Z.of_nat (List.length (pl_pages pdf)) in
  let j := if i <? 0 then i + n else i in
  if (0 <=? j) && (j <? n)
  then match List.nth_error (pl_pages pdf) (Z.to_nat j) with
       | Some page =>
           match pl_extract_text page with
           | Return t => Return (or_empty t)
           | Raise e => Raise e
           end
       | None => Raise IndexError
       end
  else Raise IndexError.

(** The records appended for the indices [xs] when page [i] yields [f i], or
    the first exception met. *)
Fixpoint gather (f : Z -> outcome str) (acc : list PageRecord) (xs : list Z)
    : outcome (list PageRecord) :=
  match xs with
  | [] => Return acc
  | x :: xs' =>
      match f x with
      | Return t => gather f (acc ++ [mkPage (x + 1) t]) xs'
      | Raise e => Raise e
      end
  end.

(** The 0-indexed span a call iterates over, given the page count. *)
Definition span (start_page end_page : option Z) (total_pages : Z) : list Z :=
  py_range (range_start start_page)
           (Z.min (range_end end_page total_pages) total_pages).

Definition is_pymupdf (self : PDFExtractor) : Prop :=
  backend self = "pymupdf"%string.
Definition is_pdfplumber (self : PDFExtractor) : Prop :=
  backend self = "pdfplumber"%string.


(** [len(doc)] / [len(pdf.pages)] for the selected backend. *)
Definition page_count (self : PDFExtractor) : Z :=
  if String.eqb (backend self) "pymupdf"
  then Z.of_nat (mu_len (as_pymupdf (pdf_path self)))
  else Z.of_nat (List.length (pl_pages (as_pdfplumber (pdf_path self)))).

(** The text placed in the record of index [i] by the selected backend. *)
Definition page_text (self : PDFExtractor) (i : Z) : outcome str :=
  if String.eqb (backend self) "pymupdf"
  then mu_get_text (as_pymupdf (pdf_path self)) i
  else plumber_text (as_pdfplumber (pdf_path self)) i.

(** "starting at [start] (or 1 if unset)" *)
Definition first_page (start_page : option Z) : Z :=
  match start_page with
  | Some v => v
  | None => 1
  end.

(** The requested end of the range; the last page when unset. *)
Definition last_page (end_page : option Z) (total_pages : Z) : Z :=
  match end_page with
  | Some v => v
  | None => total_pages
  end.

(** ** The constructor and the command line

    What the script reads from its surroundings: whether each library could
    be imported (lines 17-29), the files that exist, each given by the
    document the libraries read there, and whether writing the result
    succeeds. *)

Inductive sink :=
| Stdout
| OutputFile (path : string).

Inductive cli_exn :=
| FileNotFoundError (msg : string)
| RuntimeError (msg : string)
| ImportError (module_name : string)
| Raised (e : exn)
| WriteError (code : nat).

Record Env := mkEnv {
  HAS_PYMUPDF : bool;
  HAS_PDFPLUMBER : bool;
  (** [os.path.exists(path)], and the document at [path]. *)
  files : string -> option PDFFile;
  (** The exception [print(output)] or [write_text(output)] raises, if any. *)
  write_error : sink -> str -> option nat
}.

(** The lines written to standard error, by the statement that writes them:
    - line 60, [Using backend: ...];
    - line 243, [Searching for section '...'...];
    - line 251, [Found section at pages s-e];
    - line 253, [Section '...' not found];
    - line 260, [Extracting pages ... to ......], where an unset or zero bound
      is printed as [first] or [last];
    - line 276, [Output written to: ...];
    - lines 283-285, [Error: ...] and the traceback. *)
Inductive message :=
| UsingBackend (backend : string)
| SearchingForSection (section : str)
| FoundSection (start_page end_page : Z)
| SectionNotFound (section : str)
| ExtractingPages (start_page end_page : option Z)
| OutputWrittenTo (path : string)
| ErrorReport (e : cli_exn).

(** The state of a run: the open document handles, what was written to
    standard error, and the results handed to [print] or [write_text], in
    order, whether or not the write succeeded. *)
Record Console := mkConsole {
  handles : World;
  stderr : list message;
  emissions : list (sink * str)
}.

Definition Cli (A : Type) : Type := Console -> (A + cli_exn) * Console.

Definition cli_ret {A} (a : A) : Cli A := fun c => (inl a, c).

Definition cli_raise {A} (e : cli_exn) : Cli A := fun c => (inr e, c).

Definition cli_bind {A B} (m : Cli A) (k : A -> Cli B) : Cli B :=
  fun c =>
    match m c with
    | (inl a, c') => k a c'
    | (inr e, c') => (inr e, c')
    end.

Notation "x <~ m ;; k" := (cli_bind m (fun x => k))
  (at level 61, m at next level, right associativity).
Notation "m ;;~ k" := (cli_bind m (fun _ => k))
  (at level 61, right associativity).

(** [print(..., file=sys.stderr)] *)
Definition log (m : message) : Cli unit :=
  fun c => (inl tt, mkConsole (handles c) (stderr c ++ [m]) (emissions c)).

(** A method of the extractor run from the command line: its effect on the
    handles is kept, its exception propagates. *)
Definition lift {A} (m : Py A) : Cli A :=
  fun c =>
    match m (handles c) with
    | (Return a, w) => (inl a, mkConsole w (stderr c) (emissions c))
    | (Raise e, w) => (inr (Raised e), mkConsole w (stderr c) (emissions c))
    end.

(** [print(output)] and [output_path.write_text(output, encoding="utf-8")]. *)
Definition emit (env : Env) (to : sink) (output : str) : Cli unit :=
  fun c =>
    let c' := mkConsole (handles c) (stderr c) (emissions c ++ [(to, output)])
    in match write_error env to output with
       | Some code => (inr (WriteError code), c')
       | None => (inl tt, c')
       end.

Definition __init__ (env : Env) (pdf_path : string) (backend : string)
    : Cli PDFExtractor :=
  match files env pdf_path with
  | None => cli_raise (FileNotFoundError ("PDF file not found: " ++ pdf_path))
  | Some file =>
      self_backend <~
        (if String.eqb backend "auto" then
           if HAS_PYMUPDF env then cli_ret "pymupdf"%string
           else if HAS_PDFPLUMBER env then cli_ret "pdfplumber"%string
           else cli_raise
                  (RuntimeError
                     "No PDF library available. Install pymupdf or pdfplumber.")
         else cli_ret backend) ;;
      log (UsingBackend self_backend) ;;~
      cli_ret (mkExtractor file self_backend)
  end.

(** The [import pymupdf] of line 84 and the [import pdfplumber] of line 108,
    the first statement a backend method executes: it raises when the library
    could not be imported. *)
Definition import_backend (env : Env) (self : PDFExtractor) : Cli unit :=
  if String.eqb (backend self) "pymupdf" then
    if HAS_PYMUPDF env then cli_ret tt else cli_raise (ImportError "pymupdf")
  else if String.eqb (backend self) "pdfplumber" then
    if HAS_PDFPLUMBER env then cli_ret tt
    else cli_raise (ImportError "pdfplumber")
  else cli_ret tt.

Inductive format_choice := FormatText | FormatMarkdown | FormatJson.

Inductive backend_choice := BackendPymupdf | BackendPdfplumber | BackendAuto.

Definition backend_name (b : backend_choice) : string :=
  match b with
  | BackendPymupdf => "pymupdf"
  | BackendPdfplumber => "pdfplumber"
  | BackendAuto => "auto"
  end.

(** The namespace [parse_args()] returns; [format] and [backend] are among
    their [choices]. *)
Module Args.

Record t := mk {
  pdf_file : string;
  start : option Z;
  end_ : option Z;
  section : option str;
  search_start : option Z;
  search_end : option Z;
  output : option string;
  format : format_choice;
  backend : backend_choice;
  no_page_numbers : bool
}.

End Args.

(** [if args.section] and [if args.output]: [None] and the empty string are
    falsy. *)
Definition given_section (args : Args.t) : option str :=
  match Args.section args with
  | Some (c :: s) => Some (c :: s)
  | _ => None
  end.

Definition given_output (args : Args.t) : option string :=
  match Args.output args with
  | Some (String c s) => Some (String c s)
  | _ => None
  end.

(** Lines 241-257: the page range, or the [return 1] of line 254. *)
Inductive page_choice :=
| Pages (start_page end_page : option Z)
| Return1.

Definition format_output (extractor : PDFExtractor) (args : Args.t)
    (pages : list PageRecord) : str :=
  match Args.format args with
  | FormatText =>
      extract_to_text extractor pages (negb (Args.no_page_numbers args))
  | FormatMarkdown => extract_to_markdown extractor pages
  | FormatJson => extract_to_json extractor pages
  end.

(** Lines 241-257: section mode searches for the section and takes the range
    found, or returns 1; otherwise the range is the one given. *)
Definition choose_pages (env : Env) (args : Args.t) (extractor : PDFExtractor)
    : Cli page_choice :=
  match given_section args with
  | Some section =>
      log (SearchingForSection section) ;;~
      import_backend env extractor ;;~
      result <~ lift (find_section extractor section
                        (Args.search_start args) (Args.search_end args)) ;;
      match result with
      | Some (start_page, end_page) =>
          log (FoundSection start_page end_page) ;;~
          cli_ret (Pages (Some start_page) (Some end_page))
      | None =>
          log (SectionNotFound section) ;;~
          cli_ret Return1
      end
  | None => cli_ret (Pages (Args.start args) (Args.end_ args))
  end.

(** Lines 259-280: extraction, formatting and writing of the result. *)
Definition write_pages (env : Env) (args : Args.t) (extractor : PDFExtractor)
    (start_page end_page : option Z) : Cli Z :=
  log (ExtractingPages start_page end_page) ;;~
  import_backend env extractor ;;~
  pages <~ lift (extract_pages extractor start_page end_page) ;;
  let output := format_output extractor args pages in
  match given_output args with
  | Some path =>
      emit env (OutputFile path) output ;;~
      log (OutputWrittenTo path) ;;~
      cli_ret 0
  | None =>
      emit env Stdout output ;;~
      cli_ret 0
  end.

(** The body of the [try] of [main], lines 239-280. *)
Definition main_body (env : Env) (args : Args.t) : Cli Z :=
  extractor <~ __init__ env (Args.pdf_file args)
                 (backend_name (Args.backend args)) ;;
  choice <~ choose_pages env args extractor ;;
  match choice with
  | Return1 => cli_ret 1
  | Pages start_page end_page =>
      write_pages env args extractor start_page end_page
  end.

(** [main] from line 238 on, for the namespace [parse_args()] returned: the
    exit code and the final state.  Any exception is reported on standard
    error and turned into exit code 1; the handles of the final state are
    those open when the [try] body ended. *)
Definition main (env : Env) (args : Args.t) (c : Console) : Z * Console :=
  match main_body env args c with
  | (inl code, c') => (code, c')
  | (inr e, c') =>
      (1, mkConsole (handles c') (stderr c' ++ [ErrorReport e])
            (emissions c'))
  end.



(** The range of the first extraction of a run: the search range in section
    mode (line 244), the range given otherwise (line 261). *)
Definition first_range (args : Args.t) : option Z * option Z :=
  match given_section args with
  | Some _ => (Args.search_start args, Args.search_end args)
  | None => (Args.start args, Args.end_ args)
  end.

(** Where [main] sends its result. *)
Definition sink_of (args : Args.t) : sink :=
  match given_output args with
  | Some path => OutputFile path
  | None => Stdout
  end.

(** Line 276: the notice that follows a write to a file. *)
Definition output_notice (args : Args.t) : list message :=
  match given_output args with
  | Some path => [OutputWrittenTo path]
  | None => []
  end.

(** The library of backend [b] could be imported. *)
Definition library_available (env : Env) (b : string) : Prop :=
  (b = "pymupdf"%string -> HAS_PYMUPDF env = true) /\
  (b = "pdfplumber"%string -> HAS_PDFPLUMBER env = true).

(** What a failed extraction under PyMuPDF leaves behind on the command line:
    one more open handle, and the exception of the extraction as the result
    [r] of the step from [c] to [c']. *)
Definition leak (env : Env) (ex : PDFExtractor) {A} (c c' : Console)
    (r : A + cli_exn) : Prop :=
  is_pymupdf ex /\ HAS_PYMUPDF env = true /\
  open_handles (handles c') = S (open_handles (handles c)) /\
  exists e, r = inr (Raised e).

(** ** Sample documents *)

(** An eight-page document: section 3.2 starts on page 5, section 3.3 on
    page 6 and runs over page 7, section 4 starts on page 8. *)
Definition sample_texts : list str :=
  [lit "Title"; lit "Contents"; lit "Preface";
   lit "3.1 Setting" ++ [NL] ++ lit "see below";
   lit "3.2 Methods" ++ [NL] ++ lit "We proceed as follows.";
   lit "Figure" ++ [NL] ++ lit "  3.3 Results";
   lit "continued";
   lit "4 Discussion"].

Definition sample (backend : string) : PDFExtractor :=
  mkExtractor (file_of_texts sample_texts) backend.

(** A three-page file whose second page makes the library raise. *)
Definition damaged_file : PDFFile :=
  mkFile
    (mkMu 3 (fun i => if i =? 0 then Return (lit "one")
                      else if i =? 1 then Raise (LibraryError 1)
                      else if i =? 2 then Return (lit "three")
                      else Raise IndexError))
    (mkPlumber [mkPlumberPage (Return (Some (lit "one")));
                mkPlumberPage (Raise (LibraryError 1));
                mkPlumberPage (Return (Some (lit "three")))]).

(** A three-page file whose second page has no text: PyMuPDF yields the empty
    string there, pdfplumber yields [None]. *)
Definition scanned_file : PDFFile :=
  mkFile
    (mkMu 3 (fun i => if i =? 0 then Return (lit "one")
                      else if i =? 1 then Return []
                      else if i =? 2 then Return (lit "three")
                      else Raise IndexError))
    (mkPlumber [mkPlumberPage (Return (Some (lit "one")));
                mkPlumberPage (Return None);
                mkPlumberPage (Return (Some (lit "three")))]).

(** A machine with both libraries, the sample document at [paper.pdf],
    and a standard output and a disk that accept every write. *)
Definition sample_env : Env :=
  mkEnv true true
    (fun path => if String.eqb path "paper.pdf"
                 then Some (file_of_texts sample_texts) else None)
    (fun _ _ => None).

(** The same machine with the damaged file at [damaged.pdf]. *)
Definition damaged_env : Env :=
  mkEnv true true
    (fun path => if String.eqb path "damaged.pdf"
                 then Some damaged_file else None)
    (fun _ _ => None).

Definition sample_args : Args.t :=
  Args.mk "paper.pdf" None None None None None None FormatText BackendAuto
    false.

Definition console0 : Console := mkConsole w0 [] [].

(* ================================================================= *)
(** * Properties *)

(** Settles a test [c =? k] or [c <? k] on a character known by its bounds. *)
Ltac test_false c k :=
  replace (c =? k)%N with false by (symmetry; apply N.eqb_neq; lia).

Ltac tests_false c ks :=
  match ks with
  | nil => idtac
  | cons ?k ?ks' => test_false c k; tests_false c ks'
  end.

(** ** The model on the sample document *)

Example find_3_2 :
  find_section (sample "pymupdf") (lit "3.2") (Some 2) None w0
  = (Return (Some (5, 5)), w0).
Proof. reflexivity. Qed.

(** The section runs to the last page of the range when no later page ends
    it. *)
Example find_4 :
  find_section (sample "pdfplumber") (lit "4 Disc") None None w0
  = (Return (Some (8, 8)), w0).
Proof. reflexivity. Qed.

(** The label is matched as a substring: "1" is found in "3.1 Setting". *)
Example find_1 :
  find_section (sample "pymupdf") (lit "1") None None w0
  = (Return (Some (4, 4)), w0).
Proof. reflexivity. Qed.

Example extract_pages_2_3 :
  extract_pages (sample "pdfplumber") (Some 2) (Some 3) w0
  = (Return [mkPage 2 (lit "Contents"); mkPage 3 (lit "Preface")], w0).
Proof. reflexivity. Qed.

Example extract_pages_unknown_backend :
  extract_pages (sample "pypdf") None None w0
  = (Raise (ValueError "Unknown backend: pypdf"), w0).
Proof. reflexivity. Qed.

Example extract_to_json_one_page :
  extract_to_json (sample "pymupdf") [mkPage 7 (lit "caf" ++ [233%N])]
  = join [NL]
      [lit "[";
       lit "  {";
       lit "    " ++ [QUOTE] ++ lit "page_number" ++ [QUOTE] ++ lit ": 7,";
       lit "    " ++ [QUOTE] ++ lit "text" ++ [QUOTE] ++ lit ": "
         ++ [QUOTE] ++ lit "caf" ++ [233%N] ++ [QUOTE];
       lit "  }";
       lit "]"].
Proof. reflexivity. Qed.

Example json_loads_one_page :
  json_loads
    (extract_to_json (sample "pymupdf") [mkPage 7 (lit "caf" ++ [233%N])])
  = Some (PyList [PyDict [(lit "page_number", PyInt 7);
                          (lit "text", PyStr (lit "caf" ++ [233%N]))]]).
Proof. reflexivity. Qed.

(** ** Strings *)

Section Strings.

Lemma eqb_eq (a b : str) : PyStr.eqb a b = true <-> a = b.
Proof.
  revert b; induction a as [|x a IH]; intros [|y b]; simpl;
    try (split; [discriminate | discriminate]); try tauto.
  rewrite andb_true_iff, N.eqb_eq, IH.
  split; [intros [-> ->]; reflexivity | intros H; inversion H; auto].
Qed.

Lemma eqb_neq (a b : str) : PyStr.eqb a b = false <-> a <> b.
Proof.
  rewrite <- eqb_eq. destruct (PyStr.eqb a b); split; congruence.
Qed.

Lemma startswith_prefix (s p : str) :
  startswith s p = true <-> exists rest, s = p ++ rest.
Proof.
  revert s; induction p as [|c p IH]; intros s; simpl.
  - split; [intros _; exists s; reflexivity | reflexivity].
  - destruct s as [|d s].
    + split; [discriminate | intros [rest H]; discriminate].
    + rewrite andb_true_iff, N.eqb_eq, IH. split.
      * intros [-> [rest ->]]. exists rest; reflexivity.
      * intros [rest H]. inversion H; subst. split; [reflexivity|].
        exists rest; reflexivity.
Qed.

Lemma contains_substring (pat s : str) :
  contains pat s = true <-> is_substring pat s.
Proof.
  unfold is_substring. induction s as [|c s IH].
  - simpl. rewrite orb_false_r, startswith_prefix. split.
    + intros [rest H]. exists [], rest. exact H.
    + intros [pre [post H]]. destruct pre as [|x pre]; [|discriminate].
      exists post. exact H.
  - cbn [contains]. rewrite orb_true_iff, startswith_prefix, IH. split.
    + intros [[rest H] | [pre [post H]]].
      * exists [], rest. exact H.
      * exists (c :: pre), post. simpl. rewrite H. reflexivity.
    + intros [pre [post H]]. destruct pre as [|x pre].
      * left. exists post. exact H.
      * right. inversion H; subst. exists pre, post. reflexivity.
Qed.

Lemma contains_false (pat s : str) :
  contains pat s = false <-> ~ is_substring pat s.
Proof.
  rewrite <- contains_substring. destruct (contains pat s); split; congruence.
Qed.

Lemma startswith_any_digit_spec (s : str) :
  startswith_any_digit s = true <-> begins_with_ascii_digit s.
Proof.
  unfold begins_with_ascii_digit. destruct s as [|c s].
  - split; [discriminate | intros (d & rest & H & _); discriminate].
  - unfold startswith_any_digit. cbn. split.
    + intros H. exists c, s. split; [reflexivity|].
      rewrite !andb_true_r, orb_false_r in H.
      rewrite !orb_true_iff, !N.eqb_eq in H. lia.
    + intros (d & rest & H & Hd). inversion H; subst d rest.
      rewrite !andb_true_r, orb_false_r.
      rewrite !orb_true_iff, !N.eqb_eq. lia.
Qed.

End Strings.

(** ** The scan of the section locator *)

Section Scan.

Variable label : str.

Lemma ends_section_iff (line : str) :
  ends_section label line <->
  startswith_any_digit (strip line) = true /\
  exists part0 parts, split line = part0 :: parts /\
                      PyStr.eqb part0 label = false.
Proof.
  unfold ends_section, first_token.
  rewrite startswith_any_digit_spec. split.
  - intros [Hd (tok & Htok & Hne)]. split; [exact Hd|].
    destruct (split line) as [|part0 parts]; [discriminate|].
    inversion Htok; subst. exists tok, parts. split; [reflexivity|].
    apply eqb_neq. exact Hne.
  - intros [Hd (part0 & parts & Hs & Hne)]. split; [exact Hd|].
    exists part0. rewrite Hs. split; [reflexivity|].
    apply eqb_neq. exact Hne.
Qed.

Lemma scan_lines_result (s n : Z) (lines : list str) (r : Z * Z) :
  scan_lines label s n lines = Some r -> r = (s, n - 1).
Proof.
  induction lines as [|line lines IH]; simpl; [discriminate|].
  destruct (startswith_any_digit (strip line)); [|exact IH].
  destruct (split line) as [|part0 parts]; [exact IH|].
  destruct (PyStr.eqb part0 label); simpl; [exact IH|].
  intros H; inversion H; reflexivity.
Qed.

Lemma scan_lines_hit (s n : Z) (lines : list str) :
  (exists line, In line lines /\ ends_section label line) ->
  scan_lines label s n lines = Some (s, n - 1).
Proof.
  induction lines as [|line lines IH]; intros (l & Hin & Hl).
  - destruct Hin.
  - simpl.
    destruct (startswith_any_digit (strip line)) eqn:Hd.
    + destruct (split line) as [|part0 parts] eqn:Hs.
      * destruct Hin as [<- | Hin]; [|apply IH; eauto].
        apply ends_section_iff in Hl.
        destruct Hl as [_ (p0 & ps & Hs' & _)]. congruence.
      * destruct (PyStr.eqb part0 label) eqn:He; simpl; [|reflexivity].
        destruct Hin as [<- | Hin]; [|apply IH; eauto].
        apply ends_section_iff in Hl.
        destruct Hl as [_ (p0 & ps & Hs' & Hne)]. congruence.
    + destruct Hin as [<- | Hin]; [|apply IH; eauto].
      apply ends_section_iff in Hl. destruct Hl as [Hd' _]. congruence.
Qed.

Lemma scan_lines_miss (s n : Z) (lines : list str) :
  (forall line, In line lines -> ~ ends_section label line) ->
  scan_lines label s n lines = None.
Proof.
  induction lines as [|line lines IH]; intros Hno; [reflexivity|].
  assert (Hrest : scan_lines label s n lines = None)
    by (apply IH; intros l Hl; apply Hno; right; exact Hl).
  simpl.
  destruct (startswith_any_digit (strip line)) eqn:Hd; [|exact Hrest].
  destruct (split line) as [|part0 parts] eqn:Hs; [exact Hrest|].
  destruct (PyStr.eqb part0 label) eqn:He; simpl; [exact Hrest|].
  exfalso. apply (Hno line); [left; reflexivity|].
  apply ends_section_iff. split; [exact Hd|]. eauto.
Qed.

Lemma scan_pages_before_label (pre rest : list PageRecord) :
  (forall p, In p pre -> ~ is_substring label (text p)) ->
  scan_pages label None (pre ++ rest) = scan_pages label None rest.
Proof.
  induction pre as [|p pre IH]; intros Hno; [reflexivity|].
  simpl. assert (Hp : contains label (text p) = false)
    by (apply contains_false, Hno; left; reflexivity).
  rewrite Hp. apply IH. intros q Hq. apply Hno. right. exact Hq.
Qed.

Lemma scan_pages_inside (s : Z) (mid rest : list PageRecord) :
  (forall p, In p mid -> ~ page_ends_section label p) ->
  scan_pages label (Some s) (mid ++ rest) = scan_pages label (Some s) rest.
Proof.
  induction mid as [|p mid IH]; intros Hno; [reflexivity|].
  simpl. rewrite scan_lines_miss.
  - apply IH. intros q Hq. apply Hno. right. exact Hq.
  - intros line Hin Hl. apply (Hno p); [left; reflexivity|].
    exists line. split; assumption.
Qed.

Lemma scan_pages_at_end (s : Z) (p : PageRecord) (rest : list PageRecord) :
  page_ends_section label p ->
  scan_pages label (Some s) (p :: rest) = Returned (s, page_number p - 1).
Proof.
  intros Hp. simpl. rewrite scan_lines_hit; [reflexivity | exact Hp].
Qed.

Lemma scan_pages_at_label (p : PageRecord) (rest : list PageRecord) :
  is_substring label (text p) ->
  scan_pages label None (p :: rest)
  = scan_pages label (Some (page_number p)) rest.
Proof.
  intros Hp. simpl. apply contains_substring in Hp. rewrite Hp. reflexivity.
Qed.

End Scan.

(** ** The extraction loop *)

Section Extraction.

Lemma world_eta (w : World) : mkWorld (open_handles w) = w.
Proof. destruct w; reflexivity. Qed.

Lemma for_each_gather (f : Z -> outcome str)
    (body : Z -> list PageRecord -> Py (list PageRecord)) :
  (forall x acc w,
      body x acc w
      = (match f x with
         | Return t => Return (acc ++ [mkPage (x + 1) t])
         | Raise e => Raise e
         end, w)) ->
  forall xs acc w, for_each xs body acc w = (gather f acc xs, w).
Proof.
  intros Hbody xs. induction xs as [|x xs IH]; intros acc w; [reflexivity|].
  simpl. unfold bind. rewrite Hbody.
  destruct (f x) as [t|e]; [apply IH | reflexivity].
Qed.

Lemma gather_acc (f : Z -> outcome str) (xs : list Z) (acc : list PageRecord) :
  gather f acc xs
  = match gather f [] xs with
    | Return ps => Return (acc ++ ps)
    | Raise e => Raise e
    end.
Proof.
  revert acc. induction xs as [|x xs IH]; intros acc; simpl.
  - rewrite app_nil_r. reflexivity.
  - destruct (f x) as [t|e]; [|reflexivity].
    rewrite IH. rewrite (IH [_]).
    destruct (gather f [] xs); [|reflexivity].
    simpl. rewrite <- app_assoc. reflexivity.
Qed.

Lemma gather_cons (f : Z -> outcome str) (x : Z) (xs : list Z) :
  gather f [] (x :: xs)
  = match f x with
    | Return t =>
        match gather f [] xs with
        | Return ps => Return (mkPage (x + 1) t :: ps)
        | Raise e => Raise e
        end
    | Raise e => Raise e
    end.
Proof.
  simpl. destruct (f x) as [t|e]; [|reflexivity]. apply gather_acc.
Qed.

Lemma gather_return (f : Z -> outcome str) (xs : list Z) (ps : list PageRecord) :
  gather f [] xs = Return ps ->
  List.map page_number ps = List.map (fun i => i + 1) xs /\
  List.map (fun p => Return (text p)) ps = List.map f xs.
Proof.
  revert ps. induction xs as [|x xs IH]; intros ps.
  - simpl. intros H; inversion H; auto.
  - rewrite gather_cons. destruct (f x) as [t|e] eqn:Hx; [|discriminate].
    destruct (gather f [] xs) as [qs|e]; [|discriminate].
    intros H; inversion H; subst ps. destruct (IH qs eq_refl) as [Hn Ht].
    simpl. rewrite Hn, Ht, Hx. auto.
Qed.

Lemma gather_succeeds (f : Z -> outcome str) (xs : list Z) :
  (forall x, In x xs -> exists t, f x = Return t) ->
  exists ps, gather f [] xs = Return ps.
Proof.
  induction xs as [|x xs IH]; intros Hok.
  - exists []; reflexivity.
  - rewrite gather_cons. destruct (Hok x (or_introl eq_refl)) as [t Ht].
    rewrite Ht. destruct IH as [ps Hps].
    + intros y Hy. apply Hok. right. exact Hy.
    + rewrite Hps. eauto.
Qed.

Lemma run_pymupdf (self : PDFExtractor) (sp ep : option Z) (w : World) :
  _extract_with_pymupdf self sp ep w
  = match gather (mu_get_text (as_pymupdf (pdf_path self))) []
            (span sp ep (Z.of_nat (mu_len (as_pymupdf (pdf_path self))))) with
    | Return ps => (Return ps, w)
    | Raise e => (Raise e, mkWorld (S (open_handles w)))
    end.
Proof.
  unfold _extract_with_pymupdf, span.
  unfold bind at 1. unfold acquire at 1. unfold bind at 1.
  rewrite (for_each_gather (mu_get_text (as_pymupdf (pdf_path self)))).
  - destruct (gather _ _ _); [|reflexivity].
    unfold bind, release, ret. simpl. rewrite world_eta. reflexivity.
  - intros x acc w'. unfold bind, call, ret.
    destruct (mu_get_text _ x); reflexivity.
Qed.

Lemma run_pdfplumber (self : PDFExtractor) (sp ep : option Z) (w : World) :
  _extract_with_pdfplumber self sp ep w
  = (gather (plumber_text (as_pdfplumber (pdf_path self))) []
       (span sp ep
          (Z.of_nat (List.length (pl_pages (as_pdfplumber (pdf_path self)))))),
     w).
Proof.
  unfold _extract_with_pdfplumber, span.
  unfold bind at 1. unfold with_handle, acquire.
  rewrite (for_each_gather (plumber_text (as_pdfplumber (pdf_path self)))).
  - unfold release. simpl. rewrite world_eta.
    destruct (gather _ _ _); reflexivity.
  - intros x acc w'. unfold plumber_text, list_getitem, bind, call, ret, raise.
    destruct ((0 <=? _) && _); [|reflexivity].
    destruct (nth_error _ _) as [page|]; [|reflexivity].
    destruct (pl_extract_text page); reflexivity.
Qed.

End Extraction.

Section ExtractPages.

Lemma py_range_length (a b : Z) :
  List.length (py_range a b) = Z.to_nat (b - a).
Proof. unfold py_range. rewrite length_map, length_seq. reflexivity. Qed.

Lemma In_py_range (a b x : Z) : In x (py_range a b) <-> a <= x < b.
Proof.
  unfold py_range. rewrite in_map_iff. split.
  - intros (k & <- & Hk). apply in_seq in Hk. lia.
  - intros Hx. exists (Z.to_nat (x - a)). split; [lia|].
    apply in_seq. lia.
Qed.

Lemma py_range_empty (a b : Z) : b <= a -> py_range a b = [].
Proof.
  intros H. unfold py_range.
  replace (Z.to_nat (b - a)) with 0%nat by lia. reflexivity.
Qed.

Lemma py_range_nth (a b : Z) (k : nat) :
  (k < Z.to_nat (b - a))%nat ->
  List.nth_error (py_range a b) k = Some (a + Z.of_nat k).
Proof.
  intros Hk. unfold py_range.
  rewrite nth_error_map, nth_error_seq.
  destruct (Nat.ltb_spec k (Z.to_nat (b - a))); [reflexivity | lia].
Qed.

Lemma known_backend (self : PDFExtractor) :
  is_pymupdf self \/ is_pdfplumber self ->
  (is_pymupdf self /\ String.eqb (backend self) "pymupdf" = true) \/
  (is_pdfplumber self /\ String.eqb (backend self) "pymupdf" = false
   /\ String.eqb (backend self) "pdfplumber" = true).
Proof.
  unfold is_pymupdf, is_pdfplumber. intros [H | H]; rewrite H.
  - left. auto.
  - right. auto.
Qed.

(** [extract_pages] on a known backend: the gathered records on success; on
    an exception the world is unchanged under pdfplumber, and holds one more
    open handle under PyMuPDF. *)
Lemma extract_pages_run (self : PDFExtractor) (sp ep : option Z) (w : World) :
  is_pymupdf self \/ is_pdfplumber self ->
  extract_pages self sp ep w
  = match gather (page_text self) [] (span sp ep (page_count self)) with
    | Return ps => (Return ps, w)
    | Raise e =>
        (Raise e,
         if String.eqb (backend self) "pymupdf"
         then mkWorld (S (open_handles w)) else w)
    end.
Proof.
  intros Hb. unfold extract_pages, page_text, page_count.
  destruct (known_backend self Hb) as [[_ H1] | (_ & H1 & H2)].
  - rewrite H1. apply run_pymupdf.
  - rewrite H1, H2, run_pdfplumber.
    destruct (gather _ _ _); reflexivity.
Qed.

Lemma extract_pages_unknown (self : PDFExtractor) (sp ep : option Z) (w : World) :
  ~ (is_pymupdf self \/ is_pdfplumber self) ->
  exists e, extract_pages self sp ep w = (Raise e, w).
Proof.
  intros Hb. unfold extract_pages.
  destruct (String.eqb_spec (backend self) "pymupdf") as [H|_];
    [exfalso; apply Hb; left; exact H|].
  destruct (String.eqb_spec (backend self) "pdfplumber") as [H|_];
    [exfalso; apply Hb; right; exact H|].
  eexists. reflexivity.
Qed.

Lemma extract_pages_return (self : PDFExtractor) (sp ep : option Z)
    (w w' : World) (ps : list PageRecord) :
  extract_pages self sp ep w = (Return ps, w') ->
  (is_pymupdf self \/ is_pdfplumber self) /\ w' = w /\
  gather (page_text self) [] (span sp ep (page_count self)) = Return ps.
Proof.
  intros H.
  assert (Hb : is_pymupdf self \/ is_pdfplumber self).
  { unfold is_pymupdf, is_pdfplumber.
    destruct (String.eqb_spec (backend self) "pymupdf") as [H1|H1]; [auto|].
    destruct (String.eqb_spec (backend self) "pdfplumber") as [H2|H2]; [auto|].
    exfalso. destruct (extract_pages_unknown self sp ep w) as [e He].
    - unfold is_pymupdf, is_pdfplumber. tauto.
    - congruence. }
  split; [exact Hb|].
  rewrite (extract_pages_run self sp ep w Hb) in H.
  destruct (gather _ _ _); inversion H; auto.
Qed.

(** The records [extract_pages] returns are numbered consecutively from
    [range_start + 1]. *)
Lemma extract_pages_numbers (self : PDFExtractor) (sp ep : option Z)
    (w w' : World) (ps : list PageRecord) :
  extract_pages self sp ep w = (Return ps, w') ->
  List.map page_number ps
  = List.map (fun i => i + 1) (span sp ep (page_count self)).
Proof.
  intros H. apply extract_pages_return in H. destruct H as (_ & _ & H).
  apply gather_return in H. tauto.
Qed.

Lemma numbered_at (a b : Z) (pre post : list PageRecord) (p : PageRecord) :
  List.map page_number (pre ++ p :: post)
  = List.map (fun i => i + 1) (py_range a b) ->
  page_number p = a + Z.of_nat (List.length pre) + 1 /\
  (List.length pre + 1 + List.length post = Z.to_nat (b - a))%nat.
Proof.
  intros H.
  assert (Hlen : (List.length pre + 1 + List.length post
                  = Z.to_nat (b - a))%nat).
  { apply (f_equal (@List.length Z)) in H.
    rewrite !length_map, length_app, py_range_length in H. simpl in H. lia. }
  split; [|exact Hlen].
  apply (f_equal (fun l => List.nth_error l (List.length pre))) in H.
  rewrite !nth_error_map, nth_error_app2, Nat.sub_diag in H by lia.
  rewrite py_range_nth in H by lia. simpl in H. inversion H. reflexivity.
Qed.

End ExtractPages.

(** ** The section locator *)

Section Locator.

Lemma list_getitem_last {A} (pre : list A) (x : A) (w : World) :
  list_getitem (pre ++ [x]) (-1) w = (Return x, w).
Proof.
  unfold list_getitem. rewrite length_app.
  change (List.length [x]) with 1%nat. change (-1 <? 0) with true. cbv iota.
  replace (((0 <=? -1 + Z.of_nat (List.length pre + 1)))
           && (-1 + Z.of_nat (List.length pre + 1)
               <? Z.of_nat (List.length pre + 1))) with true
    by (symmetry; apply andb_true_iff; split; [apply Z.leb_le | apply Z.ltb_lt]; lia).
  replace (Z.to_nat (-1 + Z.of_nat (List.length pre + 1)))
    with (List.length pre) by lia.
  rewrite nth_error_app2, Nat.sub_diag by lia. reflexivity.
Qed.

Lemma find_section_run (self : PDFExtractor) (label : str)
    (sp ep : option Z) (w w' : World) (ps : list PageRecord) :
  extract_pages self sp ep w = (Return ps, w') ->
  find_section self label sp ep w
  = match scan_pages label None ps with
    | Returned r => ret (Some r) w'
    | Exhausted (Some s) =>
        (last <- list_getitem ps (-1) ;;
         ret (Some (s, page_number last))) w'
    | Exhausted None => ret None w'
    end.
Proof.
  intros H. unfold find_section. unfold bind at 1. rewrite H.
  destruct (scan_pages label None ps) as [r|[s|]]; reflexivity.
Qed.

Lemma find_section_raises (self : PDFExtractor) (label : str)
    (sp ep : option Z) (w w' : World) (e : exn) :
  extract_pages self sp ep w = (Raise e, w') ->
  find_section self label sp ep w = (Raise e, w').
Proof.
  intros H. unfold find_section. unfold bind at 1. rewrite H. reflexivity.
Qed.

Lemma scan_pages_started (label : str) (s : Z) (pages : list PageRecord) :
  match scan_pages label (Some s) pages with
  | Returned (s', e) =>
      s' = s /\ exists mid q post,
        pages = mid ++ q :: post /\ e = page_number q - 1
  | Exhausted x => x = Some s
  end.
Proof.
  induction pages as [|p pages IH]; simpl; [reflexivity|].
  destruct (scan_lines label s (page_number p) (split_on NL (text p)))
    as [[s' e]|] eqn:Hl.
  - apply scan_lines_result in Hl. inversion Hl; subst.
    split; [reflexivity|]. exists [], p, pages. auto.
  - destruct (scan_pages label (Some s) pages) as [[s' e]|x]; [|exact IH].
    destruct IH as [-> (mid & q & post & -> & ->)].
    split; [reflexivity|]. exists (p :: mid), q, post. auto.
Qed.

Lemma scan_pages_shape (label : str) (pages : list PageRecord) :
  match scan_pages label None pages with
  | Returned (s, e) =>
      exists pre p mid q post,
        pages = pre ++ p :: mid ++ q :: post /\
        s = page_number p /\ e = page_number q - 1
  | Exhausted (Some s) =>
      exists pre p post, pages = pre ++ p :: post /\ s = page_number p
  | Exhausted None => forall p, In p pages -> ~ is_substring label (text p)
  end.
Proof.
  induction pages as [|p pages IH]; simpl; [intros p []|].
  destruct (contains label (text p)) eqn:Hc.
  - pose proof (scan_pages_started label (page_number p) pages) as Hs.
    destruct (scan_pages label (Some (page_number p)) pages) as [[s e]|x].
    + destruct Hs as [-> (mid & q & post & -> & ->)].
      exists [], p, mid, q, post. auto.
    + subst x. exists [], p, pages. auto.
  - destruct (scan_pages label None pages) as [[s e]|[s|]].
    + destruct IH as (pre & p0 & mid & q & post & -> & -> & ->).
      exists (p :: pre), p0, mid, q, post. auto.
    + destruct IH as (pre & p0 & post & -> & ->).
      exists (p :: pre), p0, post. auto.
    + intros q [<- | Hq]; [apply contains_false; exact Hc | apply IH; exact Hq].
Qed.

End Locator.

(** ** Claims about the section locator *)

(** C1. Once the start page has been found (the first page whose text contains
    the label as a substring), the scan ends at the first later page that has
    a line which, after trimming, begins with an ASCII digit and whose first
    whitespace-delimited token differs from the label, and the result is
    (start page, that page's number - 1).  In particular, when page 5 is the
    first page containing "3.2" and the first digit-leading line of page 6
    starts with the token "3.3", the result is (5, 5). *)
Theorem find_section_stops_at_next_section :
  (forall self label sp ep w w' pre p_start mid p_end post,
      extract_pages self sp ep w
      = (Return (pre ++ p_start :: mid ++ p_end :: post), w') ->
      (forall p, In p pre -> ~ is_substring label (text p)) ->
      is_substring label (text p_start) ->
      (forall p, In p mid -> ~ page_ends_section label p) ->
      page_ends_section label p_end ->
      find_section self label sp ep w
      = (Return (Some (page_number p_start, page_number p_end - 1)), w'))
  /\
  (forall self sp ep w w' pre p5 p6 post line,
      extract_pages self sp ep w = (Return (pre ++ p5 :: p6 :: post), w') ->
      page_number p5 = 5 ->
      page_number p6 = 6 ->
      (forall p, In p pre -> ~ is_substring (lit "3.2") (text p)) ->
      is_substring (lit "3.2") (text p5) ->
      first_digit_leading_line (text p6) = Some line ->
      first_token line = Some (lit "3.3") ->
      find_section self (lit "3.2") sp ep w = (Return (Some (5, 5)), w')).
Proof.
  assert (General : forall self label sp ep w w' pre p_start mid p_end post,
      extract_pages self sp ep w
      = (Return (pre ++ p_start :: mid ++ p_end :: post), w') ->
      (forall p, In p pre -> ~ is_substring label (text p)) ->
      is_substring label (text p_start) ->
      (forall p, In p mid -> ~ page_ends_section label p) ->
      page_ends_section label p_end ->
      find_section self label sp ep w
      = (Return (Some (page_number p_start, page_number p_end - 1)), w')).
  { intros self label sp ep w w' pre p_start mid p_end post Hx Hpre Hs Hmid He.
    rewrite (find_section_run self label sp ep w _ _ Hx).
    rewrite scan_pages_before_label by exact Hpre.
    rewrite scan_pages_at_label by exact Hs.
    rewrite scan_pages_inside by exact Hmid.
    rewrite scan_pages_at_end by exact He.
    reflexivity. }
  split; [exact General|].
  intros self sp ep w w' pre p5 p6 post line Hx H5 H6 Hpre Hs Hline Htok.
  rewrite (General self (lit "3.2") sp ep w w' pre p5 [] p6 post Hx Hpre Hs).
  - rewrite H5, H6. reflexivity.
  - intros p [].
  - unfold first_digit_leading_line in Hline.
    apply find_some in Hline. destruct Hline as [Hin Hd].
    exists line. split; [exact Hin|]. split.
    + apply startswith_any_digit_spec. exact Hd.
    + exists (lit "3.3"). split; [exact Htok | discriminate].
Qed.

(** C5. When the label appears only on the very last page of the search
    range, the result is (that page, that page). *)
Theorem find_section_label_on_last_page :
  forall self label sp ep w w' pre p_last,
    extract_pages self sp ep w = (Return (pre ++ [p_last]), w') ->
    (forall p, In p pre -> ~ is_substring label (text p)) ->
    is_substring label (text p_last) ->
    find_section self label sp ep w
    = (Return (Some (page_number p_last, page_number p_last)), w').
Proof.
  intros self label sp ep w w' pre p_last Hx Hpre Hlast.
  rewrite (find_section_run self label sp ep w _ _ Hx).
  rewrite scan_pages_before_label by exact Hpre.
  rewrite scan_pages_at_label by exact Hlast. simpl.
  unfold bind. rewrite list_getitem_last. reflexivity.
Qed.

(** C6. An empty search range, and a search range none of whose pages contains
    the label, both make [find_section] return [None]; it does not raise. *)
Theorem find_section_absent :
  forall self label sp ep w w' ps,
    extract_pages self sp ep w = (Return ps, w') ->
    ps = [] \/ (forall p, In p ps -> ~ is_substring label (text p)) ->
    find_section self label sp ep w = (Return None, w').
Proof.
  intros self label sp ep w w' ps Hx Hps.
  rewrite (find_section_run self label sp ep w _ _ Hx).
  assert (Hno : forall p, In p ps -> ~ is_substring label (text p)).
  { destruct Hps as [-> | H]; [intros p [] | exact H]. }
  rewrite <- (app_nil_r ps).
  rewrite scan_pages_before_label by exact Hno. reflexivity.
Qed.

(** C9. Whenever [find_section] returns a match (start, end), start <= end and
    both are page numbers of records of the scanned range. *)
Theorem find_section_match_in_range :
  forall self label sp ep w w' s e,
    find_section self label sp ep w = (Return (Some (s, e)), w') ->
    exists ps,
      extract_pages self sp ep w = (Return ps, w') /\
      s <= e /\
      In s (List.map page_number ps) /\ In e (List.map page_number ps).
Proof.
  intros self label sp ep w w' s e Hf.
  destruct (extract_pages self sp ep w) as [[ps|ex] w1] eqn:Hx;
    [|rewrite (find_section_raises self label sp ep w _ _ Hx) in Hf; discriminate].
  rewrite (find_section_run self label sp ep w _ _ Hx) in Hf.
  pose proof (extract_pages_numbers self sp ep w _ _ Hx) as Hnum.
  unfold span in Hnum.
  set (a := range_start sp) in *.
  set (b := Z.min (range_end ep (page_count self)) (page_count self)) in *.
  pose proof (scan_pages_shape label ps) as Hshape.
  destruct (scan_pages label None ps) as [[s0 e0]|[s0|]].
  - inversion Hf; subst s0 e0 w1. clear Hf.
    destruct Hshape as (pre & p & mid & q & post & Hps & -> & ->).
    exists ps. split; [reflexivity|].
    pose proof Hnum as Hq. rewrite Hps in Hnum, Hq.
    apply numbered_at in Hnum. destruct Hnum as [Hp _].
    replace (pre ++ p :: mid ++ q :: post)
      with ((pre ++ p :: mid) ++ q :: post) in Hq
      by (rewrite <- app_assoc; reflexivity).
    apply numbered_at in Hq. destruct Hq as [Hq Hlen].
    rewrite length_app in Hq, Hlen. simpl in Hq, Hlen.
    split; [lia|]. split.
    + apply in_map. rewrite Hps. apply in_or_app. right. left. reflexivity.
    + rewrite (extract_pages_numbers self sp ep w _ _ Hx). unfold span.
      fold a b. apply in_map_iff. exists (page_number q - 1 - 1).
      split; [lia|]. apply In_py_range. lia.
  - destruct Hshape as (pre & p & post & Hps & ->).
    destruct (exists_last (l := ps)) as (pre' & last & Hlast);
      [rewrite Hps; destruct pre; discriminate|].
    rewrite Hlast in Hf. unfold bind in Hf.
    rewrite list_getitem_last in Hf. inversion Hf; subst e w1. clear Hf.
    exists ps. split; [rewrite Hlast; reflexivity|].
    pose proof Hnum as Hl. rewrite Hps in Hnum. rewrite Hlast in Hl.
    apply numbered_at in Hnum. apply numbered_at in Hl.
    simpl in Hl. split; [lia|]. split.
    + apply in_map. rewrite Hps. apply in_or_app. right. left. reflexivity.
    + apply in_map. rewrite Hlast. apply in_or_app. right. left. reflexivity.
  - inversion Hf.
Qed.

Lemma find_section_stops_at_next_section_witness :
  find_section (sample "pymupdf") (lit "3.3") (Some 3) None w0
  = (Return (Some (6, 7)), w0)
  /\
  find_section (sample "pdfplumber") (lit "3.2") (Some 3) (Some 6) w0
  = (Return (Some (5, 5)), w0).
Proof.
  split.
  - apply (proj1 find_section_stops_at_next_section
             (sample "pymupdf") (lit "3.3") (Some 3) None w0 w0
             [mkPage 3 (lit "Preface");
              mkPage 4 (lit "3.1 Setting" ++ [NL] ++ lit "see below");
              mkPage 5 (lit "3.2 Methods" ++ [NL]
                          ++ lit "We proceed as follows.")]
             (mkPage 6 (lit "Figure" ++ [NL] ++ lit "  3.3 Results"))
             [mkPage 7 (lit "continued")]
             (mkPage 8 (lit "4 Discussion"))
             []).
    + reflexivity.
    + intros p [<- | [<- | [<- | []]]]; apply contains_false; reflexivity.
    + apply contains_substring. reflexivity.
    + intros p [<- | []] (line & Hin & Hl).
      destruct Hin as [<- | []].
      apply ends_section_iff in Hl. destruct Hl as [Hd _]. discriminate Hd.
    + exists (lit "4 Discussion"). split; [left; reflexivity|].
      apply ends_section_iff. split; [reflexivity|].
      exists (lit "4"), [lit "Discussion"]. split; reflexivity.
  - apply (proj2 find_section_stops_at_next_section
             (sample "pdfplumber") (Some 3) (Some 6) w0 w0
             [mkPage 3 (lit "Preface");
              mkPage 4 (lit "3.1 Setting" ++ [NL] ++ lit "see below")]
             (mkPage 5 (lit "3.2 Methods" ++ [NL]
                          ++ lit "We proceed as follows."))
             (mkPage 6 (lit "Figure" ++ [NL] ++ lit "  3.3 Results"))
             []
             (lit "  3.3 Results")).
    + reflexivity.
    + reflexivity.
    + reflexivity.
    + intros p [<- | [<- | []]]; apply contains_false; reflexivity.
    + apply contains_substring. reflexivity.
    + reflexivity.
    + reflexivity.
Defined.

Lemma find_section_label_on_last_page_witness :
  find_section (sample "pdfplumber") (lit "3.3") (Some 4) (Some 6) w0
  = (Return (Some (6, 6)), w0).
Proof.
  apply (find_section_label_on_last_page
           (sample "pdfplumber") (lit "3.3") (Some 4) (Some 6) w0 w0
           [mkPage 4 (lit "3.1 Setting" ++ [NL] ++ lit "see below");
            mkPage 5 (lit "3.2 Methods" ++ [NL]
                        ++ lit "We proceed as follows.")]
           (mkPage 6 (lit "Figure" ++ [NL] ++ lit "  3.3 Results"))).
  - reflexivity.
  - intros p [<- | [<- | []]]; apply contains_false; reflexivity.
  - apply contains_substring. reflexivity.
Defined.

Lemma find_section_absent_witness :
  find_section (sample "pymupdf") (lit "3.2") (Some 9) None w0
  = (Return None, w0)
  /\
  find_section (sample "pymupdf") (lit "7.1") (Some 7) None w0
  = (Return None, w0).
Proof.
  split.
  - apply (find_section_absent (sample "pymupdf") (lit "3.2") (Some 9) None
             w0 w0 []).
    + reflexivity.
    + left. reflexivity.
  - apply (find_section_absent (sample "pymupdf") (lit "7.1") (Some 7) None
             w0 w0 [mkPage 7 (lit "continued");
                    mkPage 8 (lit "4 Discussion")]).
    + reflexivity.
    + right. intros p [<- | [<- | []]]; apply contains_false; reflexivity.
Defined.

Lemma find_section_match_in_range_witness :
  exists ps,
    extract_pages (sample "pymupdf") (Some 3) None w0 = (Return ps, w0) /\
    6 <= 7 /\
    In 6 (List.map page_number ps) /\ In 7 (List.map page_number ps).
Proof.
  apply (find_section_match_in_range (sample "pymupdf") (lit "3.3")
           (Some 3) None w0 w0 6 7).
  reflexivity.
Defined.

(** ** Claims about the extraction of a page range *)

Lemma page_count_nonneg (self : PDFExtractor) : 0 <= page_count self.
Proof. unfold page_count. destruct (String.eqb _ _); lia. Qed.

Lemma range_start_set (v : Z) : v <> 0 -> range_start (Some v) = v - 1.
Proof.
  intros Hv. unfold range_start, truthy, int_value.
  destruct (Z.eqb_spec v 0); [contradiction | reflexivity].
Qed.

Lemma range_end_set (v total : Z) : v <> 0 -> range_end (Some v) total = v.
Proof.
  intros Hv. unfold range_end, truthy, int_value.
  destruct (Z.eqb_spec v 0); [contradiction | reflexivity].
Qed.

Lemma gather_In (f : Z -> outcome str) (xs : list Z) (ps : list PageRecord) :
  gather f [] xs = Return ps ->
  forall p, In p ps ->
    exists x, In x xs /\ page_number p = x + 1 /\ f x = Return (text p).
Proof.
  revert ps. induction xs as [|x xs IH]; intros ps.
  - simpl. intros H; inversion H. intros p [].
  - rewrite gather_cons. destruct (f x) as [t|e] eqn:Hx; [|discriminate].
    destruct (gather f [] xs) as [qs|e]; [|discriminate].
    intros H; inversion H; subst ps. intros p [<- | Hp].
    + exists x. simpl. auto.
    + destruct (IH qs eq_refl p Hp) as (y & Hy & Hn & Ht).
      exists y. simpl. auto.
Qed.


(** The record at each position of a gathered list. *)
Lemma gather_nth (f : Z -> outcome str) (xs : list Z) (ps : list PageRecord) :
  gather f [] xs = Return ps ->
  forall k x, List.nth_error xs k = Some x ->
    exists t, f x = Return t /\ List.nth_error ps k = Some (mkPage (x + 1) t).
Proof.
  revert ps. induction xs as [|y xs IH]; intros ps.
  - intros _ [|k] x H; discriminate H.
  - rewrite gather_cons. destruct (f y) as [t|e] eqn:Hy; [|discriminate].
    destruct (gather f [] xs) as [qs|e]; [|discriminate].
    intros H; inversion H; subst ps. intros [|k] x Hk.
    + inversion Hk; subst x. exists t. split; [exact Hy | reflexivity].
    + exact (IH qs eq_refl k x Hk).
Qed.

Lemma gather_raises (f : Z -> outcome str) (xs : list Z) (x : Z) (e : exn) :
  In x xs -> f x = Raise e -> exists e', gather f [] xs = Raise e'.
Proof.
  intros Hx Hf. destruct (gather f [] xs) as [ps|e'] eqn:Hg; [|eauto].
  destruct (In_nth_error _ _ Hx) as [k Hk].
  destruct (gather_nth f xs ps Hg k x Hk) as (t & Ht & _). congruence.
Qed.

Lemma gather_raise_inv (f : Z -> outcome str) (xs : list Z) (e : exn) :
  gather f [] xs = Raise e -> exists x, In x xs /\ f x = Raise e.
Proof.
  induction xs as [|y xs IH]; [discriminate|].
  rewrite gather_cons. destruct (f y) as [t|e'] eqn:Hy.
  - destruct (gather f [] xs) as [qs|e'] eqn:Hg; [discriminate|].
    intros H; inversion H; subst e'.
    destruct (IH eq_refl) as (x & Hx & Hfx). exists x. split; [right|]; auto.
  - intros H; inversion H; subst e'. exists y. split; [left|]; auto.
Qed.

(** C10. A start page strictly greater than the page count gives the empty
    sequence, on both backends; no error is raised and the start of the range
    is not checked against the page count. *)
Theorem extract_pages_start_beyond_last_page :
  forall self start end_page w,
    is_pymupdf self \/ is_pdfplumber self ->
    page_count self < start ->
    extract_pages self (Some start) end_page w = (Return [], w).
Proof.
  intros self start end_page w Hb Hstart.
  rewrite (extract_pages_run self (Some start) end_page w Hb).
  pose proof (page_count_nonneg self) as Hpc.
  unfold span. rewrite range_start_set by lia.
  rewrite py_range_empty by lia. reflexivity.
Qed.

Lemma extract_pages_start_beyond_last_page_witness :
  extract_pages (sample "pymupdf") (Some 9) (Some 12) w0 = (Return [], w0)
  /\ extract_pages (sample "pdfplumber") (Some 100) None w0 = (Return [], w0).
Proof.
  split.
  - apply (extract_pages_start_beyond_last_page (sample "pymupdf") 9 (Some 12) w0).
    + left. reflexivity.
    + reflexivity.
  - apply (extract_pages_start_beyond_last_page (sample "pdfplumber") 100 None w0).
    + right. reflexivity.
    + reflexivity.
Defined.

(** C3. For a range with 1 <= start <= end whose start lies inside the
    document (in particular for every range fully inside it), on either
    backend and when no page of the document fails to extract,
    [extract_pages] returns min(end, page_count) - max(start - 1, 0) records,
    numbered start, start + 1, ... (from 1 when start is unset); the end is
    clamped to the page count. *)
Theorem extract_pages_range :
  forall self start_page end_page w,
    is_pymupdf self \/ is_pdfplumber self ->
    1 <= first_page start_page ->
    first_page start_page <= last_page end_page (page_count self) ->
    first_page start_page <= page_count self ->
    (forall i, 0 <= i < page_count self ->
               exists t, page_text self i = Return t) ->
    exists ps,
      extract_pages self start_page end_page w = (Return ps, w) /\
      Z.of_nat (List.length ps)
      = Z.min (last_page end_page (page_count self)) (page_count self)
        - Z.max (first_page start_page - 1) 0 /\
      List.map page_number ps
      = List.map (fun k => first_page start_page + Z.of_nat k)
          (List.seq 0 (List.length ps)).
Proof.
  intros self sp ep w Hb Hs Hse Hspc Hok.
  rewrite (extract_pages_run self sp ep w Hb).
  assert (Hstart : range_start sp = first_page sp - 1).
  { destruct sp as [v|]; [cbn [first_page] in *; apply range_start_set; lia | reflexivity]. }
  assert (Hend : range_end ep (page_count self)
                 = last_page ep (page_count self)).
  { destruct ep as [v|]; [cbn [last_page] in *; apply range_end_set; lia | reflexivity]. }
  destruct (gather_succeeds (page_text self) (span sp ep (page_count self)))
    as [ps Hps].
  { intros i Hi. apply Hok. unfold span in Hi. apply In_py_range in Hi. lia. }
  rewrite Hps. exists ps. split; [reflexivity|].
  apply gather_return in Hps. destruct Hps as [Hnum _].
  assert (Hlen : List.length ps
                 = Z.to_nat (Z.min (last_page ep (page_count self))
                                   (page_count self)
                             - (first_page sp - 1))).
  { apply (f_equal (@List.length Z)) in Hnum.
    rewrite !length_map in Hnum. unfold span in Hnum.
    rewrite py_range_length, Hstart, Hend in Hnum. exact Hnum. }
  split; [lia|].
  rewrite Hnum. unfold span, py_range.
  rewrite Hstart, Hend, map_map, <- Hlen.
  apply map_ext. intros k. lia.
Qed.

Lemma extract_pages_range_witness :
  exists ps,
    extract_pages (sample "pdfplumber") (Some 3) (Some 12) w0 = (Return ps, w0)
    /\ Z.of_nat (List.length ps) = Z.min 12 8 - Z.max (3 - 1) 0
    /\ List.map page_number ps
       = List.map (fun k => 3 + Z.of_nat k) (List.seq 0 (List.length ps)).
Proof.
  apply (extract_pages_range (sample "pdfplumber") (Some 3) (Some 12) w0).
  - right. reflexivity.
  - simpl. lia.
  - simpl. lia.
  - vm_compute. discriminate.
  - intros i Hi. change (page_count (sample "pdfplumber")) with 8 in Hi.
    assert (Hcases : i = 0 \/ i = 1 \/ i = 2 \/ i = 3 \/ i = 4 \/ i = 5
                     \/ i = 6 \/ i = 7) by lia.
    destruct Hcases as [-> | [-> | [-> | [-> | [-> | [-> | [-> | ->]]]]]]];
      eexists; reflexivity.
Defined.

(** ** Textless pages *)

Lemma or_empty_text (t : option str) :
  or_empty t = match t with Some s => s | None => [] end.
Proof. destruct t as [[|c s]|]; reflexivity. Qed.

Lemma page_text_pdfplumber (self : PDFExtractor) (i : Z) :
  is_pdfplumber self ->
  page_text self i = plumber_text (as_pdfplumber (pdf_path self)) i.
Proof. unfold is_pdfplumber, page_text. intros ->. reflexivity. Qed.

Lemma page_count_pdfplumber (self : PDFExtractor) :
  is_pdfplumber self ->
  page_count self
  = Z.of_nat (List.length (pl_pages (as_pdfplumber (pdf_path self)))).
Proof. unfold is_pdfplumber, page_count. intros ->. reflexivity. Qed.

Lemma plumber_text_at (pdf : PlumberPDF) (i : Z) :
  0 <= i < Z.of_nat (List.length (pl_pages pdf)) ->
  exists page,
    List.nth_error (pl_pages pdf) (Z.to_nat i) = Some page /\
    plumber_text pdf i
    = match pl_extract_text page with
      | Return t => Return (or_empty t)
      | Raise e => Raise e
      end.
Proof.
  intros Hi. unfold plumber_text.
  destruct (Z.ltb_spec i 0); [lia|].
  destruct (Z.leb_spec 0 i); [|lia].
  destruct (Z.ltb_spec i (Z.of_nat (List.length (pl_pages pdf)))); [|lia].
  simpl.
  destruct (List.nth_error (pl_pages pdf) (Z.to_nat i)) as [page|] eqn:Hn.
  - exists page. auto.
  - apply nth_error_None in Hn. lia.
Qed.

Lemma span_bounds (sp ep : option Z) (total i : Z) :
  0 <= range_start sp -> In i (span sp ep total) -> 0 <= i < total.
Proof. unfold span. intros Hs Hi. apply In_py_range in Hi. lia. Qed.



(** ** The document handle *)

Lemma pdfplumber_releases_handle (self : PDFExtractor) (sp ep : option Z)
    (w : World) :
  is_pdfplumber self -> snd (extract_pages self sp ep w) = w.
Proof.
  intros Hb. rewrite (extract_pages_run self sp ep w (or_intror Hb)).
  unfold is_pdfplumber in Hb. rewrite Hb.
  destruct (gather _ _ _); reflexivity.
Qed.

Lemma handle_released_on_return (self : PDFExtractor) (sp ep : option Z)
    (w w' : World) (ps : list PageRecord) :
  extract_pages self sp ep w = (Return ps, w') -> w' = w.
Proof. intros H. apply extract_pages_return in H. tauto. Qed.

Lemma pymupdf_keeps_handle_on_raise (self : PDFExtractor) (sp ep : option Z)
    (w w' : World) (e : exn) :
  is_pymupdf self ->
  extract_pages self sp ep w = (Raise e, w') ->
  open_handles w' = S (open_handles w).
Proof.
  intros Hb. rewrite (extract_pages_run self sp ep w (or_introl Hb)).
  unfold is_pymupdf in Hb. rewrite Hb.
  destruct (gather _ _ _); intros H; inversion H; reflexivity.
Qed.

(** C2. The handle is to be released on every exit path of [extract_pages],
    on both backends.  On a file whose second page makes the library raise,
    the pdfplumber path returns to the initial state, while the PyMuPDF path
    propagates the exception with its handle still open. *)
Theorem pymupdf_handle_left_open_on_error :
  extract_pages (mkExtractor damaged_file "pdfplumber") None None w0
  = (Raise (LibraryError 1), w0)
  /\
  extract_pages (mkExtractor damaged_file "pymupdf") None None w0
  = (Raise (LibraryError 1), mkWorld 1).
Proof. split; reflexivity. Qed.

(** ** The text formatter *)

Lemma fold_left_append {A B} (f : list B -> A -> list B) (g : A -> list B) :
  (forall acc x, f acc x = acc ++ g x) ->
  forall xs acc, List.fold_left f xs acc = acc ++ List.flat_map g xs.
Proof.
  intros Hf xs. induction xs as [|x xs IH]; intros acc; simpl.
  - rewrite app_nil_r. reflexivity.
  - rewrite IH, Hf, app_assoc. reflexivity.
Qed.

Lemma flat_map_singleton {A B} (g : A -> B) (xs : list A) :
  List.flat_map (fun x => [g x]) xs = List.map g xs.
Proof. induction xs as [|x xs IH]; simpl; [|rewrite IH]; reflexivity. Qed.

Lemma join_cons (sep x : str) (l : list str) :
  l <> [] -> join sep (x :: l) = x ++ sep ++ join sep l.
Proof. destruct l; [contradiction | reflexivity]. Qed.

Lemma split_on_nonempty (sep : char) (s : str) : split_on sep s <> [].
Proof.
  destruct s as [|c s]; simpl; [discriminate|].
  destruct (N.eqb c sep); [discriminate|].
  destruct (split_on sep s); discriminate.
Qed.

Lemma split_on_app_sep (sep : char) (a b : str) :
  split_on sep (a ++ sep :: b) = split_on sep a ++ split_on sep b.
Proof.
  induction a as [|c a IH]; simpl.
  - rewrite N.eqb_refl. reflexivity.
  - destruct (N.eqb c sep); [rewrite IH; reflexivity|].
    rewrite IH. pose proof (split_on_nonempty sep a) as Hne.
    destruct (split_on sep a) as [|l ls]; [contradiction | reflexivity].
Qed.

Lemma split_on_no_sep (sep : char) (s : str) :
  ~ In sep s -> split_on sep s = [s].
Proof.
  induction s as [|c s IH]; intros Hno; [reflexivity|].
  simpl. destruct (N.eqb_spec c sep) as [-> | Hc].
  - exfalso. apply Hno. left. reflexivity.
  - rewrite IH; [reflexivity|]. intros Hin. apply Hno. right. exact Hin.
Qed.

Lemma split_on_join (parts : list str) :
  parts <> [] ->
  split_on NL (join [NL] parts) = List.flat_map (split_on NL) parts.
Proof.
  induction parts as [|p parts IH]; intros Hne; [contradiction|].
  destruct parts as [|q parts].
  - simpl. rewrite app_nil_r. reflexivity.
  - rewrite join_cons by discriminate.
    change ([NL] ++ join [NL] (q :: parts)) with (NL :: join [NL] (q :: parts)).
    rewrite split_on_app_sep, IH by discriminate. reflexivity.
Qed.

Lemma flat_map_flat_map {A B C} (f : B -> list C) (g : A -> list B)
    (l : list A) :
  List.flat_map f (List.flat_map g l)
  = List.flat_map (fun x => List.flat_map f (g x)) l.
Proof.
  induction l as [|x l IH]; [reflexivity|].
  simpl. rewrite flat_map_app, IH. reflexivity.
Qed.

Lemma uint_str_digits (d : Decimal.uint) :
  Forall (fun c => (48 <= c <= 57)%N) (uint_str d).
Proof.
  induction d; simpl; constructor; try assumption; lia.
Qed.

Lemma int_str_no_newline (n : Z) : ~ In NL (int_str n).
Proof.
  assert (H : forall d, ~ In NL (uint_str d)).
  { intros d Hin. pose proof (uint_str_digits d) as Hd.
    rewrite Forall_forall in Hd. apply Hd in Hin. unfold NL in Hin. lia. }
  unfold int_str. destruct (Z.to_int n) as [d|d].
  - apply H.
  - intros [Heq | Hin]; [discriminate | exact (H d Hin)].
Qed.

Lemma page_label_line (n : Z) :
  split_on NL (lit "Page " ++ int_str n) = [lit "Page " ++ int_str n].
Proof.
  apply split_on_no_sep. intros Hin. apply in_app_or in Hin.
  destruct Hin as [Hin | Hin].
  - simpl in Hin. unfold NL in Hin.
    repeat (destruct Hin as [Hin | Hin]; [discriminate|]). exact Hin.
  - exact (int_str_no_newline n Hin).
Qed.

(** C8. With banners suppressed the output is exactly the pages' texts, in
    their order, joined by a newline: its lines are the lines of the texts
    and nothing else.  With banners each page's text is preceded by an empty
    line, a line of 60 separator characters, the "Page N" label, another line
    of 60 separator characters and an empty line. *)
Theorem extract_to_text_layout :
  forall self pages,
    extract_to_text self pages false
    = join [NL] (List.map text pages)
    /\
    extract_to_text self pages true
    = join [NL]
        (List.flat_map
           (fun p => [[NL] ++ repeat_char 61%N 60;
                      lit "Page " ++ int_str (page_number p);
                      repeat_char 61%N 60 ++ [NL];
                      text p])
           pages)
    /\
    (pages <> [] ->
     split_on NL (extract_to_text self pages false)
     = List.flat_map (fun p => split_on NL (text p)) pages)
    /\
    (pages <> [] ->
     split_on NL (extract_to_text self pages true)
     = List.flat_map
         (fun p => [[]; repeat_char 61%N 60;
                    lit "Page " ++ int_str (page_number p);
                    repeat_char 61%N 60; []]
                     ++ split_on NL (text p))
         pages).
Proof.
  intros self pages.
  assert (Hplain : extract_to_text self pages false
                   = join [NL] (List.map text pages)).
  { unfold extract_to_text.
    rewrite (fold_left_append _ (fun p => [text p]))
      by (intros acc p; reflexivity).
    simpl. rewrite flat_map_singleton. reflexivity. }
  assert (Hbanner : extract_to_text self pages true
    = join [NL]
        (List.flat_map
           (fun p => [[NL] ++ repeat_char 61%N 60;
                      lit "Page " ++ int_str (page_number p);
                      repeat_char 61%N 60 ++ [NL];
                      text p])
           pages)).
  { unfold extract_to_text.
    rewrite (fold_left_append _
               (fun p => [[NL] ++ rule60;
                          lit "Page " ++ int_str (page_number p);
                          rule60 ++ [NL];
                          text p]))
      by (intros acc p; rewrite <- !app_assoc; reflexivity).
    reflexivity. }
  split; [exact Hplain|]. split; [exact Hbanner|]. split.
  - intros Hne. rewrite Hplain, split_on_join.
    + rewrite <- flat_map_singleton, flat_map_flat_map.
      apply flat_map_ext. intros p. simpl. apply app_nil_r.
    + destruct pages; [contradiction | discriminate].
  - intros Hne. rewrite Hbanner, split_on_join.
    + rewrite flat_map_flat_map. apply flat_map_ext. intros p.
      cbn [List.flat_map]. rewrite page_label_line, app_nil_r.
      reflexivity.
    + destruct pages; [contradiction | discriminate].
Qed.

Lemma extract_to_text_layout_witness :
  split_on NL
    (extract_to_text (sample "pymupdf")
       [mkPage 7 (lit "continued"); mkPage 8 (lit "4 Discussion")] false)
  = [lit "continued"; lit "4 Discussion"]
  /\
  split_on NL
    (extract_to_text (sample "pymupdf") [mkPage 8 (lit "4 Discussion")] true)
  = [[]; repeat_char 61%N 60; lit "Page 8"; repeat_char 61%N 60; [];
     lit "4 Discussion"].
Proof.
  split.
  - apply (proj1 (proj2 (proj2 (extract_to_text_layout (sample "pymupdf")
             [mkPage 7 (lit "continued"); mkPage 8 (lit "4 Discussion")])))).
    discriminate.
  - apply (proj2 (proj2 (proj2 (extract_to_text_layout (sample "pymupdf")
             [mkPage 8 (lit "4 Discussion")])))).
    discriminate.
Defined.

(** ** The JSON encoding and its decoding *)

Section JsonStrings.

Lemma skip_ws_spaces (n : nat) (s : str) :
  skip_ws (repeat_char SPACE n ++ s) = skip_ws s.
Proof. induction n as [|n IH]; [reflexivity | exact IH]. Qed.

Lemma skip_ws_newline_indent (level : nat) (s : str) :
  skip_ws (newline_indent level ++ s) = skip_ws s.
Proof. unfold newline_indent. simpl. apply skip_ws_spaces. Qed.

Lemma scan_string_literal (c : char) (s : str) :
  (c =? 34)%N = false -> (c =? 92)%N = false -> (c <? 32)%N = false ->
  scan_string (c :: s)
  = match scan_string s with
    | Some (t, r) => Some (c :: t, r)
    | None => None
    end.
Proof. intros H1 H2 H3. cbn [scan_string]. rewrite H1, H2, H3. reflexivity. Qed.

Lemma scan_string_escape (c : char) (s : str) :
  scan_string (escape_char c ++ s)
  = match scan_string s with
    | Some (t, r) => Some (c :: t, r)
    | None => None
    end.
Proof.
  destruct (N.ltb_spec c 32) as [Hlt | Hge].
  - assert (Hc : In c [0; 1; 2; 3; 4; 5; 6; 7; 8; 9; 10; 11; 12; 13; 14; 15;
                       16; 17; 18; 19; 20; 21; 22; 23; 24; 25; 26; 27; 28; 29;
                       30; 31]%N).
    { simpl. lia. }
    simpl in Hc.
    repeat (destruct Hc as [<- | Hc]; [reflexivity|]). destruct Hc.
  - destruct (N.eqb_spec c 92) as [-> | H92]; [reflexivity|].
    destruct (N.eqb_spec c 34) as [-> | H34]; [reflexivity|].
    unfold escape_char.
    replace (c =? 92)%N with false by (symmetry; apply N.eqb_neq; exact H92).
    replace (c =? 34)%N with false by (symmetry; apply N.eqb_neq; exact H34).
    tests_false c [8; 12; 10; 13; 9]%N.
    replace (c <? 32)%N with false by (symmetry; apply N.ltb_ge; exact Hge).
    apply scan_string_literal.
    + apply N.eqb_neq; exact H34.
    + apply N.eqb_neq; exact H92.
    + apply N.ltb_ge; exact Hge.
Qed.

(** Decoding an encoded string gives the string back. *)
Lemma scan_string_encoded (t rest : str) :
  scan_string (List.flat_map escape_char t ++ QUOTE :: rest) = Some (t, rest).
Proof.
  induction t as [|c t IH]; [reflexivity|].
  cbn [List.flat_map]. rewrite <- app_assoc, scan_string_escape, IH.
  reflexivity.
Qed.

End JsonStrings.

Section JsonNumbers.

Lemma scan_digits_uint_str (d : Decimal.uint) (rest : str) :
  scan_digits (uint_str d ++ COMMA :: rest) = (d, COMMA :: rest).
Proof.
  induction d as [|d IH|d IH|d IH|d IH|d IH|d IH|d IH|d IH|d IH|d IH];
    [reflexivity|..]; cbn [uint_str app scan_digits];
    cbv [digit_of N.eqb Pos.eqb]; rewrite IH; reflexivity.
Qed.

Lemma to_uint_head (p : positive) :
  exists c tl,
    uint_str (Pos.to_uint p) = c :: tl /\
    (49 <= c <= 57)%N /\
    forall rest,
      scan_digits (c :: tl ++ COMMA :: rest)
      = (Pos.to_uint p, COMMA :: rest).
Proof.
  pose proof (DecimalPos.Unsigned.to_uint_nonnil p) as Hnil.
  assert (Hnorm : Decimal.unorm (Pos.to_uint p) = Pos.to_uint p).
  { rewrite <- (DecimalPos.Unsigned.to_of (Pos.to_uint p)).
    rewrite DecimalPos.Unsigned.of_to. reflexivity. }
  pose proof (DecimalPos.Unsigned.to_uint_nonzero p) as Hnz.
  assert (Hhead : forall d', Pos.to_uint p <> Decimal.D0 d').
  { intros d' Heq. rewrite Heq in Hnorm.
    rewrite DecimalFacts.unorm_D0 in Hnorm. unfold Decimal.unorm in Hnorm.
    destruct (Decimal.nzhead d') eqn:Hz; try discriminate Hnorm.
    - apply Hnz. rewrite Heq, <- Hnorm. reflexivity.
    - exact (DecimalFacts.nzhead_nonzero _ _ Hz). }
  assert (Hscan : forall rest,
             scan_digits (uint_str (Pos.to_uint p) ++ COMMA :: rest)
             = (Pos.to_uint p, COMMA :: rest))
    by (intros rest; apply scan_digits_uint_str).
  destruct (Pos.to_uint p) as [|d|d|d|d|d|d|d|d|d|d];
    [contradiction | exfalso; apply (Hhead d); reflexivity | ..];
    cbn [uint_str]; eexists; eexists;
    (split; [reflexivity | split; [lia | exact Hscan]]).
Qed.

Lemma of_int_to_uint (p : positive) :
  Z.of_int (Decimal.Pos (Pos.to_uint p)) = Z.pos p /\
  Z.of_int (Decimal.Neg (Pos.to_uint p)) = Z.neg p.
Proof.
  split.
  - exact (DecimalZ.of_to (Z.pos p)).
  - exact (DecimalZ.of_to (Z.neg p)).
Qed.

Lemma scan_natural_to_uint (p : positive) (rest : str) :
  scan_natural (uint_str (Pos.to_uint p) ++ COMMA :: rest)
  = Some (Pos.to_uint p, COMMA :: rest).
Proof.
  destruct (to_uint_head p) as (c & tl & -> & Hc & Hscan).
  cbn [app scan_natural].
  test_false c 48%N.
  replace (is_ascii_digit c) with true
    by (symmetry; unfold is_ascii_digit; apply andb_true_iff;
        split; apply N.leb_le; lia).
  rewrite Hscan. reflexivity.
Qed.

(** Decoding the decimal form of an int, followed by a comma, gives the int
    back. *)
Lemma scan_number_int (n : Z) (rest : str) :
  scan_number (int_str n ++ COMMA :: rest) = Some (PyInt n, COMMA :: rest).
Proof.
  destruct n as [|p|p].
  - reflexivity.
  - unfold int_str. cbn [Z.to_int].
    pose proof (scan_natural_to_uint p rest) as Hn.
    destruct (to_uint_head p) as (c & tl & Heq & Hc & _).
    rewrite Heq in Hn |- *. cbn [app] in Hn |- *. unfold scan_number.
    test_false c 45%N.
    rewrite Hn, (proj1 (of_int_to_uint p)). reflexivity.
  - unfold int_str. cbn [Z.to_int app scan_number].
    change (45 =? 45)%N with true. cbv iota.
    rewrite scan_natural_to_uint, (proj2 (of_int_to_uint p)). reflexivity.
Qed.

Lemma int_str_head (n : Z) :
  exists c tl, int_str n = c :: tl /\ (c = 45 \/ 48 <= c <= 57)%N.
Proof.
  destruct n as [|p|p].
  - exists 48%N, []. split; [reflexivity | lia].
  - destruct (to_uint_head p) as (c & tl & Heq & Hc & _).
    exists c, tl. unfold int_str. cbn [Z.to_int]. split; [exact Heq | lia].
  - exists 45%N, (uint_str (Pos.to_uint p)). split; [reflexivity | lia].
Qed.

Lemma parse_value_int (fuel : nat) (n : Z) (rest : str) :
  parse_value (S fuel) (int_str n ++ COMMA :: rest)
  = Some (PyInt n, COMMA :: rest).
Proof.
  pose proof (scan_number_int n rest) as Hn.
  destruct (int_str_head n) as (c & tl & Heq & Hc).
  rewrite Heq in Hn |- *. cbn [app] in Hn |- *.
  cbn [parse_value startswith lit List.map list_ascii_of_string N_of_ascii
       N_of_digits].
  tests_false c [34; 123; 91]%N.
  cbn.
  tests_false c [110; 116; 102]%N.
  cbn. exact Hn.
Qed.

End JsonNumbers.

Section JsonRoundTrip.

Lemma skip_ws_int (n : Z) (rest : str) :
  skip_ws (int_str n ++ rest) = int_str n ++ rest.
Proof.
  destruct (int_str_head n) as (c & tl & -> & Hc).
  cbn [app skip_ws]. unfold is_json_ws.
  tests_false c [32; 9; 10; 13]%N.
  reflexivity.
Qed.

Lemma parse_members_step (fuel : nat) (key s : str) :
  skip_ws s = s ->
  parse_members (S fuel)
    (List.flat_map escape_char key ++ QUOTE :: lit ": " ++ s)
  = match parse_value fuel s with
    | Some (value, r2) =>
        match skip_ws r2 with
        | [] => None
        | c2 :: r3 =>
            if (c2 =? 125)%N then Some ([(key, value)], r3)
            else if (c2 =? 44)%N then
              match skip_ws r3 with
              | [] => None
              | c3 :: r4 =>
                  if (c3 =? 34)%N then
                    match parse_members fuel r4 with
                    | Some (pairs, r5) => Some ((key, value) :: pairs, r5)
                    | None => None
                    end
                  else None
              end
            else None
        end
    | None => None
    end.
Proof.
  intros Hs. cbn [parse_members]. rewrite scan_string_encoded.
  cbn. rewrite Hs. reflexivity.
Qed.


Lemma encode_page (n : Z) (t rest : str) :
  encode 1 (page_dict (mkPage n t)) ++ rest
  = 123%N :: newline_indent 2 ++ QUOTE ::
      List.flat_map escape_char (lit "page_number") ++ QUOTE :: lit ": " ++
      int_str n ++ COMMA :: newline_indent 2 ++ QUOTE ::
      List.flat_map escape_char (lit "text") ++ QUOTE :: lit ": " ++
      QUOTE :: List.flat_map escape_char t ++ QUOTE :: newline_indent 1 ++
      125%N :: rest.
Proof.
  cbn. rewrite <- !app_assoc. cbn. rewrite <- !app_assoc. reflexivity.
Qed.

Lemma parse_page_dict (fuel : nat) (p : PageRecord) (rest : str) :
  parse_value (S (S (S (S fuel)))) (encode 1 (page_dict p) ++ rest)
  = Some (page_dict p, rest).
Proof.
  destruct p as [n t]. rewrite encode_page.
  cbn [parse_value]. change (123 =? 34)%N with false.
  change (123 =? 123)%N with true. cbv iota.
  rewrite skip_ws_newline_indent. cbn [skip_ws is_json_ws].
  change (is_json_ws QUOTE) with false. cbv iota.
  change (QUOTE =? 125)%N with false. change (QUOTE =? 34)%N with true.
  cbv iota.
  rewrite parse_members_step by apply skip_ws_int.
  rewrite parse_value_int.
  cbn [skip_ws]. change (is_json_ws COMMA) with false. cbv iota.
  change (COMMA =? 125)%N with false. change (COMMA =? 44)%N with true.
  cbv iota.
  rewrite skip_ws_newline_indent. cbn [skip_ws].
  change (is_json_ws QUOTE) with false. cbv iota.
  change (QUOTE =? 34)%N with true. cbv iota.
  rewrite parse_members_step by reflexivity.
  cbn [parse_value]. change (QUOTE =? 34)%N with true. cbv iota.
  rewrite scan_string_encoded.
  rewrite skip_ws_newline_indent. cbn [skip_ws].
  change (is_json_ws 125%N) with false. cbv iota.
  change (125 =? 125)%N with true. cbv iota.
  reflexivity.
Qed.

Lemma join_pages_head (p : PageRecord) (ps : list PageRecord) :
  exists tl,
    join (lit "," ++ newline_indent 1)
      (List.map (encode 1) (List.map page_dict (p :: ps))) = 123%N :: tl.
Proof. destruct ps; eexists; reflexivity. Qed.

Lemma join_pages_length (ps : list PageRecord) :
  (List.length ps
   <= List.length (join (lit "," ++ newline_indent 1)
                     (List.map (encode 1) (List.map page_dict ps))))%nat.
Proof.
  induction ps as [|p ps IH]; [apply Nat.le_0_l|].
  destruct ps as [|q ps]; [cbn; lia|].
  cbn [List.map]. rewrite join_cons by discriminate.
  rewrite !length_app.
  assert (1 <= List.length (encode 1 (page_dict p)))%nat by (cbn; lia).
  cbn [List.length List.map] in IH |- *. lia.
Qed.

Lemma parse_elements_step (fuel : nat) (s : str) :
  parse_elements (S fuel) s
  = match parse_value fuel s with
    | Some (value, r) =>
        match skip_ws r with
        | [] => None
        | c :: r1 =>
            if (c =? 93)%N then Some ([value], r1)
            else if (c =? 44)%N then
              match parse_elements fuel (skip_ws r1) with
              | Some (values, r2) => Some (value :: values, r2)
              | None => None
              end
            else None
        end
    | None => None
    end.
Proof. reflexivity. Qed.

Lemma parse_elements_pages (ps : list PageRecord) :
  forall (p : PageRecord) (fuel : nat) (rest : str),
    (List.length ps + 5 <= fuel)%nat ->
    parse_elements fuel
      (join (lit "," ++ newline_indent 1)
         (List.map (encode 1) (List.map page_dict (p :: ps)))
       ++ newline_indent 0 ++ 93%N :: rest)
    = Some (List.map page_dict (p :: ps), rest).
Proof.
  induction ps as [|q ps IH]; intros p fuel rest Hfuel;
    destruct fuel as [|[|[|[|[|fuel]]]]]; try (exfalso; cbn in Hfuel; lia);
    rewrite parse_elements_step.
  - cbn [List.map join]. rewrite parse_page_dict.
    rewrite skip_ws_newline_indent. reflexivity.
  - specialize (IH q (S (S (S (S fuel)))) rest).
    destruct (join_pages_head q ps) as [tl Htl].
    rewrite Htl in IH.
    change (List.map (encode 1) (List.map page_dict (p :: q :: ps)))
      with (encode 1 (page_dict p)
            :: List.map (encode 1) (List.map page_dict (q :: ps))).
    rewrite join_cons by discriminate. rewrite Htl.
    rewrite <- !app_assoc. rewrite parse_page_dict.
    change (lit ",") with [COMMA]. cbn [app skip_ws].
    change (is_json_ws COMMA) with false. cbv iota.
    change (COMMA =? 93)%N with false. change (COMMA =? 44)%N with true.
    cbv iota.
    rewrite skip_ws_newline_indent. cbn [app skip_ws] in IH |- *.
    change (is_json_ws 123%N) with false. cbv iota.
    rewrite IH by (cbn in Hfuel; lia). reflexivity.
Qed.

Lemma record_of_page_dict (p : PageRecord) :
  record_of_value (page_dict p) = Some p.
Proof. destruct p. reflexivity. Qed.

Lemma records_of_page_dicts (ps : list PageRecord) :
  records_of_values (List.map page_dict ps) = Some ps.
Proof.
  induction ps as [|p ps IH]; [reflexivity|].
  cbn [List.map records_of_values].
  rewrite record_of_page_dict, IH. reflexivity.
Qed.

Lemma encode_pages (p : PageRecord) (ps : list PageRecord) :
  encode 0 (PyList (List.map page_dict (p :: ps)))
  = 91%N :: newline_indent 1
      ++ join (lit "," ++ newline_indent 1)
           (List.map (encode 1) (List.map page_dict (p :: ps)))
      ++ newline_indent 0 ++ [93%N].
Proof. reflexivity. Qed.

Lemma parse_value_array (fuel : nat) (level : nat) (c : char) (r : str) :
  is_json_ws c = false -> (c =? 93)%N = false ->
  parse_value (S fuel) (91%N :: newline_indent level ++ c :: r)
  = match parse_elements fuel (c :: r) with
    | Some (values, r') => Some (PyList values, r')
    | None => None
    end.
Proof.
  intros Hws Hc. cbn [parse_value]. change (91 =? 34)%N with false.
  change (91 =? 123)%N with false. change (91 =? 91)%N with true. cbv iota.
  rewrite skip_ws_newline_indent. cbn [skip_ws]. rewrite Hws, Hc.
  reflexivity.
Qed.

Lemma escape_char_plain (c : char) :
  (128 <= c)%N -> escape_char c = [c].
Proof.
  intros Hc. unfold escape_char.
  tests_false c [92; 34; 8; 12; 10; 13; 9]%N.
  replace (c <? 32)%N with false by (symmetry; apply N.ltb_ge; lia).
  reflexivity.
Qed.

(** C4. Serializing a sequence of page records with the JSON formatter
    (indentation 2, non-ASCII characters kept as they are) and parsing the
    text back gives the original list of page dictionaries, hence the same
    page numbers and the same text on every record.  A string of non-ASCII
    characters is written between quotes, unchanged. *)
Theorem json_round_trip :
  forall self pages,
    json_loads (extract_to_json self pages)
    = Some (PyList (List.map page_dict pages)) /\
    records_of_value (PyList (List.map page_dict pages)) = Some pages /\
    forall t, Forall (fun c => (128 <= c)%N) t ->
              encode_basestring t = [QUOTE] ++ t ++ [QUOTE].
Proof.
  intros self pages. split; [|split; [apply records_of_page_dicts|]].
  2:{ intros t Ht. unfold encode_basestring. f_equal. f_equal.
      induction Ht as [|c t Hc _ IH]; [reflexivity|].
      cbn [List.flat_map]. rewrite escape_char_plain, IH by exact Hc.
      reflexivity. }
  destruct pages as [|p ps]; [reflexivity|].
  unfold extract_to_json, json_dumps_indent2, json_loads.
  rewrite encode_pages.
  pose proof (join_pages_length (p :: ps)) as Hlen.
  pose proof (parse_elements_pages ps p) as Hp.
  destruct (join_pages_head p ps) as [tl Htl].
  rewrite Htl in Hlen, Hp |- *.
  match goal with
  | |- context [parse_value ?n _] =>
      assert (Hfuel : exists fuel, n = S fuel /\
                                   (List.length ps + 5 <= fuel)%nat)
  end.
  { eexists. split.
    - rewrite Nat.add_succ_r. reflexivity.
    - cbn [List.length]. rewrite !length_app.
      cbn [List.length] in Hlen |- *. lia. }
  destruct Hfuel as (fuel & -> & Hfuel).
  cbn [skip_ws]. change (is_json_ws 91%N) with false. cbv iota.
  cbn [app] in Hp |- *.
  rewrite parse_value_array by reflexivity.
  pose proof (Hp fuel [] Hfuel) as E. unfold str, char in *.
  rewrite E. reflexivity.
Qed.

Lemma json_round_trip_witness :
  encode_basestring [233; 8364; 128512]%N
  = [QUOTE] ++ [233; 8364; 128512]%N ++ [QUOTE].
Proof.
  apply (proj2 (proj2 (json_round_trip (sample "pymupdf") []))).
  repeat constructor; lia.
Defined.

End JsonRoundTrip.

(* ================================================================= *)
(** * Further properties of the extraction *)

Lemma page_text_pymupdf (self : PDFExtractor) (i : Z) :
  is_pymupdf self ->
  page_text self i = mu_get_text (as_pymupdf (pdf_path self)) i.
Proof. unfold is_pymupdf, page_text. intros ->. reflexivity. Qed.

Lemma find_section_world (self : PDFExtractor) (label : str)
    (sp ep : option Z) (w : World) :
  snd (find_section self label sp ep w) = snd (extract_pages self sp ep w).
Proof.
  destruct (extract_pages self sp ep w) as [[ps|e] w1] eqn:Hx.
  - rewrite (find_section_run self label sp ep w _ _ Hx).
    pose proof (scan_pages_shape label ps) as Hshape.
    destruct (scan_pages label None ps) as [r|[s|]]; [reflexivity| |reflexivity].
    destruct Hshape as (pre & p & post & Hps & _).
    destruct (exists_last (l := ps)) as (pre' & last & ->);
      [rewrite Hps; destruct pre; discriminate|].
    unfold bind. rewrite list_getitem_last. reflexivity.
  - rewrite (find_section_raises self label sp ep w _ _ Hx). reflexivity.
Qed.

(** X1. Under pdfplumber the document handle is released on every exit path:
    whatever the range and whether the call returns or raises,
    [extract_pages] and [find_section] leave as many handles open as they
    found. *)
Theorem pdfplumber_always_releases_handle :
  forall self label start_page end_page w,
    is_pdfplumber self ->
    snd (extract_pages self start_page end_page w) = w /\
    snd (find_section self label start_page end_page w) = w.
Proof.
  intros self label sp ep w Hb.
  assert (H : snd (extract_pages self sp ep w) = w)
    by (apply pdfplumber_releases_handle; exact Hb).
  split; [exact H|]. rewrite find_section_world. exact H.
Qed.

Lemma pdfplumber_always_releases_handle_witness :
  snd (extract_pages (mkExtractor damaged_file "pdfplumber") None None w0) = w0
  /\
  snd (find_section (mkExtractor damaged_file "pdfplumber") (lit "one")
         None None w0) = w0.
Proof.
  apply (pdfplumber_always_releases_handle
           (mkExtractor damaged_file "pdfplumber") (lit "one") None None w0).
  reflexivity.
Defined.

(** X2. Under PyMuPDF, for a document that opens, the handle is left open
    exactly when a page of the range fails: one more handle is open after the
    call if and only if the access to some page of the range raises; and when
    every page of the range yields its text the call returns with the handles
    as they were. *)
Theorem pymupdf_handle_left_open_iff_a_page_raises :
  forall self start_page end_page w,
    is_pymupdf self ->
    (open_handles (snd (extract_pages self start_page end_page w))
     = S (open_handles w) <->
     exists i e,
       In i (span start_page end_page (page_count self)) /\
       page_text self i = Raise e) /\
    ((forall i, In i (span start_page end_page (page_count self)) ->
                exists t, page_text self i = Return t) ->
     exists ps, extract_pages self start_page end_page w = (Return ps, w)).
Proof.
  intros self sp ep w Hb.
  rewrite (extract_pages_run self sp ep w (or_introl Hb)).
  unfold is_pymupdf in Hb. rewrite Hb. cbn [String.eqb Ascii.eqb Bool.eqb].
  split; [split|].
  - destruct (gather _ _ _) as [ps|e] eqn:Hg; cbn [snd].
    + intros H. lia.
    + intros _. destruct (gather_raise_inv _ _ _ Hg) as (i & Hi & He). eauto.
  - intros (i & e & Hi & He).
    destruct (gather_raises _ _ i e Hi He) as [e' ->]. reflexivity.
  - intros Hok. destruct (gather_succeeds _ _ Hok) as [ps ->]. eauto.
Qed.

Lemma pymupdf_handle_left_open_iff_a_page_raises_witness :
  open_handles
    (snd (extract_pages (mkExtractor damaged_file "pymupdf") (Some 2) None
            (mkWorld 3))) = 4%nat
  /\
  exists ps,
    extract_pages (mkExtractor damaged_file "pymupdf") (Some 3) None
      (mkWorld 3) = (Return ps, mkWorld 3).
Proof.
  split.
  - apply (proj2 (proj1 (pymupdf_handle_left_open_iff_a_page_raises
                           (mkExtractor damaged_file "pymupdf") (Some 2) None
                           (mkWorld 3) eq_refl))).
    exists 1, (LibraryError 1). split; [|reflexivity].
    vm_compute. left. reflexivity.
  - apply (proj2 (pymupdf_handle_left_open_iff_a_page_raises
                    (mkExtractor damaged_file "pymupdf") (Some 3) None
                    (mkWorld 3) eq_refl)).
    intros i Hi. vm_compute in Hi. destruct Hi as [<- | []].
    eexists. reflexivity.
Defined.

(** X3. For a range whose start is unset, zero or positive, every record
    returned holds the text of the page it is numbered after: its number n
    lies between 1 and the page count, and its text is what [get_text()]
    returned for page index n - 1 under PyMuPDF, what [extract_text()]
    returned for [pdf.pages[n - 1]], with [None] read as the empty string,
    under pdfplumber. *)
Theorem record_holds_text_of_its_page :
  forall self start_page end_page w w' ps p,
    extract_pages self start_page end_page w = (Return ps, w') ->
    0 <= range_start start_page ->
    In p ps ->
    1 <= page_number p <= page_count self /\
    (is_pymupdf self ->
     mu_get_text (as_pymupdf (pdf_path self)) (page_number p - 1)
     = Return (text p)) /\
    (is_pdfplumber self ->
     exists page t,
       List.nth_error (pl_pages (as_pdfplumber (pdf_path self)))
         (Z.to_nat (page_number p - 1)) = Some page /\
       pl_extract_text page = Return t /\
       text p = match t with Some s => s | None => [] end).
Proof.
  intros self sp ep w w' ps p Hx Hs Hp.
  apply extract_pages_return in Hx. destruct Hx as (_ & _ & Hg).
  destruct (gather_In _ _ _ Hg p Hp) as (i & Hi & Hn & Ht).
  apply span_bounds in Hi; [|exact Hs].
  replace (page_number p - 1) with i by lia.
  split; [lia|]. split.
  - intros Hb. rewrite <- page_text_pymupdf by exact Hb. exact Ht.
  - intros Hb. rewrite page_text_pdfplumber in Ht by exact Hb.
    rewrite page_count_pdfplumber in Hi by exact Hb.
    destruct (plumber_text_at (as_pdfplumber (pdf_path self)) i Hi)
      as (page & Hpage & Heq).
    rewrite Heq in Ht.
    destruct (pl_extract_text page) as [t|e] eqn:He; [|discriminate].
    exists page, t. split; [exact Hpage|]. split; [exact He|].
    inversion Ht. apply or_empty_text.
Qed.

Lemma record_holds_text_of_its_page_witness :
  1 <= 2 <= page_count (mkExtractor scanned_file "pdfplumber") /\
  (is_pymupdf (mkExtractor scanned_file "pdfplumber") ->
   mu_get_text (as_pymupdf scanned_file) (2 - 1) = Return []) /\
  (is_pdfplumber (mkExtractor scanned_file "pdfplumber") ->
   exists page t,
     List.nth_error (pl_pages (as_pdfplumber scanned_file))
       (Z.to_nat (2 - 1)) = Some page /\
     pl_extract_text page = Return t /\
     [] = match t with Some s => s | None => [] end).
Proof.
  apply (record_holds_text_of_its_page
           (mkExtractor scanned_file "pdfplumber") None (Some 2) w0 w0
           [mkPage 1 (lit "one"); mkPage 2 []] (mkPage 2 [])).
  - reflexivity.
  - vm_compute. discriminate.
  - right. left. reflexivity.
Defined.

Lemma py_range_cons (a b : Z) :
  a < b -> py_range a b = a :: py_range (a + 1) b.
Proof.
  intros Hab. unfold py_range.
  replace (Z.to_nat (b - a)) with (S (Z.to_nat (b - (a + 1)))) by lia.
  cbn [List.seq List.map]. f_equal; [lia|].
  rewrite <- seq_shift, map_map. apply map_ext. intros k. lia.
Qed.

Lemma py_range_app (a m b : Z) :
  a <= m <= b -> py_range a b = py_range a m ++ py_range m b.
Proof.
  intros Hm. remember (Z.to_nat (m - a)) as n eqn:Hn.
  revert a Hm Hn. induction n as [|n IH]; intros a Hm Hn.
  - assert (a = m) by lia. subst a.
    rewrite (py_range_empty m m) by lia. reflexivity.
  - rewrite (py_range_cons a b), (py_range_cons a m) by lia.
    rewrite (IH (a + 1)) by lia. reflexivity.
Qed.

Lemma gather_app (f : Z -> outcome str) (xs ys : list Z) :
  gather f [] (xs ++ ys)
  = match gather f [] xs with
    | Return ps =>
        match gather f [] ys with
        | Return qs => Return (ps ++ qs)
        | Raise e => Raise e
        end
    | Raise e => Raise e
    end.
Proof.
  induction xs as [|x xs IH].
  - simpl. destruct (gather f [] ys); reflexivity.
  - cbn [app]. rewrite !gather_cons. destruct (f x) as [t|e]; [|reflexivity].
    rewrite IH. destruct (gather f [] xs); [|reflexivity].
    destruct (gather f [] ys); reflexivity.
Qed.

(** X4. An exception on one page aborts the whole extraction: when the
    first page of the range that fails raises [e], [extract_pages] raises
    [e] and returns no partial list. *)
Theorem first_failing_page_aborts_extraction :
  forall self start_page end_page w i e,
    is_pymupdf self \/ is_pdfplumber self ->
    range_start start_page <= i
      < Z.min (range_end end_page (page_count self)) (page_count self) ->
    page_text self i = Raise e ->
    (forall j, range_start start_page <= j < i ->
               exists t, page_text self j = Return t) ->
    fst (extract_pages self start_page end_page w) = Raise e.
Proof.
  intros self sp ep w i e Hb Hi He Hbefore.
  rewrite (extract_pages_run self sp ep w Hb). unfold span.
  rewrite (py_range_app (range_start sp) i) by lia.
  rewrite (py_range_cons i) by lia.
  rewrite gather_app, gather_cons, He.
  destruct (gather_succeeds (page_text self) (py_range (range_start sp) i))
    as [ps ->]; [|reflexivity].
  intros j Hj. apply In_py_range in Hj. apply Hbefore. exact Hj.
Qed.

Lemma first_failing_page_aborts_extraction_witness :
  fst (extract_pages (mkExtractor damaged_file "pdfplumber") None (Some 3) w0)
  = Raise (LibraryError 1).
Proof.
  apply (first_failing_page_aborts_extraction
           (mkExtractor damaged_file "pdfplumber") None (Some 3) w0 1).
  - right. reflexivity.
  - vm_compute. split; [discriminate | reflexivity].
  - reflexivity.
  - intros j Hj. change (range_start None) with 0 in Hj.
    assert (j = 0) by lia. subst j. eexists. reflexivity.
Defined.

(** X5. Extraction of a range is the concatenation of the extractions of
    its two halves: when pages a to c are extracted, with 1 <= a <= b < c,
    pages a to b and pages b + 1 to c are extracted as well and their records,
    in this order, are the records of a to c. *)
Theorem extract_pages_splits :
  forall self a b c w w' ps,
    1 <= a -> a <= b -> b < c ->
    extract_pages self (Some a) (Some c) w = (Return ps, w') ->
    exists ps1 ps2,
      extract_pages self (Some a) (Some b) w = (Return ps1, w) /\
      extract_pages self (Some (b + 1)) (Some c) w = (Return ps2, w) /\
      ps = ps1 ++ ps2.
Proof.
  intros self a b c w w' ps Ha Hab Hbc Hx.
  apply extract_pages_return in Hx. destruct Hx as (Hb & _ & Hg).
  rewrite !(extract_pages_run self _ _ w Hb).
  pose proof (page_count_nonneg self) as Hpc.
  unfold span in *.
  rewrite !range_start_set, !range_end_set in * by lia.
  replace (b + 1 - 1) with b by lia.
  destruct (Z.le_gt_cases (page_count self) b) as [Hlarge | Hsmall].
  - rewrite (py_range_empty b) by lia.
    replace (Z.min b (page_count self)) with (Z.min c (page_count self))
      by lia.
    rewrite Hg. exists ps, []. rewrite app_nil_r. auto.
  - replace (Z.min b (page_count self)) with b by lia.
    rewrite (py_range_app (a - 1) b) in Hg by lia.
    rewrite gather_app in Hg.
    destruct (gather (page_text self) [] (py_range (a - 1) b)) as [ps1|e];
      [|discriminate].
    destruct (gather (page_text self) []
                (py_range b (Z.min c (page_count self)))) as [ps2|e];
      [|discriminate].
    inversion Hg. exists ps1, ps2. auto.
Qed.

Lemma extract_pages_splits_witness :
  exists ps1 ps2,
    extract_pages (sample "pymupdf") (Some 2) (Some 3) w0 = (Return ps1, w0) /\
    extract_pages (sample "pymupdf") (Some (3 + 1)) (Some 5) w0
    = (Return ps2, w0) /\
    [mkPage 2 (lit "Contents"); mkPage 3 (lit "Preface");
     mkPage 4 (lit "3.1 Setting" ++ [NL] ++ lit "see below");
     mkPage 5 (lit "3.2 Methods" ++ [NL] ++ lit "We proceed as follows.")]
    = ps1 ++ ps2.
Proof.
  apply (extract_pages_splits (sample "pymupdf") 2 3 5 w0 w0).
  - lia.
  - lia.
  - lia.
  - reflexivity.
Defined.

(** X6. A bound of 0 is read as no bound: with start and end each unset or
    0, and when no page fails to extract, [extract_pages] returns the whole
    document, numbered from 1 to the page count. *)
Theorem zero_bounds_give_whole_document :
  forall self start_page end_page w,
    is_pymupdf self \/ is_pdfplumber self ->
    start_page = None \/ start_page = Some 0 ->
    end_page = None \/ end_page = Some 0 ->
    (forall i, 0 <= i < page_count self ->
               exists t, page_text self i = Return t) ->
    exists ps,
      extract_pages self start_page end_page w = (Return ps, w) /\
      List.map page_number ps
      = List.map (fun k => 1 + Z.of_nat k)
          (List.seq 0 (Z.to_nat (page_count self))).
Proof.
  intros self sp ep w Hb Hsp Hep Hok.
  rewrite (extract_pages_run self sp ep w Hb).
  assert (Hspan : span sp ep (page_count self) = py_range 0 (page_count self)).
  { unfold span. destruct Hsp as [-> | ->], Hep as [-> | ->];
      cbn [range_start range_end truthy int_value negb Z.eqb];
      rewrite Z.min_id; reflexivity. }
  rewrite Hspan.
  destruct (gather_succeeds (page_text self) (py_range 0 (page_count self)))
    as [ps Hps].
  { intros i Hi. apply Hok. apply In_py_range in Hi. exact Hi. }
  rewrite Hps. exists ps. split; [reflexivity|].
  apply gather_return in Hps. destruct Hps as [Hnum _].
  rewrite Hnum. unfold py_range. rewrite map_map, Z.sub_0_r.
  apply map_ext. intros k. lia.
Qed.

Lemma zero_bounds_give_whole_document_witness :
  exists ps,
    extract_pages (mkExtractor scanned_file "pymupdf") (Some 0) (Some 0) w0
    = (Return ps, w0) /\
    List.map page_number ps
    = List.map (fun k => 1 + Z.of_nat k)
        (List.seq 0
           (Z.to_nat (page_count (mkExtractor scanned_file "pymupdf")))).
Proof.
  apply (zero_bounds_give_whole_document
           (mkExtractor scanned_file "pymupdf") (Some 0) (Some 0) w0).
  - left. reflexivity.
  - right. reflexivity.
  - right. reflexivity.
  - intros i Hi. change (page_count _) with 3 in Hi.
    assert (Hcases : i = 0 \/ i = 1 \/ i = 2) by lia.
    destruct Hcases as [-> | [-> | ->]]; eexists; reflexivity.
Defined.

(** X7. The start of the range is not checked: under pdfplumber a negative
    start page that reaches further back than the document is long makes
    the first page access fail, and [extract_pages] raises [IndexError],
    with the handle released. *)
Theorem pdfplumber_negative_start_raises_index_error :
  forall self start end_page w,
    is_pdfplumber self ->
    start < 0 ->
    start - 1 < - page_count self ->
    (forall e, end_page = Some e -> start <= e) ->
    extract_pages self (Some start) end_page w = (Raise IndexError, w).
Proof.
  intros self s ep w Hb Hneg Hs Hep.
  rewrite (extract_pages_run self (Some s) ep w (or_intror Hb)).
  pose proof (page_count_nonneg self) as Hpc.
  assert (Hend : s <= range_end ep (page_count self)).
  { unfold range_end, truthy, int_value. destruct ep as [e|]; [|lia].
    specialize (Hep e eq_refl). destruct (e =? 0); simpl; lia. }
  unfold span. rewrite range_start_set by lia.
  rewrite py_range_cons by lia. rewrite gather_cons.
  rewrite page_text_pdfplumber by exact Hb.
  rewrite page_count_pdfplumber in Hs by exact Hb.
  unfold plumber_text.
  destruct (Z.ltb_spec (s - 1) 0); [|lia].
  destruct (Z.leb_spec 0 (s - 1 + Z.of_nat
              (List.length (pl_pages (as_pdfplumber (pdf_path self))))));
    [lia|].
  unfold is_pdfplumber in Hb. rewrite Hb. reflexivity.
Qed.

Lemma pdfplumber_negative_start_raises_index_error_witness :
  extract_pages (sample "pdfplumber") (Some (-8)) (Some 2) w0
  = (Raise IndexError, w0).
Proof.
  apply (pdfplumber_negative_start_raises_index_error
           (sample "pdfplumber") (-8) (Some 2) w0).
  - reflexivity.
  - reflexivity.
  - reflexivity.
  - intros e He. inversion He. lia.
Defined.

(* ================================================================= *)
(** * Further properties of the section locator *)

Lemma scan_lines_some_inv (label : str) (s n : Z) (lines : list str)
    (r : Z * Z) :
  scan_lines label s n lines = Some r ->
  exists line, In line lines /\ ends_section label line.
Proof.
  induction lines as [|line lines IH]; simpl; [discriminate|].
  assert (Hrest : scan_lines label s n lines = Some r ->
                  exists l, (line = l \/ In l lines) /\ ends_section label l).
  { intros H. destruct (IH H) as (l & Hl & He). exists l. auto. }
  destruct (startswith_any_digit (strip line)) eqn:Hd; [|exact Hrest].
  destruct (split line) as [|part0 parts] eqn:Hs; [exact Hrest|].
  destruct (PyStr.eqb part0 label) eqn:He; simpl; [exact Hrest|].
  intros _. exists line. split; [left; reflexivity|].
  apply ends_section_iff. split; [exact Hd|]. eauto.
Qed.

Lemma scan_lines_none_inv (label : str) (s n : Z) (lines : list str) :
  scan_lines label s n lines = None ->
  forall line, In line lines -> ~ ends_section label line.
Proof.
  intros Hnone line Hin Hends.
  rewrite (scan_lines_hit label s n lines) in Hnone; [discriminate|].
  exists line. auto.
Qed.

Lemma scan_pages_started_full (label : str) (s : Z)
    (pages : list PageRecord) :
  match scan_pages label (Some s) pages with
  | Returned (s', e) =>
      s' = s /\
      exists mid q post,
        pages = mid ++ q :: post /\
        (forall p, In p mid -> ~ page_ends_section label p) /\
        page_ends_section label q /\ e = page_number q - 1
  | Exhausted x =>
      x = Some s /\ forall p, In p pages -> ~ page_ends_section label p
  end.
Proof.
  induction pages as [|p pages IH]; simpl; [split; [reflexivity | intros p []]|].
  destruct (scan_lines label s (page_number p) (split_on NL (text p)))
    as [[s' e]|] eqn:Hl.
  - pose proof (scan_lines_result label _ _ _ _ Hl) as Hr.
    inversion Hr; subst. split; [reflexivity|].
    exists [], p, pages. split; [reflexivity|]. split; [intros q []|].
    split; [|reflexivity]. exact (scan_lines_some_inv label _ _ _ _ Hl).
  - assert (Hp : ~ page_ends_section label p).
    { intros (line & Hin & Hends).
      exact (scan_lines_none_inv label _ _ _ Hl line Hin Hends). }
    destruct (scan_pages label (Some s) pages) as [[s' e]|x].
    + destruct IH as [-> (mid & q & post & -> & Hmid & Hq & ->)].
      split; [reflexivity|]. exists (p :: mid), q, post.
      split; [reflexivity|]. split; [|auto].
      intros p' [<- | Hin]; [exact Hp | exact (Hmid p' Hin)].
    + destruct IH as [-> Hall]. split; [reflexivity|].
      intros p' [<- | Hin]; [exact Hp | exact (Hall p' Hin)].
Qed.

Lemma scan_pages_full (label : str) (pages : list PageRecord) :
  match scan_pages label None pages with
  | Returned (s, e) =>
      exists pre p mid q post,
        pages = pre ++ p :: mid ++ q :: post /\
        (forall x, In x pre -> ~ is_substring label (text x)) /\
        is_substring label (text p) /\
        (forall x, In x mid -> ~ page_ends_section label x) /\
        page_ends_section label q /\
        s = page_number p /\ e = page_number q - 1
  | Exhausted (Some s) =>
      exists pre p mid,
        pages = pre ++ p :: mid /\
        (forall x, In x pre -> ~ is_substring label (text x)) /\
        is_substring label (text p) /\
        (forall x, In x mid -> ~ page_ends_section label x) /\
        s = page_number p
  | Exhausted None => forall x, In x pages -> ~ is_substring label (text x)
  end.
Proof.
  induction pages as [|p pages IH]; simpl; [intros x []|].
  destruct (contains label (text p)) eqn:Hc.
  - apply contains_substring in Hc.
    pose proof (scan_pages_started_full label (page_number p) pages) as Hs.
    destruct (scan_pages label (Some (page_number p)) pages) as [[s e]|x].
    + destruct Hs as [-> (mid & q & post & -> & Hmid & Hq & ->)].
      exists [], p, mid, q, post.
      split; [reflexivity|]. split; [intros x []|]. auto.
    + destruct Hs as [-> Hall]. exists [], p, pages.
      split; [reflexivity|]. split; [intros x []|]. auto.
  - apply contains_false in Hc.
    assert (Hcons : forall pre, (forall x, In x pre ->
                                  ~ is_substring label (text x)) ->
                    forall x, In x (p :: pre) ->
                              ~ is_substring label (text x)).
    { intros pre Hpre x [<- | Hx]; [exact Hc | exact (Hpre x Hx)]. }
    destruct (scan_pages label None pages) as [[s e]|[s|]].
    + destruct IH as (pre & p0 & mid & q & post & -> & Hpre & H).
      exists (p :: pre), p0, mid, q, post.
      split; [reflexivity|]. split; [exact (Hcons pre Hpre) | exact H].
    + destruct IH as (pre & p0 & mid & -> & Hpre & H).
      exists (p :: pre), p0, mid.
      split; [reflexivity|]. split; [exact (Hcons pre Hpre) | exact H].
    + exact (Hcons pages IH).
Qed.

(** X8. Every match has the reason the scan gives it: when [find_section]
    returns (s, e), s is the number of the first scanned page whose text
    contains the label, no page after it up to the end of the match has a
    line that ends the section, and either the scanned range stops there and
    e is the number of its last page, or the next page has such a line and e
    is that page's number minus 1. *)
Theorem find_section_match_explained :
  forall self label start_page end_page w w' s e,
    find_section self label start_page end_page w
    = (Return (Some (s, e)), w') ->
    exists pre p mid rest,
      extract_pages self start_page end_page w
      = (Return (pre ++ p :: mid ++ rest), w') /\
      (forall x, In x pre -> ~ is_substring label (text x)) /\
      is_substring label (text p) /\
      s = page_number p /\
      (forall x, In x mid -> ~ page_ends_section label x) /\
      ((rest = [] /\
        exists before last, p :: mid = before ++ [last] /\
                            e = page_number last) \/
       (exists q post, rest = q :: post /\ page_ends_section label q /\
                       e = page_number q - 1)).
Proof.
  intros self label sp ep w w' s e Hf.
  destruct (extract_pages self sp ep w) as [[ps|ex] w1] eqn:Hx;
    [|rewrite (find_section_raises self label sp ep w _ _ Hx) in Hf;
      discriminate].
  rewrite (find_section_run self label sp ep w _ _ Hx) in Hf.
  pose proof (scan_pages_full label ps) as Hshape.
  destruct (scan_pages label None ps) as [[s0 e0]|[s0|]].
  - inversion Hf; subst s0 e0 w1.
    destruct Hshape as (pre & p & mid & q & post & -> & Hpre & Hp & Hmid
                        & Hq & -> & ->).
    exists pre, p, mid, (q :: post). split; [reflexivity|].
    repeat (split; [assumption || reflexivity|]).
    right. exists q, post. auto.
  - destruct Hshape as (pre & p & mid & -> & Hpre & Hp & Hmid & ->).
    destruct (exists_last (l := p :: mid)) as (before & last & Hlast);
      [discriminate|].
    rewrite Hlast, app_assoc in Hf. unfold bind in Hf.
    rewrite list_getitem_last in Hf. inversion Hf; subst e w1.
    exists pre, p, mid, []. rewrite app_nil_r. split; [reflexivity|].
    repeat (split; [assumption || reflexivity|]).
    left. split; [reflexivity|]. exists before, last. auto.
  - inversion Hf.
Qed.

Lemma find_section_match_explained_witness :
  exists pre p mid rest,
    extract_pages (sample "pymupdf") (Some 3) None w0
    = (Return (pre ++ p :: mid ++ rest), w0) /\
    (forall x, In x pre -> ~ is_substring (lit "3.3") (text x)) /\
    is_substring (lit "3.3") (text p) /\
    6 = page_number p /\
    (forall x, In x mid -> ~ page_ends_section (lit "3.3") x) /\
    ((rest = [] /\
      exists before last, p :: mid = before ++ [last] /\
                          7 = page_number last) \/
     (exists q post, rest = q :: post /\
                     page_ends_section (lit "3.3") q /\
                     7 = page_number q - 1)).
Proof.
  apply (find_section_match_explained (sample "pymupdf") (lit "3.3")
           (Some 3) None w0 w0 6 7).
  reflexivity.
Defined.

(** X9. [find_section] returns [None] only when the label is nowhere in the
    scanned range: no page returned by [extract_pages] contains it. *)
Theorem find_section_none_means_label_absent :
  forall self label start_page end_page w w',
    find_section self label start_page end_page w = (Return None, w') ->
    exists ps,
      extract_pages self start_page end_page w = (Return ps, w') /\
      forall p, In p ps -> ~ is_substring label (text p).
Proof.
  intros self label sp ep w w' Hf.
  destruct (extract_pages self sp ep w) as [[ps|ex] w1] eqn:Hx;
    [|rewrite (find_section_raises self label sp ep w _ _ Hx) in Hf;
      discriminate].
  rewrite (find_section_run self label sp ep w _ _ Hx) in Hf.
  pose proof (scan_pages_full label ps) as Hshape.
  destruct (scan_pages label None ps) as [[s0 e0]|[s0|]].
  - inversion Hf.
  - destruct Hshape as (pre & p & mid & -> & _).
    destruct (exists_last (l := p :: mid)) as (before & last & Hlast);
      [discriminate|].
    rewrite Hlast, app_assoc in Hf. unfold bind in Hf.
    rewrite list_getitem_last in Hf. inversion Hf.
  - inversion Hf; subst w1. exists ps. auto.
Qed.

Lemma find_section_none_means_label_absent_witness :
  exists ps,
    extract_pages (sample "pdfplumber") (Some 1) (Some 3) w0
    = (Return ps, w0) /\
    forall p, In p ps -> ~ is_substring (lit "3.2") (text p).
Proof.
  apply (find_section_none_means_label_absent (sample "pdfplumber")
           (lit "3.2") (Some 1) (Some 3) w0 w0).
  reflexivity.
Defined.

(** X10. The empty label matches everywhere: with [""] as the label and a
    non-empty scanned range, the match starts at the first scanned page. *)
Theorem find_section_empty_label_starts_at_first_page :
  forall self start_page end_page w w' p ps,
    extract_pages self start_page end_page w = (Return (p :: ps), w') ->
    exists e,
      find_section self [] start_page end_page w
      = (Return (Some (page_number p, e)), w').
Proof.
  intros self sp ep w w' p ps Hx.
  rewrite (find_section_run self [] sp ep w _ _ Hx).
  rewrite scan_pages_at_label by (exists [], (text p); reflexivity).
  pose proof (scan_pages_started [] (page_number p) ps) as Hs.
  destruct (scan_pages [] (Some (page_number p)) ps) as [[s e]|x].
  - destruct Hs as [-> _]. exists e. reflexivity.
  - subst x.
    destruct (exists_last (l := p :: ps)) as (before & last & ->);
      [discriminate|].
    unfold bind. rewrite list_getitem_last. eexists. reflexivity.
Qed.

Lemma find_section_empty_label_starts_at_first_page_witness :
  exists e,
    find_section (sample "pymupdf") [] (Some 7) None w0
    = (Return (Some (7, e)), w0).
Proof.
  apply (find_section_empty_label_starts_at_first_page (sample "pymupdf")
           (Some 7) None w0 w0 (mkPage 7 (lit "continued"))
           [mkPage 8 (lit "4 Discussion")]).
  reflexivity.
Defined.

(** X11. [find_section] raises only what [extract_pages] raises: it ends
    with exception [e] in state [w'] exactly when its call to
    [extract_pages] does; the scan itself, and the read of the last page at
    line 169, never raise. *)
Theorem find_section_raises_only_from_extraction :
  forall self label start_page end_page w w' e,
    find_section self label start_page end_page w = (Raise e, w') <->
    extract_pages self start_page end_page w = (Raise e, w').
Proof.
  intros self label sp ep w w' e. split.
  - intros Hf.
    destruct (extract_pages self sp ep w) as [[ps|ex] w1] eqn:Hx.
    + rewrite (find_section_run self label sp ep w _ _ Hx) in Hf.
      pose proof (scan_pages_shape label ps) as Hshape.
      destruct (scan_pages label None ps) as [[s0 e0]|[s0|]];
        [inversion Hf| |inversion Hf].
      destruct Hshape as (pre & p & post & Hps & _).
      destruct (exists_last (l := ps)) as (before & last & Hlast);
        [rewrite Hps; destruct pre; discriminate|].
      rewrite Hlast in Hf. unfold bind in Hf.
      rewrite list_getitem_last in Hf. inversion Hf.
    + rewrite (find_section_raises self label sp ep w _ _ Hx) in Hf.
      inversion Hf. reflexivity.
  - apply find_section_raises.
Qed.

Lemma find_section_raises_only_from_extraction_witness :
  find_section (mkExtractor damaged_file "pymupdf") (lit "one") None None w0
  = (Raise (LibraryError 1), mkWorld 1).
Proof.
  apply (proj2 (find_section_raises_only_from_extraction
                  (mkExtractor damaged_file "pymupdf") (lit "one") None None
                  w0 (mkWorld 1) (LibraryError 1))).
  reflexivity.
Defined.

Lemma app_inj_length {A} (a c b d : list A) :
  List.length a = List.length c -> a ++ b = c ++ d -> a = c /\ b = d.
Proof.
  revert c. induction a as [|x a IH]; intros [|y c] Hlen Heq;
    try discriminate Hlen.
  - auto.
  - inversion Heq; subst. destruct (IH c) as [-> ->]; auto.
Qed.

Lemma gather_length (f : Z -> outcome str) (xs : list Z)
    (ps : list PageRecord) :
  gather f [] xs = Return ps -> List.length ps = List.length xs.
Proof.
  intros H. apply gather_return in H. destruct H as [H _].
  apply (f_equal (@List.length Z)) in H. rewrite !length_map in H. exact H.
Qed.

(** The scanned pages of a match, with their positions: the match starts at
    the page after [pre] and covers [p :: mid]. *)
Lemma find_section_positions (self : PDFExtractor) (label : str)
    (sp ep : option Z) (w w' : World) (s e : Z) :
  find_section self label sp ep w = (Return (Some (s, e)), w') ->
  exists pre p mid rest,
    extract_pages self sp ep w = (Return (pre ++ (p :: mid) ++ rest), w') /\
    is_substring label (text p) /\
    s = range_start sp + Z.of_nat (List.length pre) + 1 /\
    e = s + Z.of_nat (List.length mid) /\
    page_number p = s.
Proof.
  intros Hf.
  destruct (extract_pages self sp ep w) as [[ps|ex] w1] eqn:Hx;
    [|rewrite (find_section_raises self label sp ep w _ _ Hx) in Hf;
      discriminate].
  rewrite (find_section_run self label sp ep w _ _ Hx) in Hf.
  pose proof (extract_pages_numbers self sp ep w _ _ Hx) as Hnum.
  unfold span in Hnum.
  pose proof (scan_pages_full label ps) as Hshape.
  destruct (scan_pages label None ps) as [[s0 e0]|[s0|]].
  - inversion Hf; subst s0 e0 w1.
    destruct Hshape as (pre & p & mid & q & post & -> & _ & Hp & _ & _
                        & -> & ->).
    exists pre, p, mid, (q :: post). split; [reflexivity|].
    split; [exact Hp|].
    pose proof Hnum as Hq. apply numbered_at in Hnum.
    replace (pre ++ p :: mid ++ q :: post)
      with ((pre ++ p :: mid) ++ q :: post) in Hq
      by (rewrite <- app_assoc; reflexivity).
    apply numbered_at in Hq. rewrite length_app in Hq. simpl in Hq.
    lia.
  - destruct Hshape as (pre & p & mid & -> & _ & Hp & _ & ->).
    destruct (exists_last (l := p :: mid)) as (before & last & Hlast);
      [discriminate|].
    pose proof Hnum as Hl.
    rewrite Hlast, app_assoc in Hf, Hl. unfold bind in Hf.
    rewrite list_getitem_last in Hf. inversion Hf; subst e w1.
    exists pre, p, mid, []. rewrite app_nil_r. split; [reflexivity|].
    split; [exact Hp|].
    apply numbered_at in Hnum. apply numbered_at in Hl.
    apply (f_equal (@List.length PageRecord)) in Hlast.
    rewrite length_app in Hlast, Hl. simpl in Hlast, Hl. lia.
  - inversion Hf.
Qed.

(** Extracting again the pages at positions [length pre] to
    [length pre + length mid] of a range gives the same records. *)
Lemma segment_extraction (self : PDFExtractor) (sp ep : option Z) (w : World)
    (pre mid rest : list PageRecord) (p : PageRecord) (s e : Z) :
  extract_pages self sp ep w = (Return (pre ++ (p :: mid) ++ rest), w) ->
  0 <= range_start sp ->
  s = range_start sp + Z.of_nat (List.length pre) + 1 ->
  e = s + Z.of_nat (List.length mid) ->
  extract_pages self (Some s) (Some e) w = (Return (p :: mid), w).
Proof.
  intros Hx Hstart Hs He.
  pose proof (extract_pages_return self sp ep w w _ Hx) as (Hb & _ & Hg).
  pose proof (gather_length _ _ _ Hg) as Hlen.
  pose proof (page_count_nonneg self) as Hpc.
  unfold span in Hg, Hlen. rewrite py_range_length in Hlen.
  rewrite !length_app in Hlen. cbn [List.length] in Hlen.
  set (a := range_start sp) in *.
  set (b := Z.min (range_end ep (page_count self)) (page_count self)) in *.
  assert (Hb_pc : b <= page_count self) by (unfold b; lia).
  rewrite (extract_pages_run self (Some s) (Some e) w Hb).
  unfold span. rewrite range_start_set, range_end_set by lia.
  replace (Z.min e (page_count self)) with e by lia.
  rewrite (py_range_app a (s - 1) b) in Hg by lia.
  rewrite (py_range_app (s - 1) e b) in Hg by lia.
  rewrite !gather_app in Hg.
  destruct (gather (page_text self) [] (py_range a (s - 1)))
    as [ps1|ex] eqn:H1; [|discriminate].
  destruct (gather (page_text self) [] (py_range (s - 1) e))
    as [ps2|ex] eqn:H2; [|discriminate].
  destruct (gather (page_text self) [] (py_range e b))
    as [ps3|ex] eqn:H3; [|discriminate].
  inversion Hg as [Heq].
  apply gather_length in H1. apply gather_length in H2.
  rewrite py_range_length in H1, H2.
  symmetry in Heq. apply app_inj_length in Heq; [|lia].
  destruct Heq as [_ Heq].
  change (p :: mid ++ rest) with ((p :: mid) ++ rest) in Heq.
  apply app_inj_length in Heq; [|cbn [List.length]; lia].
  destruct Heq as [<- _]. reflexivity.
Qed.

(** X12. The range [find_section] returns can be handed back to
    [extract_pages], as the command line does: for a search range whose start
    is unset, zero or positive, extracting pages s to e succeeds and gives
    e - s + 1 records, a segment of the scanned pages whose first page is
    page s and contains the label. *)
Theorem section_range_extracts_the_section :
  forall self label start_page end_page w w' s e,
    0 <= range_start start_page ->
    find_section self label start_page end_page w
    = (Return (Some (s, e)), w') ->
    exists pre sub post,
      extract_pages self start_page end_page w
      = (Return (pre ++ sub ++ post), w) /\
      extract_pages self (Some s) (Some e) w = (Return sub, w) /\
      Z.of_nat (List.length sub) = e - s + 1 /\
      exists p rest,
        sub = p :: rest /\ page_number p = s /\ is_substring label (text p).
Proof.
  intros self label sp ep w w' s e Hstart Hf.
  destruct (find_section_positions self label sp ep w w' s e Hf)
    as (pre & p & mid & rest & Hx & Hp & Hs & He & Hnp).
  pose proof (extract_pages_return self sp ep w w' _ Hx) as (_ & -> & _).
  exists pre, (p :: mid), rest. split; [exact Hx|]. split.
  - exact (segment_extraction self sp ep w pre mid rest p s e Hx Hstart Hs He).
  - split; [cbn [List.length]; lia|].
    exists p, mid. auto.
Qed.

Lemma section_range_extracts_the_section_witness :
  exists pre sub post,
    extract_pages (sample "pymupdf") (Some 3) None w0
    = (Return (pre ++ sub ++ post), w0) /\
    extract_pages (sample "pymupdf") (Some 6) (Some 7) w0 = (Return sub, w0) /\
    Z.of_nat (List.length sub) = 7 - 6 + 1 /\
    exists p rest,
      sub = p :: rest /\ page_number p = 6 /\
      is_substring (lit "3.3") (text p).
Proof.
  apply (section_range_extracts_the_section (sample "pymupdf") (lit "3.3")
           (Some 3) None w0 w0 6 7).
  - vm_compute. discriminate.
  - reflexivity.
Defined.

(* ================================================================= *)
(** * Further properties of the formatters *)

Lemma extract_to_text_closed (self : PDFExtractor) (pages : list PageRecord)
    (include_page_numbers : bool) :
  extract_to_text self pages include_page_numbers
  = join [NL]
      (List.flat_map
         (fun p => (if include_page_numbers
                    then [[NL] ++ rule60;
                          lit "Page " ++ int_str (page_number p);
                          rule60 ++ [NL]]
                    else []) ++ [text p])
         pages).
Proof.
  unfold extract_to_text. f_equal.
  rewrite (fold_left_append _
             (fun p => (if include_page_numbers
                        then [[NL] ++ rule60;
                              lit "Page " ++ int_str (page_number p);
                              rule60 ++ [NL]]
                        else []) ++ [text p])).
  - reflexivity.
  - intros acc p. destruct include_page_numbers.
    + rewrite <- !app_assoc. reflexivity.
    + reflexivity.
Qed.

Lemma extract_to_markdown_closed (self : PDFExtractor)
    (pages : list PageRecord) :
  extract_to_markdown self pages
  = join [NL]
      (List.flat_map
         (fun p => [[NL] ++ lit "## Page " ++ int_str (page_number p) ++ [NL];
                    text p])
         pages).
Proof.
  unfold extract_to_markdown. f_equal.
  rewrite (fold_left_append _
             (fun p => [[NL] ++ lit "## Page " ++ int_str (page_number p)
                          ++ [NL];
                        text p]))
    by (intros acc p; rewrite <- !app_assoc; reflexivity).
  reflexivity.
Qed.

Lemma join_app (sep : str) (l1 l2 : list str) :
  l1 <> [] -> l2 <> [] ->
  join sep (l1 ++ l2) = join sep l1 ++ sep ++ join sep l2.
Proof.
  intros H1 H2. induction l1 as [|x l1 IH]; [contradiction|].
  destruct l1 as [|y l1].
  - cbn [app]. rewrite join_cons by exact H2. reflexivity.
  - change ((x :: y :: l1) ++ l2) with (x :: (y :: l1) ++ l2).
    rewrite !join_cons by discriminate.
    rewrite IH by discriminate. rewrite <- !app_assoc. reflexivity.
Qed.

Lemma flat_map_nonempty {A B} (g : A -> list B) (l : list A) :
  l <> [] -> (forall x, g x <> []) -> List.flat_map g l <> [].
Proof.
  intros Hl Hg. destruct l as [|x l]; [contradiction|].
  cbn [List.flat_map]. pose proof (Hg x) as Hx.
  destruct (g x); [contradiction | discriminate].
Qed.

Lemma heading_lines (n : Z) :
  split_on NL ([NL] ++ lit "## Page " ++ int_str n ++ [NL])
  = [[]; lit "## Page " ++ int_str n; []].
Proof.
  change ([NL] ++ lit "## Page " ++ int_str n ++ [NL])
    with (NL :: (lit "## Page " ++ int_str n ++ [NL])).
  cbn [split_on]. rewrite N.eqb_refl. f_equal.
  rewrite app_assoc. change [NL] with (NL :: []) at 1.
  rewrite split_on_app_sep. rewrite split_on_no_sep; [reflexivity|].
  intros Hin. apply in_app_or in Hin. destruct Hin as [Hin | Hin].
  - simpl in Hin. unfold NL in Hin.
    repeat (destruct Hin as [Hin | Hin]; [discriminate|]). exact Hin.
  - exact (int_str_no_newline n Hin).
Qed.

(** X13. In the markdown format each page's text is preceded by the string
    made of a newline, "## Page N" and a newline, and the parts are joined
    by a newline: for a non-empty sequence the lines of the output are, page
    after page, an empty line, the heading "## Page N", an empty line and the
    lines of the text. *)
Theorem extract_to_markdown_layout :
  forall self pages,
    extract_to_markdown self pages
    = join [NL]
        (List.flat_map
           (fun p => [[NL] ++ lit "## Page " ++ int_str (page_number p)
                        ++ [NL];
                      text p])
           pages)
    /\
    (pages <> [] ->
     split_on NL (extract_to_markdown self pages)
     = List.flat_map
         (fun p => [[]; lit "## Page " ++ int_str (page_number p); []]
                     ++ split_on NL (text p))
         pages).
Proof.
  intros self pages. split; [apply extract_to_markdown_closed|].
  intros Hne. rewrite extract_to_markdown_closed, split_on_join.
  - rewrite flat_map_flat_map. apply flat_map_ext. intros p.
    cbn [List.flat_map]. rewrite heading_lines, app_nil_r. reflexivity.
  - apply flat_map_nonempty; [exact Hne | discriminate].
Qed.

Lemma extract_to_markdown_layout_witness :
  split_on NL
    (extract_to_markdown (sample "pymupdf")
       [mkPage 8 (lit "4 Discussion")])
  = [[]; lit "## Page 8"; []; lit "4 Discussion"].
Proof.
  apply (proj2 (extract_to_markdown_layout (sample "pymupdf")
                  [mkPage 8 (lit "4 Discussion")])).
  discriminate.
Defined.

(** X14. The text and markdown formatters work page by page: formatting
    two non-empty sequences one after the other gives the first output, a
    newline and the second output, with or without banners. *)
Theorem formatting_concatenates :
  forall self pages1 pages2 include_page_numbers,
    pages1 <> [] -> pages2 <> [] ->
    extract_to_text self (pages1 ++ pages2) include_page_numbers
    = extract_to_text self pages1 include_page_numbers ++ [NL]
        ++ extract_to_text self pages2 include_page_numbers
    /\
    extract_to_markdown self (pages1 ++ pages2)
    = extract_to_markdown self pages1 ++ [NL]
        ++ extract_to_markdown self pages2.
Proof.
  intros self pages1 pages2 flag H1 H2. split.
  - rewrite !extract_to_text_closed, flat_map_app.
    apply join_app; apply flat_map_nonempty; try assumption;
      intros p; destruct flag; discriminate.
  - rewrite !extract_to_markdown_closed, flat_map_app.
    apply join_app; apply flat_map_nonempty; try assumption; discriminate.
Qed.

Lemma formatting_concatenates_witness :
  extract_to_text (sample "pymupdf")
    ([mkPage 7 (lit "continued")] ++ [mkPage 8 (lit "4 Discussion")]) true
  = extract_to_text (sample "pymupdf") [mkPage 7 (lit "continued")] true
      ++ [NL]
      ++ extract_to_text (sample "pymupdf") [mkPage 8 (lit "4 Discussion")]
           true
  /\
  extract_to_markdown (sample "pymupdf")
    ([mkPage 7 (lit "continued")] ++ [mkPage 8 (lit "4 Discussion")])
  = extract_to_markdown (sample "pymupdf") [mkPage 7 (lit "continued")]
      ++ [NL]
      ++ extract_to_markdown (sample "pymupdf")
           [mkPage 8 (lit "4 Discussion")].
Proof.
  apply (formatting_concatenates (sample "pymupdf")
           [mkPage 7 (lit "continued")] [mkPage 8 (lit "4 Discussion")] true);
    discriminate.
Defined.

Lemma json_loads_pages (self : PDFExtractor) (pages : list PageRecord) :
  json_loads (extract_to_json self pages)
  = Some (PyList (List.map page_dict pages)).
Proof.
  destruct pages as [|p ps]; [reflexivity|].
  unfold extract_to_json, json_dumps_indent2, json_loads.
  rewrite encode_pages.
  pose proof (join_pages_length (p :: ps)) as Hlen.
  pose proof (parse_elements_pages ps p) as Hp.
  destruct (join_pages_head p ps) as [tl Htl].
  rewrite Htl in Hlen, Hp |- *.
  match goal with
  | |- context [parse_value ?n _] =>
      assert (Hfuel : exists fuel, n = S fuel /\
                                   (List.length ps + 5 <= fuel)%nat)
  end.
  { eexists. split.
    - rewrite Nat.add_succ_r. reflexivity.
    - cbn [List.length]. rewrite !length_app.
      cbn [List.length] in Hlen |- *. lia. }
  destruct Hfuel as (fuel & -> & Hfuel).
  cbn [skip_ws]. change (is_json_ws 91%N) with false. cbv iota.
  cbn [app] in Hp |- *.
  rewrite parse_value_array by reflexivity.
  pose proof (Hp fuel [] Hfuel) as E. unfold str, char in *.
  rewrite E. reflexivity.
Qed.

(** X15. The JSON output determines the page records: two sequences with
    the same output are equal, so no page number and no character of a text
    is lost or merged by the formatter. *)
Theorem extract_to_json_injective :
  forall self1 self2 pages1 pages2,
    extract_to_json self1 pages1 = extract_to_json self2 pages2 ->
    pages1 = pages2.
Proof.
  intros self1 self2 pages1 pages2 Heq.
  pose proof (json_loads_pages self1 pages1) as H1.
  rewrite Heq, json_loads_pages in H1.
  assert (Hrec : records_of_values (List.map page_dict pages2)
                 = records_of_values (List.map page_dict pages1))
    by (inversion H1; reflexivity).
  rewrite !records_of_page_dicts in Hrec. inversion Hrec. reflexivity.
Qed.

Lemma extract_to_json_injective_witness :
  [mkPage 7 (lit "continued")] = [mkPage 7 (lit "continued")].
Proof.
  apply (extract_to_json_injective (sample "pymupdf") (sample "pdfplumber")
           [mkPage 7 (lit "continued")] [mkPage 7 (lit "continued")]).
  reflexivity.
Defined.

Lemma escape_char_no_newline (c : char) : ~ In NL (escape_char c).
Proof.
  destruct (N.ltb_spec c 32) as [Hlt | Hge].
  - assert (Hc : In c [0; 1; 2; 3; 4; 5; 6; 7; 8; 9; 10; 11; 12; 13; 14; 15;
                       16; 17; 18; 19; 20; 21; 22; 23; 24; 25; 26; 27; 28; 29;
                       30; 31]%N).
    { simpl. lia. }
    simpl in Hc.
    repeat (destruct Hc as [<- | Hc];
            [vm_compute; intros H;
             repeat (destruct H as [H | H]; [discriminate H|]); exact H|]).
    destruct Hc.
  - destruct (N.eqb_spec c 92) as [-> | H92];
      [vm_compute; intros [H | [H | []]]; discriminate H|].
    destruct (N.eqb_spec c 34) as [-> | H34];
      [vm_compute; intros [H | [H | []]]; discriminate H|].
    unfold escape_char.
    replace (c =? 92)%N with false by (symmetry; apply N.eqb_neq; exact H92).
    replace (c =? 34)%N with false by (symmetry; apply N.eqb_neq; exact H34).
    tests_false c [8; 12; 10; 13; 9]%N.
    replace (c <? 32)%N with false by (symmetry; apply N.ltb_ge; exact Hge).
    intros [H | []]. unfold NL in H. lia.
Qed.

Lemma encode_basestring_no_newline (t : str) : ~ In NL (encode_basestring t).
Proof.
  unfold encode_basestring. intros Hin.
  apply in_app_or in Hin. destruct Hin as [[H | []] | Hin]; [discriminate H|].
  apply in_app_or in Hin. destruct Hin as [Hin | [H | []]];
    [|discriminate H].
  apply in_flat_map in Hin. destruct Hin as (c & _ & Hc).
  exact (escape_char_no_newline c Hc).
Qed.

Lemma encode_record (p : PageRecord) :
  encode 1 (page_dict p)
  = join [NL]
      [lit "{";
       lit "    " ++ [QUOTE] ++ lit "page_number" ++ [QUOTE] ++ lit ": "
         ++ int_str (page_number p) ++ lit ",";
       lit "    " ++ [QUOTE] ++ lit "text" ++ [QUOTE] ++ lit ": "
         ++ encode_basestring (text p);
       lit "  }"].
Proof.
  destruct p as [n t]. cbn. repeat (rewrite <- app_assoc; cbn). reflexivity.
Qed.

Lemma lines_without_newline (ls : list str) :
  Forall (fun l => ~ In NL l) ls -> List.flat_map (split_on NL) ls = ls.
Proof.
  induction 1 as [|l ls Hl _ IH]; [reflexivity|].
  cbn [List.flat_map]. rewrite split_on_no_sep, IH by exact Hl. reflexivity.
Qed.

Lemma not_in_app {A} (x : A) (a b : list A) :
  ~ In x a -> ~ In x b -> ~ In x (a ++ b).
Proof. intros Ha Hb Hin. apply in_app_or in Hin. tauto. Qed.

Ltac no_newline :=
  repeat (match goal with
          | |- ~ In _ (_ ++ _) => apply not_in_app
          end);
  try apply int_str_no_newline;
  try apply encode_basestring_no_newline;
  try (vm_compute; intros H;
       repeat (destruct H as [H | H]; [discriminate H|]); exact H).

Lemma json_record_lines_no_newline (p : PageRecord) (is_last : bool) :
  Forall (fun l => ~ In NL l) (json_record_lines p is_last).
Proof.
  unfold json_record_lines.
  apply Forall_cons; [no_newline|].
  apply Forall_cons; [no_newline|].
  apply Forall_cons; [no_newline|].
  apply Forall_cons; [destruct is_last; no_newline | apply Forall_nil].
Qed.

Lemma indented_record (p : PageRecord) (is_last : bool) :
  lit "  " ++ encode 1 (page_dict p) ++ (if is_last then [] else lit ",")
  = join [NL] (json_record_lines p is_last).
Proof.
  rewrite encode_record. unfold json_record_lines.
  destruct is_last; cbn; repeat (rewrite <- app_assoc; cbn); reflexivity.
Qed.

Lemma indented_record_lines (p : PageRecord) (is_last : bool) :
  split_on NL
    (lit "  " ++ encode 1 (page_dict p) ++ (if is_last then [] else lit ","))
  = json_record_lines p is_last.
Proof.
  rewrite indented_record, split_on_join by discriminate.
  apply lines_without_newline, json_record_lines_no_newline.
Qed.

Lemma indented_records (ps : list PageRecord) (p_last : PageRecord) :
  lit "  " ++ join (lit "," ++ newline_indent 1)
                (List.map (encode 1) (List.map page_dict (ps ++ [p_last])))
  = join [NL]
      (List.map (fun p => lit "  " ++ encode 1 (page_dict p) ++ lit ",") ps
       ++ [lit "  " ++ encode 1 (page_dict p_last) ++ []]).
Proof.
  induction ps as [|p ps IH].
  - cbn [List.map app join]. rewrite app_nil_r. reflexivity.
  - cbn [List.map app].
    rewrite (join_cons (lit "," ++ newline_indent 1))
      by (destruct ps; discriminate).
    rewrite (join_cons [NL]) by (destruct ps; discriminate).
    rewrite <- IH. cbn [List.map app].
    change (newline_indent 1) with ([NL] ++ lit "  ").
    rewrite <- !app_assoc. reflexivity.
Qed.

(** X16. The JSON output is laid out one member per line with an
    indentation of 2: for a non-empty sequence its lines are "[", then for
    each record "  {", the page number member, the text member and "  },"
    ("  }" for the last record), then "]".  A newline inside a text is
    escaped and never breaks a line. *)
Theorem extract_to_json_lines :
  forall self pages p_last,
    split_on NL (extract_to_json self (pages ++ [p_last]))
    = [lit "["]
        ++ List.flat_map (fun p => json_record_lines p false) pages
        ++ json_record_lines p_last true
        ++ [lit "]"].
Proof.
  intros self pages p_last.
  assert (Hout : extract_to_json self (pages ++ [p_last])
                 = join [NL]
                     ([lit "["]
                      ++ (List.map
                            (fun p => lit "  " ++ encode 1 (page_dict p)
                                        ++ lit ",") pages
                          ++ [lit "  " ++ encode 1 (page_dict p_last) ++ []])
                      ++ [lit "]"])).
  { rewrite join_app by (try discriminate; destruct pages; discriminate).
    rewrite join_app by (try discriminate; destruct pages; discriminate).
    rewrite <- indented_records.
    unfold extract_to_json, json_dumps_indent2.
    destruct pages as [|p pages]; cbn [app List.map encode];
      change (newline_indent 0) with [NL];
      change (newline_indent 1) with ([NL] ++ lit "  ");
      rewrite <- ?app_assoc; reflexivity. }
  rewrite Hout, split_on_join by discriminate.
  rewrite !flat_map_app. cbn [List.flat_map].
  rewrite (indented_record_lines p_last true), !app_nil_r.
  rewrite (flat_map_concat_map _ (List.map _ pages)), map_map,
    <- flat_map_concat_map.
  rewrite (flat_map_ext _ (fun p => json_record_lines p false))
    by (intros p; apply (indented_record_lines p false)).
  rewrite <- ?app_assoc. reflexivity.
Qed.

(* ================================================================= *)
(** * Properties of the constructor and the command line *)

(** What a successful construction tells: the file exists, one line was
    written to standard error, and the backend is the one asked for, or, under
    [auto], the first available library. *)
Lemma init_inv (env : Env) (path b : string) (c c1 : Console)
    (ex : PDFExtractor) :
  __init__ env path b c = (inl ex, c1) ->
  files env path = Some (pdf_path ex) /\
  c1 = mkConsole (handles c) (stderr c ++ [UsingBackend (backend ex)])
         (emissions c) /\
  (b = "auto"%string ->
   (backend ex = "pymupdf"%string /\ HAS_PYMUPDF env = true) \/
   (backend ex = "pdfplumber"%string /\ HAS_PDFPLUMBER env = true
    /\ HAS_PYMUPDF env = false)) /\
  (b <> "auto"%string -> backend ex = b).
Proof.
  unfold __init__. destruct (files env path) as [file|]; [|discriminate].
  unfold cli_bind, cli_ret, cli_raise, log.
  destruct (String.eqb_spec b "auto") as [-> | Hb].
  - destruct (HAS_PYMUPDF env) eqn:H1.
    + intros H; inversion H; subst. simpl. repeat split; auto.
      intros Hne; contradiction.
    + destruct (HAS_PDFPLUMBER env) eqn:H2; [|discriminate].
      intros H; inversion H; subst. simpl. repeat split; auto.
      intros Hne; contradiction.
  - intros H; inversion H; subst. simpl. repeat split; auto.
    intros Hb'; contradiction.
Qed.

Lemma import_backend_ok (env : Env) (self : PDFExtractor) (c : Console) :
  library_available env (backend self) ->
  import_backend env self c = (inl tt, c).
Proof.
  intros [H1 H2]. unfold import_backend.
  destruct (String.eqb_spec (backend self) "pymupdf") as [Hb | _].
  - rewrite (H1 Hb). reflexivity.
  - destruct (String.eqb_spec (backend self) "pdfplumber") as [Hb | _].
    + rewrite (H2 Hb). reflexivity.
    + reflexivity.
Qed.

Lemma init_console (env : Env) (path b : string) (c c' : Console)
    (r : PDFExtractor + cli_exn) :
  __init__ env path b c = (r, c') ->
  emissions c' = emissions c /\ handles c' = handles c.
Proof.
  unfold __init__. destruct (files env path) as [file|].
  - unfold cli_bind, cli_ret, cli_raise, log.
    destruct (String.eqb b "auto");
      [destruct (HAS_PYMUPDF env); [|destruct (HAS_PDFPLUMBER env)]|];
      intros H; inversion H; auto.
  - unfold cli_raise. intros H; inversion H; auto.
Qed.

Lemma import_backend_console (env : Env) (self : PDFExtractor)
    (c c' : Console) (r : unit + cli_exn) :
  import_backend env self c = (r, c') -> c' = c.
Proof.
  unfold import_backend, cli_ret, cli_raise.
  destruct (String.eqb (backend self) "pymupdf");
    [destruct (HAS_PYMUPDF env)|
     destruct (String.eqb (backend self) "pdfplumber");
       [destruct (HAS_PDFPLUMBER env)|]];
    intros H; inversion H; reflexivity.
Qed.


(** A backend among the [choices] of the parser gives an extractor on one of
    the two libraries. *)
Lemma known_choice (env : Env) (path : string) (b : backend_choice)
    (c c1 : Console) (ex : PDFExtractor) :
  __init__ env path (backend_name b) c = (inl ex, c1) ->
  is_pymupdf ex \/ is_pdfplumber ex.
Proof.
  intros Hi.
  destruct (init_inv env path _ c c1 ex Hi) as (_ & _ & Hauto & Hother).
  unfold is_pymupdf, is_pdfplumber.
  destruct b; cbn [backend_name] in *.
  - left. apply Hother. discriminate.
  - right. apply Hother. discriminate.
  - destruct (Hauto eq_refl) as [[Hb _] | (Hb & _)]; auto.
Qed.

(** Section mode with the library at hand: lines 242-254 by the outcome of
    [find_section]. *)
Lemma choose_pages_section (env : Env) (args : Args.t) (ex : PDFExtractor)
    (c : Console) (label : str) :
  given_section args = Some label ->
  library_available env (backend ex) ->
  choose_pages env args ex c
  = match find_section ex label (Args.search_start args)
            (Args.search_end args) (handles c) with
    | (Return (Some (s, e)), w) =>
        (inl (Pages (Some s) (Some e)),
         mkConsole w
           (stderr c ++ [SearchingForSection label; FoundSection s e])
           (emissions c))
    | (Return None, w) =>
        (inl Return1,
         mkConsole w
           (stderr c ++ [SearchingForSection label; SectionNotFound label])
           (emissions c))
    | (Raise e, w) =>
        (inr (Raised e),
         mkConsole w (stderr c ++ [SearchingForSection label]) (emissions c))
    end.
Proof.
  intros Hs Hlib. unfold choose_pages. rewrite Hs.
  unfold cli_bind at 1. unfold log at 1.
  unfold cli_bind at 1. rewrite (import_backend_ok env ex _ Hlib).
  unfold cli_bind at 1. unfold lift. cbn [handles stderr emissions].
  destruct (find_section ex label _ _ (handles c)) as [[[[s e]|]|e] w];
    unfold cli_bind, log, cli_ret; cbn [handles stderr emissions];
    rewrite <- ?app_assoc; reflexivity.
Qed.

(** Lines 259-280 when the extraction returns. *)
Lemma write_pages_run (env : Env) (args : Args.t) (ex : PDFExtractor)
    (sp ep : option Z) (c : Console) (pages : list PageRecord) (w : World) :
  library_available env (backend ex) ->
  extract_pages ex sp ep (handles c) = (Return pages, w) ->
  write_pages env args ex sp ep c
  = match write_error env (sink_of args) (format_output ex args pages) with
    | None =>
        (inl 0,
         mkConsole w
           (stderr c ++ [ExtractingPages sp ep] ++ output_notice args)
           (emissions c ++ [(sink_of args, format_output ex args pages)]))
    | Some n =>
        (inr (WriteError n),
         mkConsole w (stderr c ++ [ExtractingPages sp ep])
           (emissions c ++ [(sink_of args, format_output ex args pages)]))
    end.
Proof.
  intros Hlib Hx. unfold write_pages.
  unfold cli_bind at 1. unfold log at 1.
  unfold cli_bind at 1. rewrite (import_backend_ok env ex _ Hlib).
  unfold cli_bind at 1. unfold lift. cbn [handles stderr emissions].
  rewrite Hx. unfold sink_of, output_notice.
  destruct (given_output args) as [path|];
    unfold cli_bind, emit, log, cli_ret; cbn [handles stderr emissions];
    destruct (write_error env _ _); cbn [handles stderr emissions];
    rewrite <- ?app_assoc; reflexivity.
Qed.

(** [main] after a successful construction. *)
Lemma main_after_init (env : Env) (args : Args.t) (c c1 : Console)
    (ex : PDFExtractor) :
  __init__ env (Args.pdf_file args) (backend_name (Args.backend args)) c
  = (inl ex, c1) ->
  main env args c
  = match choose_pages env args ex c1 with
    | (inl (Pages sp ep), c2) =>
        match write_pages env args ex sp ep c2 with
        | (inl code, c3) => (code, c3)
        | (inr e, c3) =>
            (1, mkConsole (handles c3) (stderr c3 ++ [ErrorReport e])
                  (emissions c3))
        end
    | (inl Return1, c2) => (1, c2)
    | (inr e, c2) =>
        (1, mkConsole (handles c2) (stderr c2 ++ [ErrorReport e])
              (emissions c2))
    end.
Proof.
  intros Hi. unfold main, main_body. unfold cli_bind at 1. rewrite Hi.
  unfold cli_bind.
  destruct (choose_pages env args ex c1) as [[[sp ep|]|e] c2]; reflexivity.
Qed.

(** X17. A constructor called with backend [auto] that returns has chosen
    PyMuPDF or pdfplumber, PyMuPDF whenever it is installed, and the library of
    the chosen backend could be imported, so that the [import] at the head of
    the backend method does not raise. *)
Theorem auto_backend_is_usable :
  forall env path c ex c1,
    __init__ env path "auto" c = (inl ex, c1) ->
    (is_pymupdf ex \/ is_pdfplumber ex) /\
    (HAS_PYMUPDF env = true -> is_pymupdf ex) /\
    library_available env (backend ex) /\
    import_backend env ex c1 = (inl tt, c1).
Proof.
  intros env path c ex c1 Hinit.
  destruct (init_inv env path "auto" c c1 ex Hinit) as (_ & _ & Hauto & _).
  assert (Hlib : library_available env (backend ex)).
  { destruct (Hauto eq_refl) as [[Hb H1] | (Hb & H2 & H1)];
      rewrite Hb; split; intros Heq; try assumption; discriminate Heq. }
  split; [|split; [|split; [exact Hlib | apply import_backend_ok, Hlib]]].
  - destruct (Hauto eq_refl) as [[Hb _] | (Hb & _)]; [left | right]; exact Hb.
  - intros Hmu. destruct (Hauto eq_refl) as [[Hb _] | (_ & _ & H1)];
      [exact Hb | congruence].
Qed.

Lemma auto_backend_is_usable_witness :
  library_available sample_env "pymupdf".
Proof.
  exact (proj1 (proj2 (proj2
           (auto_backend_is_usable sample_env "paper.pdf" console0
              (sample "pymupdf") (mkConsole w0 [UsingBackend "pymupdf"] [])
              eq_refl)))).
Defined.

(** X18. The constructor does not check the backend name: for an existing
    file and a name other than [auto], [pymupdf] and [pdfplumber] it returns an
    extractor with that name and reports it on standard error; every later
    [extract_pages] and [find_section] raises [ValueError] with the message
    [Unknown backend: <name>], without opening the file. *)
Theorem unknown_backend_fails_at_first_extraction :
  forall env path b c file,
    files env path = Some file ->
    b <> "auto"%string -> b <> "pymupdf"%string -> b <> "pdfplumber"%string ->
    __init__ env path b c
    = (inl (mkExtractor file b),
       mkConsole (handles c) (stderr c ++ [UsingBackend b]) (emissions c)) /\
    forall sp ep w,
      extract_pages (mkExtractor file b) sp ep w
      = (Raise (ValueError ("Unknown backend: " ++ b)), w) /\
      forall label,
        find_section (mkExtractor file b) label sp ep w
        = (Raise (ValueError ("Unknown backend: " ++ b)), w).
Proof.
  intros env path b c file Hfile Ha Hm Hp.
  assert (Hx : forall sp ep w,
             extract_pages (mkExtractor file b) sp ep w
             = (Raise (ValueError ("Unknown backend: " ++ b)), w)).
  { intros sp ep w. unfold extract_pages. cbn [backend].
    destruct (String.eqb_spec b "pymupdf"); [contradiction|].
    destruct (String.eqb_spec b "pdfplumber"); [contradiction|].
    reflexivity. }
  split.
  - unfold __init__. rewrite Hfile.
    destruct (String.eqb_spec b "auto"); [contradiction|]. reflexivity.
  - intros sp ep w. split; [apply Hx|].
    intros label. apply find_section_raises, Hx.
Qed.

Lemma unknown_backend_fails_at_first_extraction_witness :
  __init__ sample_env "paper.pdf" "mupdf" console0
  = (inl (mkExtractor (file_of_texts sample_texts) "mupdf"),
     mkConsole w0 [UsingBackend "mupdf"] []) /\
  extract_pages (mkExtractor (file_of_texts sample_texts) "mupdf")
    None None w0
  = (Raise (ValueError "Unknown backend: mupdf"), w0).
Proof.
  destruct (unknown_backend_fails_at_first_extraction sample_env "paper.pdf"
              "mupdf" console0 (file_of_texts sample_texts))
    as [Hi Hx]; try reflexivity; try discriminate.
  split; [exact Hi | exact (proj1 (Hx None None w0))].
Defined.

(** X19. When the PDF path does not exist, [main] ends with exit code 1
    whatever the other arguments and the installed libraries: the only line
    added to standard error is the report of [FileNotFoundError], no backend is
    announced, nothing is written and no document is opened. *)
Theorem main_reports_missing_file :
  forall env args c,
    files env (Args.pdf_file args) = None ->
    main env args c
    = (1, mkConsole (handles c)
            (stderr c ++
             [ErrorReport
                (FileNotFoundError
                   ("PDF file not found: " ++ Args.pdf_file args))])
            (emissions c)).
Proof.
  intros env args c Hf. unfold main, main_body, cli_bind, __init__.
  rewrite Hf. reflexivity.
Qed.

Lemma main_reports_missing_file_witness :
  main sample_env
    (Args.mk "thesis.pdf" (Some 1) (Some 2) None None None None FormatJson
       BackendPdfplumber false) console0
  = (1, mkConsole w0
          [ErrorReport (FileNotFoundError "PDF file not found: thesis.pdf")]
          []).
Proof.
  apply (main_reports_missing_file sample_env
           (Args.mk "thesis.pdf" (Some 1) (Some 2) None None None None
              FormatJson BackendPdfplumber false) console0).
  reflexivity.
Defined.

(** X20. With neither library installed [main] ends, for every namespace
    [parse_args()] returns, with exit code 1, writes no result and opens no
    document.  Under [auto] the
    constructor fails, with [FileNotFoundError] or [RuntimeError], before any
    other line is written; under an explicit backend the constructor succeeds
    on an existing file and announces the backend, and the failure is the
    [ImportError] of the backend method, after one more progress line. *)
Theorem main_without_library_opens_nothing :
  forall env args c,
    HAS_PYMUPDF env = false ->
    HAS_PDFPLUMBER env = false ->
    exists e before,
      main env args c
      = (1, mkConsole (handles c) (stderr c ++ before ++ [ErrorReport e])
              (emissions c)) /\
      match Args.backend args with
      | BackendAuto =>
          before = [] /\
          ((exists msg, e = FileNotFoundError msg) \/
           (exists msg, e = RuntimeError msg))
      | b =>
          (before = [] /\ exists msg, e = FileNotFoundError msg) \/
          (e = ImportError (backend_name b) /\
           exists m, before = [UsingBackend (backend_name b); m])
      end.
Proof.
  intros env args c H1 H2.
  destruct (files env (Args.pdf_file args)) as [file|] eqn:Hf.
  2:{ exists (FileNotFoundError ("PDF file not found: " ++ Args.pdf_file args)),
        [].
      split.
      - unfold main, main_body, cli_bind, __init__. rewrite Hf. reflexivity.
      - destruct (Args.backend args); eauto. }
  destruct (Args.backend args) eqn:Hb.
  - exists (ImportError "pymupdf").
    destruct (given_section args) as [label|] eqn:Hs.
    + exists [UsingBackend "pymupdf"; SearchingForSection label]. split.
      * unfold main, main_body, cli_bind, __init__, choose_pages,
          import_backend, log, cli_ret, cli_raise.
        rewrite Hf, Hb, Hs. cbn. rewrite H1. cbn.
        rewrite <- !app_assoc. reflexivity.
      * right. split; [reflexivity|]. eauto.
    + exists [UsingBackend "pymupdf";
              ExtractingPages (Args.start args) (Args.end_ args)]. split.
      * unfold main, main_body, cli_bind, __init__, choose_pages,
          write_pages, import_backend, log, cli_ret, cli_raise.
        rewrite Hf, Hb, Hs. cbn. rewrite H1. cbn.
        rewrite <- !app_assoc. reflexivity.
      * right. split; [reflexivity|]. eauto.
  - exists (ImportError "pdfplumber").
    destruct (given_section args) as [label|] eqn:Hs.
    + exists [UsingBackend "pdfplumber"; SearchingForSection label]. split.
      * unfold main, main_body, cli_bind, __init__, choose_pages,
          import_backend, log, cli_ret, cli_raise.
        rewrite Hf, Hb, Hs. cbn. rewrite H2. cbn.
        rewrite <- !app_assoc. reflexivity.
      * right. split; [reflexivity|]. eauto.
    + exists [UsingBackend "pdfplumber";
              ExtractingPages (Args.start args) (Args.end_ args)]. split.
      * unfold main, main_body, cli_bind, __init__, choose_pages,
          write_pages, import_backend, log, cli_ret, cli_raise.
        rewrite Hf, Hb, Hs. cbn. rewrite H2. cbn.
        rewrite <- !app_assoc. reflexivity.
      * right. split; [reflexivity|]. eauto.
  - exists (RuntimeError
              "No PDF library available. Install pymupdf or pdfplumber."), [].
    split.
    + unfold main, main_body, cli_bind, __init__, cli_raise.
      rewrite Hf, Hb. cbn. rewrite H1, H2. reflexivity.
    + split; [reflexivity|]. right. eauto.
Qed.

Lemma main_without_library_opens_nothing_witness :
  exists e before,
    main (mkEnv false false (files sample_env) (write_error sample_env))
      (Args.mk "paper.pdf" None None None None None None FormatText
         BackendPymupdf false) console0
    = (1, mkConsole w0 (before ++ [ErrorReport e]) []) /\
    e = ImportError "pymupdf".
Proof.
  destruct (main_without_library_opens_nothing
              (mkEnv false false (files sample_env) (write_error sample_env))
              (Args.mk "paper.pdf" None None None None None None FormatText
                 BackendPymupdf false) console0 eq_refl eq_refl)
    as (e & before & Hm & Hcase).
  exists e, before. split; [exact Hm|].
  cbn in Hcase. destruct Hcase as [[Hb [msg He]] | [He _]].
  - exfalso. subst. vm_compute in Hm. discriminate Hm.
  - exact He.
Defined.

(** X21. Section mode, label absent: when the pages of the search range are
    extracted and none contains the label, [main] ends with exit code 1 after
    exactly three lines on standard error (backend, searching, not found); the
    line 254 returns from inside the [try], so no error is reported, nothing is
    written and the handles are as before. *)
Theorem main_section_not_found :
  forall env args c ex c1 label ps,
    __init__ env (Args.pdf_file args) (backend_name (Args.backend args)) c
    = (inl ex, c1) ->
    library_available env (backend ex) ->
    given_section args = Some label ->
    extract_pages ex (Args.search_start args) (Args.search_end args)
      (handles c) = (Return ps, handles c) ->
    (forall p, In p ps -> ~ is_substring label (text p)) ->
    main env args c
    = (1, mkConsole (handles c)
            (stderr c ++ [UsingBackend (backend ex);
                          SearchingForSection label;
                          SectionNotFound label])
            (emissions c)).
Proof.
  intros env args c ex c1 label ps Hi Hlib Hs Hx Hno.
  rewrite (main_after_init env args c c1 ex Hi).
  destruct (init_inv env _ _ c c1 ex Hi) as (_ & -> & _).
  rewrite (choose_pages_section env args ex _ label Hs Hlib).
  cbn [handles stderr emissions].
  rewrite (find_section_run ex label _ _ _ _ _ Hx).
  rewrite <- (app_nil_r ps).
  rewrite (scan_pages_before_label label ps []) by exact Hno.
  cbn. rewrite <- app_assoc. reflexivity.
Qed.

Lemma main_section_not_found_witness :
  main sample_env
    (Args.mk "paper.pdf" None None (Some (lit "7.1")) (Some 7) None None
       FormatText BackendAuto false) console0
  = (1, mkConsole w0
          [UsingBackend "pymupdf"; SearchingForSection (lit "7.1");
           SectionNotFound (lit "7.1")] []).
Proof.
  apply (main_section_not_found sample_env
           (Args.mk "paper.pdf" None None (Some (lit "7.1")) (Some 7) None
              None FormatText BackendAuto false) console0
           (sample "pymupdf") (mkConsole w0 [UsingBackend "pymupdf"] [])
           (lit "7.1")
           [mkPage 7 (lit "continued"); mkPage 8 (lit "4 Discussion")]).
  - reflexivity.
  - split; reflexivity.
  - reflexivity.
  - reflexivity.
  - intros p [<- | [<- | []]]; apply contains_false; reflexivity.
Defined.

(** X22. Section mode, label found at pages s to e, for a search range whose
    start is unset, zero or positive: the second extraction, of pages s to e,
    succeeds with e - s + 1 records; [main] hands their formatted text to the
    chosen sink and ends with exit code 0, or with exit code 1 and an error
    report when the write fails.  [--start] and [--end] play no part. *)
Theorem main_section_mode_writes_the_section :
  forall env args c ex c1 label s e w',
    __init__ env (Args.pdf_file args) (backend_name (Args.backend args)) c
    = (inl ex, c1) ->
    library_available env (backend ex) ->
    given_section args = Some label ->
    0 <= range_start (Args.search_start args) ->
    find_section ex label (Args.search_start args) (Args.search_end args)
      (handles c) = (Return (Some (s, e)), w') ->
    exists sub,
      extract_pages ex (Some s) (Some e) (handles c)
      = (Return sub, handles c) /\
      Z.of_nat (List.length sub) = e - s + 1 /\
      main env args c
      = match write_error env (sink_of args) (format_output ex args sub) with
        | None =>
            (0, mkConsole (handles c)
                  (stderr c ++
                   [UsingBackend (backend ex); SearchingForSection label;
                    FoundSection s e; ExtractingPages (Some s) (Some e)] ++
                   output_notice args)
                  (emissions c ++ [(sink_of args, format_output ex args sub)]))
        | Some n =>
            (1, mkConsole (handles c)
                  (stderr c ++
                   [UsingBackend (backend ex); SearchingForSection label;
                    FoundSection s e; ExtractingPages (Some s) (Some e);
                    ErrorReport (WriteError n)])
                  (emissions c ++ [(sink_of args, format_output ex args sub)]))
        end.
Proof.
  intros env args c ex c1 label s e w' Hi Hlib Hs Hstart Hf.
  destruct (find_section_positions ex label _ _ _ _ s e Hf)
    as (pre & p & mid & rest & Hx & _ & Hps & Hpe & _).
  pose proof (extract_pages_return ex _ _ _ _ _ Hx) as (_ & -> & _).
  pose proof (segment_extraction ex _ _ _ pre mid rest p s e Hx Hstart Hps Hpe)
    as Hsub.
  exists (p :: mid). split; [exact Hsub|].
  split; [cbn [List.length]; lia|].
  rewrite (main_after_init env args c c1 ex Hi).
  destruct (init_inv env _ _ c c1 ex Hi) as (_ & -> & _).
  rewrite (choose_pages_section env args ex _ label Hs Hlib).
  cbn [handles stderr emissions]. rewrite Hf.
  rewrite (write_pages_run env args ex (Some s) (Some e) _ (p :: mid)
             (handles c) Hlib) by exact Hsub.
  cbn [handles stderr emissions].
  destruct (write_error env _ _); cbn [handles stderr emissions];
    rewrite <- ?app_assoc; reflexivity.
Qed.

Lemma main_section_mode_writes_the_section_witness :
  exists sub,
    extract_pages (sample "pymupdf") (Some 6) (Some 7) w0 = (Return sub, w0) /\
    Z.of_nat (List.length sub) = 7 - 6 + 1 /\
    main sample_env
      (Args.mk "paper.pdf" (Some 1) (Some 2) (Some (lit "3.3")) (Some 3) None
         (Some "out.md"%string) FormatMarkdown BackendAuto false) console0
    = (0, mkConsole w0
            [UsingBackend "pymupdf"; SearchingForSection (lit "3.3");
             FoundSection 6 7; ExtractingPages (Some 6) (Some 7);
             OutputWrittenTo "out.md"]
            [(OutputFile "out.md",
              extract_to_markdown (sample "pymupdf") sub)]).
Proof.
  apply (main_section_mode_writes_the_section sample_env
           (Args.mk "paper.pdf" (Some 1) (Some 2) (Some (lit "3.3")) (Some 3)
              None (Some "out.md"%string) FormatMarkdown BackendAuto false)
           console0 (sample "pymupdf")
           (mkConsole w0 [UsingBackend "pymupdf"] []) (lit "3.3") 6 7 w0).
  - reflexivity.
  - split; reflexivity.
  - reflexivity.
  - vm_compute. discriminate.
  - reflexivity.
Defined.

(** X23. Without a section, a [--start] beyond the last page is no error:
    when the write succeeds [main] ends with exit code 0 after writing the
    empty string (text and markdown) or the two characters of an empty JSON
    array, whatever [--end] is. *)
Theorem main_start_beyond_last_page_writes_empty_result :
  forall env args c ex c1 s,
    __init__ env (Args.pdf_file args) (backend_name (Args.backend args)) c
    = (inl ex, c1) ->
    library_available env (backend ex) ->
    given_section args = None ->
    Args.start args = Some s ->
    page_count ex < s ->
    let out := match Args.format args with
               | FormatJson => lit "[]"
               | _ => []
               end in
    write_error env (sink_of args) out = None ->
    main env args c
    = (0, mkConsole (handles c)
            (stderr c ++
             [UsingBackend (backend ex);
              ExtractingPages (Some s) (Args.end_ args)] ++
             output_notice args)
            (emissions c ++ [(sink_of args, out)])).
Proof.
  intros env args c ex c1 s Hi Hlib Hs Hstart Hbeyond out Hw.
  pose proof (known_choice env _ _ c c1 ex Hi) as Hb.
  pose proof (page_count_nonneg ex) as Hpc.
  assert (Hx : extract_pages ex (Some s) (Args.end_ args) (handles c)
               = (Return [], handles c)).
  { rewrite (extract_pages_run ex (Some s) (Args.end_ args) _ Hb).
    unfold span. rewrite range_start_set by lia.
    rewrite py_range_empty by lia. reflexivity. }
  assert (Hout : format_output ex args [] = out).
  { unfold format_output, out. destruct (Args.format args); reflexivity. }
  rewrite (main_after_init env args c c1 ex Hi).
  destruct (init_inv env _ _ c c1 ex Hi) as (_ & -> & _).
  unfold choose_pages. rewrite Hs. unfold cli_ret. rewrite Hstart.
  rewrite (write_pages_run env args ex (Some s) (Args.end_ args) _ []
             (handles c) Hlib) by exact Hx.
  rewrite Hout, Hw. cbn [handles stderr emissions].
  rewrite <- ?app_assoc. reflexivity.
Qed.

Lemma main_start_beyond_last_page_writes_empty_result_witness :
  main sample_env
    (Args.mk "paper.pdf" (Some 9) None None None None None FormatJson
       BackendPdfplumber false) console0
  = (0, mkConsole w0
          [UsingBackend "pdfplumber"; ExtractingPages (Some 9) None]
          [(Stdout, lit "[]")]).
Proof.
  apply (main_start_beyond_last_page_writes_empty_result sample_env
           (Args.mk "paper.pdf" (Some 9) None None None None None FormatJson
              BackendPdfplumber false) console0 (sample "pdfplumber")
           (mkConsole w0 [UsingBackend "pdfplumber"] []) 9).
  - reflexivity.
  - split; reflexivity.
  - reflexivity.
  - reflexivity.
  - vm_compute. reflexivity.
  - reflexivity.
Defined.






(** The handles after [extract_pages], on any backend name. *)
Lemma extract_pages_world (self : PDFExtractor) (sp ep : option Z)
    (w : World) :
  match extract_pages self sp ep w with
  | (Return _, w') => w' = w
  | (Raise _, w') =>
      w' = w \/ (is_pymupdf self /\ open_handles w' = S (open_handles w))
  end.
Proof.
  destruct (extract_pages self sp ep w) as [[ps|e] w'] eqn:Hx.
  - exact (handle_released_on_return self sp ep w w' ps Hx).
  - destruct (String.eqb_spec (backend self) "pymupdf") as [H1|H1].
    + right. split; [exact H1|].
      exact (pymupdf_keeps_handle_on_raise self sp ep w w' e H1 Hx).
    + left. destruct (String.eqb_spec (backend self) "pdfplumber") as [H2|H2].
      * pose proof (pdfplumber_releases_handle self sp ep w H2) as Hw.
        rewrite Hx in Hw. exact Hw.
      * destruct (extract_pages_unknown self sp ep w) as [e' He'].
        -- unfold is_pymupdf, is_pdfplumber. tauto.
        -- rewrite Hx in He'. inversion He'. reflexivity.
Qed.

Lemma import_backend_inv (env : Env) (self : PDFExtractor) (c c' : Console) :
  import_backend env self c = (inl tt, c') ->
  is_pymupdf self -> HAS_PYMUPDF env = true.
Proof.
  unfold import_backend, is_pymupdf. intros H Hb. rewrite Hb in H.
  cbn in H. destruct (HAS_PYMUPDF env); [reflexivity | discriminate H].
Qed.

Lemma write_pages_handles (env : Env) (args : Args.t) (ex : PDFExtractor)
    (sp ep : option Z) (c c' : Console) (r : Z + cli_exn) :
  write_pages env args ex sp ep c = (r, c') ->
  handles c' = handles c \/ leak env ex c c' r.
Proof.
  unfold write_pages. unfold cli_bind at 1. unfold log at 1.
  unfold cli_bind at 1.
  destruct (import_backend env ex _) as [[[]|e] c1] eqn:Hi;
    pose proof (import_backend_console _ _ _ _ _ Hi) as ->;
    [|intros H; inversion H; left; reflexivity].
  unfold cli_bind at 1. unfold lift. cbn [handles stderr emissions].
  pose proof (extract_pages_world ex sp ep (handles c)) as Hw.
  destruct (extract_pages ex sp ep (handles c)) as [[pages|e] w].
  - subst w.
    destruct (given_output args) as [path|];
      unfold cli_bind, emit, log, cli_ret; cbn [handles stderr emissions];
      destruct (write_error env _ _);
      intros H; inversion H; left; reflexivity.
  - intros H; inversion H; subst. cbn [handles].
    destruct Hw as [-> | [Hb Hopen]]; [left; reflexivity | right].
    split; [exact Hb|]. split; [exact (import_backend_inv _ _ _ _ Hi Hb)|].
    split; [exact Hopen | eauto].
Qed.

Lemma choose_pages_handles (env : Env) (args : Args.t) (ex : PDFExtractor)
    (c c' : Console) (r : page_choice + cli_exn) :
  choose_pages env args ex c = (r, c') ->
  handles c' = handles c \/ leak env ex c c' r.
Proof.
  unfold choose_pages. destruct (given_section args) as [label|];
    [|unfold cli_ret; intros H; inversion H; left; reflexivity].
  unfold cli_bind at 1. unfold log at 1.
  unfold cli_bind at 1.
  destruct (import_backend env ex _) as [[[]|e] c1] eqn:Hi;
    pose proof (import_backend_console _ _ _ _ _ Hi) as ->;
    [|intros H; inversion H; left; reflexivity].
  unfold cli_bind at 1. unfold lift. cbn [handles stderr emissions].
  pose proof (find_section_world ex label (Args.search_start args)
                (Args.search_end args) (handles c)) as Hfw.
  pose proof (extract_pages_world ex (Args.search_start args)
                (Args.search_end args) (handles c)) as Hw.
  destruct (extract_pages ex _ _ (handles c)) as [[ps|e'] w1] eqn:Hx.
  - subst w1.
    destruct (find_section ex label _ _ (handles c)) as [[result|e] w];
      cbn [snd] in Hfw; subst w;
      [destruct result as [[s e]|]|]; unfold cli_bind, log, cli_ret;
      intros H; inversion H; left; reflexivity.
  - rewrite (find_section_raises ex label _ _ _ _ _ Hx).
    intros H; inversion H; subst. cbn [handles].
    destruct Hw as [-> | [Hb Hopen]]; [left; reflexivity | right].
    split; [exact Hb|]. split; [exact (import_backend_inv _ _ _ _ Hi Hb)|].
    split; [exact Hopen | eauto].
Qed.

(** A page of the range that fails under PyMuPDF makes the call raise with
    the handle open. *)
Lemma extract_pages_page_raise (self : PDFExtractor) (sp ep : option Z)
    (w : World) (i : Z) (e : exn) :
  is_pymupdf self ->
  In i (span sp ep (page_count self)) ->
  page_text self i = Raise e ->
  exists e',
    extract_pages self sp ep w = (Raise e', mkWorld (S (open_handles w))).
Proof.
  intros Hb Hi He.
  rewrite (extract_pages_run self sp ep w (or_introl Hb)).
  unfold is_pymupdf in Hb. rewrite Hb. cbn [String.eqb Ascii.eqb Bool.eqb].
  destruct (gather_raises _ _ i e Hi He) as [e' ->]. eauto.
Qed.

(** X25. Handles when the [try] body of [main] ends, by a return or by an
    exception that line 282 catches.  They are as at the start, unless an
    extraction under PyMuPDF raised: then one more handle is open, PyMuPDF is
    installed, the backend asked for was not [pdfplumber] and the body ended
    with the exception of the extraction.  Conversely, with PyMuPDF installed
    and not set aside, an existing file and a page of the first range
    extracted whose access raises, the body ends with an exception of the
    extraction and one more handle open, nothing is written and [main]
    returns 1. *)
Theorem try_body_leaves_a_handle_iff_a_pymupdf_page_raises :
  forall env args c,
    (forall r c',
        main_body env args c = (r, c') ->
        handles c' = handles c \/
        (open_handles (handles c') = S (open_handles (handles c)) /\
         HAS_PYMUPDF env = true /\
         Args.backend args <> BackendPdfplumber /\
         exists e, r = inr (Raised e)))
    /\
    (forall file i e0,
        files env (Args.pdf_file args) = Some file ->
        HAS_PYMUPDF env = true ->
        Args.backend args <> BackendPdfplumber ->
        In i (span (fst (first_range args)) (snd (first_range args))
                (page_count (mkExtractor file "pymupdf"))) ->
        page_text (mkExtractor file "pymupdf") i = Raise e0 ->
        exists e c',
          main_body env args c = (inr (Raised e), c') /\
          open_handles (handles c') = S (open_handles (handles c)) /\
          emissions c' = emissions c /\
          fst (main env args c) = 1).
Proof.
  intros env args c. split.
  - intros r c' Hrun. unfold main_body in Hrun. unfold cli_bind at 1 in Hrun.
    destruct (__init__ env (Args.pdf_file args)
                (backend_name (Args.backend args)) c) as [[ex|e] c1] eqn:Hinit.
    2:{ inversion Hrun; subst. left. apply init_console in Hinit. tauto. }
    pose proof (init_console _ _ _ _ _ _ Hinit) as [_ Hh1].
    assert (Hchoice : is_pymupdf ex -> Args.backend args <> BackendPdfplumber).
    { intros Hb Heq. rewrite Heq in Hinit.
      destruct (init_inv _ _ _ _ _ _ Hinit) as (_ & _ & _ & Hother).
      unfold is_pymupdf in Hb. rewrite Hother in Hb; discriminate. }
    unfold cli_bind at 1 in Hrun.
    destruct (choose_pages env args ex c1) as [[choice|e] c2] eqn:Hch;
      apply choose_pages_handles in Hch.
    + destruct Hch as [Hh2 | (_ & _ & _ & e & He)]; [|discriminate He].
      destruct choice as [sp ep|];
        [|inversion Hrun; subst; left; congruence].
      apply write_pages_handles in Hrun.
      destruct Hrun as [Hh3 | (Hb & Hmu & Hopen & e' & He)];
        [left; congruence|].
      right. repeat split; auto; [congruence | exists e'; congruence].
    + inversion Hrun; subst.
      destruct Hch as [Hh2 | (Hb & Hmu & Hopen & e' & He)];
        [left; congruence|].
      right. repeat split; auto; [congruence | exists e'; congruence].
  - intros file i e0 Hfile Hmu Hnot Hi He.
    set (ex := mkExtractor file "pymupdf") in *.
    assert (Hinit : __init__ env (Args.pdf_file args)
                      (backend_name (Args.backend args)) c
                    = (inl ex,
                       mkConsole (handles c)
                         (stderr c ++ [UsingBackend "pymupdf"])
                         (emissions c))).
    { unfold __init__. rewrite Hfile.
      destruct (Args.backend args); [reflexivity | contradiction|].
      cbn. rewrite Hmu. reflexivity. }
    assert (Hlib : library_available env (backend ex)).
    { split; intros H; [exact Hmu | discriminate H]. }
    assert (Hmain : forall e c',
               main_body env args c = (inr (Raised e), c') ->
               fst (main env args c) = 1).
    { intros e c' H. unfold main. rewrite H. reflexivity. }
    unfold first_range in Hi.
    destruct (given_section args) as [label|] eqn:Hs; cbn [fst snd] in Hi.
    + destruct (extract_pages_page_raise ex (Args.search_start args)
                  (Args.search_end args) (handles c) i e0 eq_refl Hi He)
        as [e Hx].
      assert (Hrun : main_body env args c
                     = (inr (Raised e),
                        mkConsole (mkWorld (S (open_handles (handles c))))
                          (stderr c ++ [UsingBackend "pymupdf";
                                        SearchingForSection label])
                          (emissions c))).
      { unfold main_body. unfold cli_bind at 1. rewrite Hinit.
        unfold cli_bind at 1.
        rewrite (choose_pages_section env args ex _ label Hs Hlib).
        cbn [handles stderr emissions].
        rewrite (find_section_raises ex label _ _ _ _ _ Hx).
        rewrite <- app_assoc. reflexivity. }
      exists e. eexists. split; [exact Hrun|].
      split; [reflexivity|]. split; [reflexivity|]. exact (Hmain _ _ Hrun).
    + destruct (extract_pages_page_raise ex (Args.start args)
                  (Args.end_ args) (handles c) i e0 eq_refl Hi He)
        as [e Hx].
      assert (Hrun : main_body env args c
                     = (inr (Raised e),
                        mkConsole (mkWorld (S (open_handles (handles c))))
                          (stderr c ++ [UsingBackend "pymupdf";
                                        ExtractingPages (Args.start args)
                                          (Args.end_ args)])
                          (emissions c))).
      { unfold main_body. unfold cli_bind at 1. rewrite Hinit.
        unfold cli_bind at 1. unfold choose_pages. rewrite Hs.
        unfold cli_ret at 1. unfold write_pages.
        unfold cli_bind at 1. unfold log at 1.
        unfold cli_bind at 1. rewrite (import_backend_ok env ex _ Hlib).
        unfold cli_bind at 1. unfold lift. cbn [handles stderr emissions].
        rewrite Hx. rewrite <- app_assoc. reflexivity. }
      exists e. eexists. split; [exact Hrun|].
      split; [reflexivity|]. split; [reflexivity|]. exact (Hmain _ _ Hrun).
Qed.

Lemma try_body_leaves_a_handle_iff_a_pymupdf_page_raises_witness :
  exists e c',
    main_body damaged_env
      (Args.mk "damaged.pdf" None None None None None None FormatText
         BackendAuto false) console0
    = (inr (Raised e), c') /\
    open_handles (handles c') = S (open_handles (handles console0)) /\
    emissions c' = emissions console0 /\
    fst (main damaged_env
           (Args.mk "damaged.pdf" None None None None None None FormatText
              BackendAuto false) console0) = 1.
Proof.
  apply (proj2 (try_body_leaves_a_handle_iff_a_pymupdf_page_raises damaged_env
                  (Args.mk "damaged.pdf" None None None None None None
                     FormatText BackendAuto false) console0)
           damaged_file 1 (LibraryError 1)).
  - reflexivity.
  - reflexivity.
  - discriminate.
  - vm_compute. right. left. reflexivity.
  - reflexivity.
Defined.
